(** * AutomatedProbing: four-point-probe measurement scripts

    A shallow embedding of [get_conductivity.py] and [check_connection.py].
    Python floats are IEEE binary64 values, so they are embedded as Rocq's
    primitive floats; general facts about them go through the specification
    of [Floats.FloatAxioms].  The two devices, the file system, the
    keyboard and the console are the environment: device calls and file
    operations are answered by oracles, the keyboard is a finite list of
    lines, and everything the program does to the outside is recorded in a
    trace. *)

From Stdlib Require Import ZArith List Bool String Ascii Floats Lia.
Import ListNotations.

Set Warnings "-inexact-float".

(* ================================================================== *)
(** * Python values *)
(* ================================================================== *)

Module Py.

(** The exception classes the two scripts can meet.  [KeyboardInterrupt] is
    the only one that does not derive from [Exception]. *)
Inductive exn : Type :=
| KeyboardInterrupt
| EOFError
| ValueError
| OverflowError
| ZeroDivisionError
| TypeError
| ImportError
| RecursionError
| OSError
| DeviceError (code : nat).

Definition is_Exception (e : exn) : bool :=
  match e with
  | KeyboardInterrupt => false
  | _ => true
  end.

Definition is_ImportError (e : exn) : bool :=
  match e with
  | ImportError => true
  | _ => false
  end.

(** The outcome of evaluating an expression: a value or a raised exception. *)
Inductive result (A : Type) : Type :=
| Ok (a : A)
| Raise (e : exn).
Arguments Ok {A} a.
Arguments Raise {A} e.

Definition rbind {A B : Type} (r : result A) (k : A -> result B) : result B :=
  match r with
  | Ok a => k a
  | Raise e => Raise e
  end.

(** ** Floats *)

(** [a > b] and [a >= b] on floats; every comparison with NaN is false. *)
Definition fgt (a b : float) : bool := (b <? a)%float.
Definition fge (a b : float) : bool := (b <=? a)%float.

(** The float nearest to an integer (ties to even), as Python converts an
    [int] operand of a mixed operation.  The integers of these scripts are
    small literals and motor step counts, all exactly representable. *)
Definition float_of_Z (z : Z) : float :=
  SF2Prim (binary_normalize prec emax z 0 false).

(** [int(x)]: truncation toward zero; NaN and the infinities raise. *)
Definition int_of_float (x : float) : result Z :=
  match Prim2SF x with
  | S754_zero _ => Ok 0%Z
  | S754_nan => Raise ValueError
  | S754_infinity _ => Raise OverflowError
  | S754_finite s m e =>
      let mag := Z.shiftl (Zpos m) e in
      Ok (if s then Z.opp mag else mag)
  end.

(** The least integer not below [x], [None] when [x] is not finite. *)
Definition ceil_of_float (x : float) : option Z :=
  match Prim2SF x with
  | S754_zero _ => Some 0%Z
  | S754_nan | S754_infinity _ => None
  | S754_finite s m e =>
      let mag := Z.shiftl (Zpos m) e in
      let exact := Z.eqb (Z.shiftl mag (- e)) (Zpos m) in
      Some (if s then Z.opp mag
            else if (0 <=? e)%Z || exact then mag else (mag + 1)%Z)
  end.

(** ** Numbers: [int] or [float] *)

Inductive pynum : Type :=
| PyInt (z : Z)
| PyFloat (f : float).

Definition to_float (x : pynum) : float :=
  match x with
  | PyInt z => float_of_Z z
  | PyFloat f => f
  end.

(** [abs(x)] keeps the type of its argument. *)
Definition py_abs (x : pynum) : pynum :=
  match x with
  | PyInt z => PyInt (Z.abs z)
  | PyFloat f => PyFloat (abs f)
  end.

(** [a < b]; an [int] compared with a [float] is compared as a float, which
    is exact for the small integer literals of these scripts. *)
Definition py_lt (a b : pynum) : bool :=
  match a, b with
  | PyInt x, PyInt y => (x <? y)%Z
  | _, _ => (to_float a <? to_float b)%float
  end.

Definition py_gt (a b : pynum) : bool := py_lt b a.

Definition py_le (a b : pynum) : bool :=
  match a, b with
  | PyInt x, PyInt y => (x <=? y)%Z
  | _, _ => (to_float a <=? to_float b)%float
  end.

Definition py_ge (a b : pynum) : bool := py_le b a.

Definition py_add (a b : pynum) : pynum :=
  match a, b with
  | PyInt x, PyInt y => PyInt (x + y)
  | _, _ => PyFloat (to_float a + to_float b)
  end.

Definition py_mul (a b : pynum) : pynum :=
  match a, b with
  | PyInt x, PyInt y => PyInt (x * y)
  | _, _ => PyFloat (to_float a * to_float b)
  end.

(** An [int] as an exact binary number. *)
Definition sf_of_Z (z : Z) : spec_float :=
  match z with
  | Z0 => S754_zero false
  | Zpos p => S754_finite false p 0
  | Zneg p => S754_finite true p 0
  end.

(** [x / y] on two [int]s: the exact quotient, rounded once to the nearest
    float (ties to even); a quotient too large for a float raises
    [OverflowError]. *)
Definition int_truediv (x y : Z) : result pynum :=
  if (y =? 0)%Z then Raise ZeroDivisionError
  else
    match SF64div (sf_of_Z x) (sf_of_Z y) with
    | S754_infinity _ => Raise OverflowError
    | q => Ok (PyFloat (SF2Prim q))
    end.

(** [a / b]: true division always gives a float, and a zero divisor (of
    either sign) raises [ZeroDivisionError] instead of giving an infinity.
    Two [int]s are divided exactly; with a [float] operand the other
    operand is converted first (the scripts do this with the literal [1]
    only). *)
Definition py_truediv (a b : pynum) : result pynum :=
  match a, b with
  | PyInt x, PyInt y => int_truediv x y
  | _, _ =>
      if (to_float b =? 0)%float then Raise ZeroDivisionError
      else Ok (PyFloat (to_float a / to_float b))
  end.

(** ** Strings *)

(** A character is one of the first 256 code points of Python's [str]
    (the Latin-1 range); text with other characters is outside the model.
    White space, as [str.strip] and [str.isspace] see it on that range:
    the ASCII white space, the next-line control U+0085 and the no-break
    space U+00A0. *)
Definition isspace (c : ascii) : bool :=
  let n := nat_of_ascii c in
  ((9 <=? n) && (n <=? 13) || (28 <=? n) && (n <=? 32)
   || (n =? 133) || (n =? 160))%nat.

Fixpoint lstrip (s : string) : string :=
  match s with
  | EmptyString => EmptyString
  | String c rest => if isspace c then lstrip rest else s
  end.

Fixpoint rstrip (s : string) : string :=
  match s with
  | EmptyString => EmptyString
  | String c rest =>
      match rstrip rest with
      | EmptyString => if isspace c then EmptyString else String c EmptyString
      | rest' => String c rest'
      end
  end.

Definition strip (s : string) : string := rstrip (lstrip s).

(** [c.isalnum()] on the same range: the ASCII digits and letters, the
    ordinal indicators U+00AA and U+00BA, the superscript digits U+00B2,
    U+00B3 and U+00B9, the micro sign U+00B5, the fractions U+00BC to
    U+00BE, and the Latin-1 letters U+00C0 to U+00FF without the
    multiplication sign U+00D7 and the division sign U+00F7. *)
Definition isalnum (c : ascii) : bool :=
  let n := nat_of_ascii c in
  ((48 <=? n) && (n <=? 57) || (65 <=? n) && (n <=? 90)
   || (97 <=? n) && (n <=? 122)
   || (n =? 170) || (n =? 178) || (n =? 179) || (n =? 181)
   || (n =? 185) || (n =? 186) || (188 <=? n) && (n <=? 190)
   || (192 <=? n) && (n <=? 214) || (216 <=? n) && (n <=? 246)
   || (248 <=? n) && (n <=? 255))%nat.

Fixpoint keep (p : ascii -> bool) (s : string) : string :=
  match s with
  | EmptyString => EmptyString
  | String c rest => if p c then String c (keep p rest) else keep p rest
  end.

End Py.
Import Py.

(* ================================================================== *)
(** * The environment: devices, keyboard, console, files *)
(* ================================================================== *)

Module World.

(** Every call the scripts make into the two vendor SDKs (pylablib's
    [Thorlabs.KinesisMotor] and [xtralien.Device]), and the two imports that
    [check_connection.py] performs inside its [try] blocks. *)
Inductive call : Type :=
| ImportThorlabs
| ImportXtralien
| StageOpen
| StageEnable
| StageIsHomed
| StageGetPosition
| StageGetStatus
| StageHome
| StageWaitForHome
| StageMoveTo (steps : Z)
| StageWaitMove
| StageClose
| ProbeOpen
| ProbeHello
| ProbeTempRead
| ProbeLimitI (amps : float)
| ProbeLimitV (volts : float)
| ProbeEnabled (on : bool)
| ProbeVoltage (volts : pynum)
| ProbeOneshot (volts : float)
| ProbeClose.

(** What a call gives back: a Python value of one of the shapes the scripts
    look at, or a raised exception.  [RData v i] is the array returned by
    [smu1.oneshot], whose [data[0][0]] and [data[0][1]] convert to the
    floats [v] and [i]. *)
Inductive reply : Type :=
| RNone
| RBool (b : bool)
| RInt (z : Z)
| RData (v i : float)
| RRaise (e : exn).

(** One line of keyboard input, or Ctrl-C at the prompt.  The end of the
    list is the end of the input stream. *)
Inductive key : Type :=
| Typed (line : string)
| CtrlC.

(** Console lines that carry a decision or a value.  Banners, separators
    and fixed help texts are left out. *)
Inductive message : Type :=
(* get_conductivity.py *)
| MsgStageNotHomed
| MsgStageConnected
| MsgStageFailed (e : exn)
| MsgProbeConnected
| MsgProbeFailed (e : exn)
| MsgAllConnected
| MsgThicknessNotPositive
| MsgThicknessSet (mm m : float)
| MsgInvalidNumber
| MsgSample (name : string)
| MsgCurrentPosition (mm : float)
| MsgReached (mm : float)
| MsgContactReading (v i : float)
| MsgGoodContact
| MsgLowCurrent (height_mm : float)
| MsgMovingTo (height_mm : float)
| MsgAborting
| MsgOverriding
| MsgInvalidChoice
| MsgSweepRow (set_v meas_v meas_i : float) (rs sigma : pynum)
| MsgSweepError (set_v : float) (e : exn)
| MsgSweepDone
| MsgSummary (avg_rs avg_sigma : pynum)
| MsgAtHome (pos : reply)
| MsgProbeShutdown
| MsgStageShutdown
| MsgAbortedByUser
| MsgComplete
| MsgInterrupted
| MsgError (e : exn)
(* check_connection.py *)
| ChkStageConnected
| ChkStageState (pos homed : reply)
| ChkHomingStart
| ChkHomingStatus (status : reply)
| ChkHomingDone
| ChkFinalPosition (pos : reply)
| ChkAlreadyHomed
| ChkMovingHome
| ChkAtHome (pos : reply)
| ChkAlreadyAtHome
| ChkStagePassed
| ChkNoPylablib
| ChkStageError (e : exn)
| ChkProbeConnected
| ChkProbeResponse (r : reply)
| ChkProbeTemperature (r : reply)
| ChkProbePassed
| ChkNoXtralien
| ChkProbeError (e : exn)
| ChkStatusStage (ok : bool)
| ChkStatusProbe (ok : bool)
| ChkAllReady
| ChkNotReady.

(** A cell of the CSV file, before [csv.writer] turns it into text. *)
Inductive cell : Type :=
| CText (s : string)
| CNum (x : pynum).

Inductive event : Type :=
| Called (c : call) (r : reply)
| Printed (m : message)
| CsvWritten (rows : list (list cell))
| PlotSaved (voltages currents : list pynum) (avg_rs avg_sigma : pynum).

(** What [save_results] asks of the file system and of matplotlib, each of
    which can fail: the results folder ([os.path.exists] and
    [os.makedirs]), the CSV file (the whole [with] block: [open] under the
    name made from the sample name, the header, the rows, and closing),
    and the plot (the figure, then [savefig] under the same name).  The
    sample name is the attribute as it stands, [None] included.  The
    events [CsvWritten] and [PlotSaved] stand for an operation that went
    through. *)
Inductive file_op : Type :=
| MakeFolder
| WriteCsv (sample : option string) (rows : list (list cell))
| SavePlot (sample : option string) (voltages currents : list pynum)
    (avg_rs avg_sigma : pynum).

(** What the scripts take from outside their own text: the devices; the
    file system, which answers an operation with the exception it raises,
    if any; the two library functions whose algorithms are not part of
    the repository, the builtin [float] on a string ([None] for
    [ValueError]) and [numpy.mean] on a non-empty list of floats; and the
    room the interpreter leaves for nested calls of [verify_contact]
    before it raises [RecursionError] (somewhat under 1000 with CPython's
    default limit). *)
Record env : Type := {
  device : nat -> call -> reply;
  storage : nat -> file_op -> option exn;
  py_float : string -> option float;
  np_mean : list float -> float;
  recursion_limit : nat
}.

(** The interpreter state: the attributes of the [AutomatedProbeSystem]
    instance ([None] or a handle for the two devices), the number of device
    calls made so far, and the trace in chronological order. *)
Record machine : Type := {
  stage : bool;
  probe : bool;
  sample_name : option string;
  thickness_m : option float;
  clock : nat;
  trace : list event
}.

Definition fresh : machine :=
  {| stage := false; probe := false; sample_name := None;
     thickness_m := None; clock := 0; trace := [] |}.

Definition record (ev : event) (s : machine) : machine :=
  {| stage := stage s; probe := probe s; sample_name := sample_name s;
     thickness_m := thickness_m s; clock := clock s;
     trace := trace s ++ [ev] |}.

Definition tick (s : machine) : machine :=
  {| stage := stage s; probe := probe s; sample_name := sample_name s;
     thickness_m := thickness_m s; clock := S (clock s);
     trace := trace s |}.

Definition with_stage (b : bool) (s : machine) : machine :=
  {| stage := b; probe := probe s; sample_name := sample_name s;
     thickness_m := thickness_m s; clock := clock s; trace := trace s |}.

Definition with_probe (b : bool) (s : machine) : machine :=
  {| stage := stage s; probe := b; sample_name := sample_name s;
     thickness_m := thickness_m s; clock := clock s; trace := trace s |}.

Definition with_sample_name (n : string) (s : machine) : machine :=
  {| stage := stage s; probe := probe s; sample_name := Some n;
     thickness_m := thickness_m s; clock := clock s; trace := trace s |}.

Definition with_thickness (t : float) (s : machine) : machine :=
  {| stage := stage s; probe := probe s; sample_name := sample_name s;
     thickness_m := Some t; clock := clock s; trace := trace s |}.

(** ** The monad of statements: state plus exceptions *)

Definition M (A : Type) : Type := machine -> result A * machine.

Definition ret {A : Type} (a : A) : M A := fun s => (Ok a, s).

Definition raise {A : Type} (e : exn) : M A := fun s => (Raise e, s).

Definition bind {A B : Type} (m : M A) (k : A -> M B) : M B :=
  fun s =>
    match m s with
    | (Ok a, s') => k a s'
    | (Raise e, s') => (Raise e, s')
    end.

Definition lift {A : Type} (r : result A) : M A := fun s => (r, s).

Definition get : M machine := fun s => (Ok s, s).

Definition modify (f : machine -> machine) : M unit := fun s => (Ok tt, f s).

(** [try: m except C as e: h e], where [C] is the set of exceptions the
    clause catches.  The handler runs in the state the exception left. *)
Definition try_except {A : Type} (m : M A) (catches : exn -> bool)
  (h : exn -> M A) : M A :=
  fun s =>
    match m s with
    | (Ok a, s') => (Ok a, s')
    | (Raise e, s') => if catches e then h e s' else (Raise e, s')
    end.

Definition say (m : message) : M unit := modify (record (Printed m)).

Declare Scope py_scope.
Delimit Scope py_scope with py.
Notation "x <- m ;; k" := (bind m (fun x => k))
  (at level 61, m at next level, right associativity) : py_scope.
Notation "' p <- m ;; k" := (bind m (fun x => match x with p => k end))
  (at level 61, p pattern, m at next level, right associativity) : py_scope.
Notation "m ;; k" := (bind m (fun _ => k))
  (at level 61, right associativity) : py_scope.

Section Calls.
Variable E : env.

(** A device call: the oracle answers call number [clock], the call and its
    answer go into the trace, and a raised exception propagates. *)
Definition invoke (c : call) : M reply :=
  fun s =>
    let r := device E (clock s) c in
    let s' := record (Called c r) (tick s) in
    match r with
    | RRaise e => (Raise e, s')
    | _ => (Ok r, s')
    end.

End Calls.

(** Truth value of a returned object, as [if x] and [not x] take it. *)
Definition truthy (r : reply) : bool :=
  match r with
  | RNone => false
  | RBool b => b
  | RInt z => negb (z =? 0)%Z
  | RData _ _ => true
  | RRaise _ => false
  end.

(** A returned object used as a number; [True] and [False] count as 1
    and 0. *)
Definition as_number (r : reply) : result pynum :=
  match r with
  | RInt z => Ok (PyInt z)
  | RBool b => Ok (PyInt (if b then 1 else 0))
  | _ => Raise TypeError
  end.

(** [float(data[0][0]), float(data[0][1])]. *)
Definition as_reading (r : reply) : result (float * float) :=
  match r with
  | RData v i => Ok (v, i)
  | _ => Raise TypeError
  end.

End World.
Import World.
Open Scope py_scope.

(* ================================================================== *)
(** * numpy.arange *)
(* ================================================================== *)

(** [numpy.arange(start, stop, step)] on floats, as numpy fills it: the
    length is [ceil((stop - start) / step)], the first two entries are
    [start] and [start + step], and entry [k >= 2] is [start + k * delta]
    with [delta] the difference of the first two entries. *)
Definition np_arange (start stop step : float) : list float :=
  match ceil_of_float ((stop - start) / step)%float with
  | None => []
  | Some len =>
      let second := (start + step)%float in
      let delta := (second - start)%float in
      firstn (Z.to_nat len)
        (start :: second ::
         map (fun k => (start + float_of_Z (Z.of_nat k) * delta)%float)
             (seq 2 (Z.to_nat len - 2)))
  end.

(* ================================================================== *)
(** * get_conductivity.py *)
(* ================================================================== *)

Module GetConductivity.

(** ** Configuration *)

Definition CONTACT_HEIGHT_MM : float := 5.4%float.
Definition STEPS_PER_MM : Z := 34304.
(** [int(CONTACT_HEIGHT_MM * STEPS_PER_MM)], evaluated once when the module
    is loaded; the conversion does not raise (see [contact_height_steps]). *)
Definition CONTACT_HEIGHT_STEPS : Z :=
  match int_of_float (CONTACT_HEIGHT_MM * float_of_Z STEPS_PER_MM)%float with
  | Ok z => z
  | Raise _ => 0
  end.

Definition TEST_VOLTAGE : float := 0.1%float.
Definition CONTACT_THRESHOLD : float := 0.0001%float.
Definition RETRY_INCREMENT_MM : float := 0.1%float.

Definition START_V : float := (-0.5)%float.
Definition END_V : float := 0.5%float.
Definition STEP_V : float := 0.02%float.
Definition CURRENT_LIMIT : float := 0.2%float.

Definition CORRECTION_FACTOR : float := 4.532%float.

(** ** The arithmetic of one sweep point (lines 238-251) *)

(** [rs]: Ohm's law times the geometry factor when the current is above
    0.1 uA in magnitude, the integer [0] otherwise. *)
Definition sheet_resistance (meas_v meas_i : float) : result pynum :=
  if fgt (abs meas_i) 1e-7%float then
    rbind (py_truediv (PyFloat meas_v) (PyFloat meas_i))
          (fun q => Ok (py_mul q (PyFloat CORRECTION_FACTOR)))
  else Ok (PyInt 0).

(** [sigma]: the reciprocal of [abs(rs) * thickness_m] under the guard,
    the integer [0] otherwise. *)
Definition conductivity (rs : pynum) (thickness : float) : result pynum :=
  if py_gt (py_abs rs) (PyFloat 1e-9%float)
     && py_gt (PyFloat thickness) (PyInt 0)
  then py_truediv (PyInt 1) (py_mul (py_abs rs) (PyFloat thickness))
  else Ok (PyInt 0).

(** One entry of [results]: the list [[meas_i, meas_v, abs(rs), sigma]],
    with a field per index. *)
Record point : Type := {
  p_current : pynum;       (* r[0] *)
  p_voltage : pynum;       (* r[1] *)
  p_rs : pynum;            (* r[2] *)
  p_sigma : pynum          (* r[3] *)
}.

(** The row appended for a reading, when neither division raises. *)
Definition compute_point (thickness meas_v meas_i : float) : result point :=
  rbind (sheet_resistance meas_v meas_i) (fun rs =>
  rbind (conductivity rs thickness) (fun sigma =>
  Ok {| p_current := PyFloat meas_i; p_voltage := PyFloat meas_v;
        p_rs := py_abs rs; p_sigma := sigma |})).

(** ** Saving (lines 275-288) *)

Definition csv_header : list cell :=
  [CText "Current (A)"; CText "Voltage (V)";
   CText "Sheet Resistance (Ohm/sq)"; CText "Conductivity (S/m)"].

Definition csv_row (r : point) : list cell :=
  [CNum (p_current r); CNum (p_voltage r); CNum (p_rs r); CNum (p_sigma r)].

(** [writer.writerow(header); writer.writerows(data)]. *)
Definition csv_rows (data : list point) : list (list cell) :=
  csv_header :: map csv_row data.

(** The list comprehension [[sel r for r in data if cond r]]. *)
Fixpoint comprehension {A B : Type} (sel : A -> B) (cond : A -> bool)
  (data : list A) : list B :=
  match data with
  | [] => []
  | r :: rest =>
      if cond r then sel r :: comprehension sel cond rest
      else comprehension sel cond rest
  end.

(** [5 < r[2] < 1000]. *)
Definition in_band (r : point) : bool :=
  py_lt (PyInt 5) (p_rs r) && py_lt (p_rs r) (PyInt 1000).

Definition valid_rs (data : list point) : list pynum :=
  comprehension p_rs in_band data.

Definition valid_sigma (data : list point) : list pynum :=
  comprehension p_sigma
    (fun r => py_gt (p_sigma r) (PyInt 0) && in_band r) data.

Section Methods.
Variable E : env.

(** [np.mean(xs) if xs else 0]. *)
Definition mean_or_zero (xs : list pynum) : pynum :=
  match xs with
  | [] => PyInt 0
  | _ => PyFloat (np_mean E (map to_float xs))
  end.

Definition avg_rs (data : list point) : pynum := mean_or_zero (valid_rs data).
Definition avg_sigma (data : list point) : pynum :=
  mean_or_zero (valid_sigma data).

(** ** connect_devices *)

Definition connect_devices : M bool :=
  early <- try_except
    (invoke E StageOpen ;;
     modify (with_stage true) ;;
     invoke E StageEnable ;;
     homed <- invoke E StageIsHomed ;;
     if negb (truthy homed) then say MsgStageNotHomed ;; ret (Some false)
     else say MsgStageConnected ;; ret None)
    is_Exception
    (fun e => say (MsgStageFailed e) ;; ret (Some false)) ;;
  match early with
  | Some b => ret b
  | None =>
      early <- try_except
        (invoke E ProbeOpen ;;
         modify (with_probe true) ;;
         say MsgProbeConnected ;;
         ret None)
        is_Exception
        (fun e =>
           say (MsgProbeFailed e) ;;
           s <- get ;;
           (if stage s then invoke E StageClose ;; ret tt else ret tt) ;;
           ret (Some false)) ;;
      match early with
      | Some b => ret b
      | None => say MsgAllConnected ;; ret true
      end
  end.

(** ** get_sample_details *)

(** The characters kept in a sample name. *)
Definition name_char (c : ascii) : bool :=
  isalnum c || Ascii.eqb c " " || Ascii.eqb c "-" || Ascii.eqb c "_".

Definition sanitize (name : string) : string :=
  if String.eqb name EmptyString then "FTO"%string
  else strip (keep name_char name).

(** The [while True] loop of the thickness prompt.  The three cases on the
    keyboard are those of [input()]: end of stream, Ctrl-C, a line. *)
Fixpoint ask_thickness (keys : list key) : M (list key) :=
  match keys with
  | [] => raise EOFError
  | CtrlC :: _ => raise KeyboardInterrupt
  | Typed line :: rest =>
      match py_float E (strip line) with
      | None => say MsgInvalidNumber ;; ask_thickness rest
      | Some thickness_mm =>
          if py_le (PyFloat thickness_mm) (PyInt 0) then
            say MsgThicknessNotPositive ;; ask_thickness rest
          else
            let m := (thickness_mm * 1e-3)%float in
            modify (with_thickness m) ;;
            say (MsgThicknessSet thickness_mm m) ;;
            ret rest
      end
  end.

Definition get_sample_details (keys : list key) : M (list key) :=
  match keys with
  | [] => raise EOFError
  | CtrlC :: _ => raise KeyboardInterrupt
  | Typed line :: rest =>
      let name := sanitize (strip line) in
      modify (with_sample_name name) ;;
      rest' <- ask_thickness rest ;;
      say (MsgSample name) ;;
      ret rest'
  end.

(** ** move_to_contact *)

(** [pos / STEPS_PER_MM]. *)
Definition steps_to_mm (pos : reply) : result float :=
  rbind (as_number pos) (fun n =>
  rbind (py_truediv n (PyInt STEPS_PER_MM)) (fun q => Ok (to_float q))).

Definition move_to_contact : M float :=
  current_pos <- invoke E StageGetPosition ;;
  current_mm <- lift (steps_to_mm current_pos) ;;
  say (MsgCurrentPosition current_mm) ;;
  invoke E (StageMoveTo CONTACT_HEIGHT_STEPS) ;;
  invoke E StageWaitMove ;;
  final_pos <- invoke E StageGetPosition ;;
  final_mm <- lift (steps_to_mm final_pos) ;;
  say (MsgReached final_mm) ;;
  ret final_mm.

(** ** verify_contact *)

(** Lines 157-180: configure the probe, apply the test voltage, reset to
    0 V, and compare the magnitude of the current with the threshold. *)
Definition contact_test (current_height_mm : float) : M bool :=
  invoke E (ProbeLimitI CURRENT_LIMIT) ;;
  invoke E (ProbeLimitV 10.0%float) ;;
  invoke E (ProbeEnabled true) ;;
  data <- invoke E (ProbeOneshot TEST_VOLTAGE) ;;
  ' (meas_v, raw_i) <- lift (as_reading data) ;;
  let meas_i := abs raw_i in
  say (MsgContactReading meas_v meas_i) ;;
  invoke E (ProbeVoltage (PyInt 0)) ;;
  if fge meas_i CONTACT_THRESHOLD then say MsgGoodContact ;; ret true
  else say (MsgLowCurrent current_height_mm) ;; ret false.

(** Lines 192-198: raise the stage by the retry increment. *)
Definition raise_stage (current_height_mm : float) : M float :=
  let new_height_mm := (current_height_mm + RETRY_INCREMENT_MM)%float in
  new_height_steps <-
    lift (int_of_float (new_height_mm * float_of_Z STEPS_PER_MM)%float) ;;
  say (MsgMovingTo new_height_mm) ;;
  invoke E (StageMoveTo new_height_steps) ;;
  invoke E StageWaitMove ;;
  ret new_height_mm.

(** The prompt loop of a failed test (lines 187-211).  The loop itself
    runs on the keyboard input that is left; choice 1 raises the stage and
    returns what the nested call [again] of [verify_contact] returns. *)
Fixpoint retry_prompt (again : float -> list key -> M (bool * list key))
  (current_height_mm : float) (keys : list key) : M (bool * list key) :=
  match keys with
  | [] => raise EOFError
  | CtrlC :: _ => raise KeyboardInterrupt
  | Typed line :: rest =>
      let choice := strip line in
      if String.eqb choice "1" then
        new_height_mm <- raise_stage current_height_mm ;;
        again new_height_mm rest
      else if String.eqb choice "2" then
        say MsgAborting ;; ret (false, rest)
      else if String.eqb choice "3" then
        say MsgOverriding ;; ret (true, rest)
      else
        say MsgInvalidChoice ;; retry_prompt again current_height_mm rest
  end.

(** [verify_contact] with room for [depth] nested calls of itself: a call
    for which no room is left raises [RecursionError]. *)
Fixpoint verify_contact_within (depth : nat) (current_height_mm : float)
  (keys : list key) : M (bool * list key) :=
  match depth with
  | O => raise RecursionError
  | S depth' =>
      good <- contact_test current_height_mm ;;
      if good then ret (true, keys)
      else retry_prompt (verify_contact_within depth') current_height_mm keys
  end.

Definition verify_contact (current_height_mm : float) (keys : list key)
  : M (bool * list key) :=
  verify_contact_within (recursion_limit E) current_height_mm keys.

(** ** run_measurement *)

(** The body of the [try] inside the sweep loop (lines 231-252). *)
Definition measure (thickness set_v : float) (results : list point)
  : M (list point) :=
  data <- invoke E (ProbeOneshot set_v) ;;
  ' (meas_v, meas_i) <- lift (as_reading data) ;;
  rs <- lift (sheet_resistance meas_v meas_i) ;;
  sigma <- lift (conductivity rs thickness) ;;
  let row := {| p_current := PyFloat meas_i; p_voltage := PyFloat meas_v;
                p_rs := py_abs rs; p_sigma := sigma |} in
  say (MsgSweepRow set_v meas_v meas_i (py_abs rs) sigma) ;;
  ret (results ++ [row]).

(** One iteration of the loop: the [try] with its [except Exception]
    clause, which prints the error and leaves [results] as it was. *)
Definition sweep_point (thickness set_v : float) (results : list point)
  : M (list point) :=
  try_except (measure thickness set_v results) is_Exception
    (fun e => say (MsgSweepError set_v e) ;; ret results).

(** The [for set_v in voltages] loop. *)
Fixpoint sweep (thickness : float) (voltages : list float)
  (results : list point) : M (list point) :=
  match voltages with
  | [] => ret results
  | set_v :: rest =>
      results' <- sweep_point thickness set_v results ;;
      sweep thickness rest results'
  end.

Definition voltages : list float :=
  np_arange START_V (END_V + STEP_V / 1000)%float STEP_V.

(** Formatting [self.thickness_m] with [.2e] (line 224) raises [TypeError]
    when the attribute is still [None]. *)
Definition run_measurement : M (list point) :=
  s <- get ;;
  match thickness_m s with
  | None => raise TypeError
  | Some thickness =>
      results <- sweep thickness voltages [] ;;
      say MsgSweepDone ;;
      ret results
  end.

(** ** save_results, return_home, shutdown *)

(** An operation on the file system: it returns, or raises what the
    file system answers. *)
Definition store (op : file_op) : M unit :=
  fun s =>
    match storage E (clock s) op with
    | None => (Ok tt, s)
    | Some e => (Raise e, s)
    end.

(** The results folder, the CSV file, the plot and the summary.  Each of
    the three operations on the file system can raise; what it raises
    leaves [save_results] at once. *)
Definition save_results (data : list point) : M unit :=
  store MakeFolder ;;
  s <- get ;;
  store (WriteCsv (sample_name s) (csv_rows data)) ;;
  modify (record (CsvWritten (csv_rows data))) ;;
  store (SavePlot (sample_name s) (map p_voltage data) (map p_current data)
                  (avg_rs data) (avg_sigma data)) ;;
  modify (record (PlotSaved (map p_voltage data) (map p_current data)
                            (avg_rs data) (avg_sigma data))) ;;
  say (MsgSummary (avg_rs data) (avg_sigma data)).

Definition return_home : M unit :=
  invoke E (StageMoveTo 0) ;;
  invoke E StageWaitMove ;;
  final_pos <- invoke E StageGetPosition ;;
  say (MsgAtHome final_pos).

(** The two blocks of [shutdown], one per device; each [try] ends in a
    bare [except: pass]. *)
Definition shutdown_probe : M unit :=
  s <- get ;;
  if probe s then
    try_except
      (invoke E (ProbeVoltage (PyInt 0)) ;;
       invoke E (ProbeEnabled false) ;;
       invoke E ProbeClose ;;
       say MsgProbeShutdown)
      (fun _ => true)
      (fun _ => ret tt)
  else ret tt.

Definition shutdown_stage : M unit :=
  s <- get ;;
  if stage s then
    try_except
      (invoke E StageClose ;;
       say MsgStageShutdown)
      (fun _ => true)
      (fun _ => ret tt)
  else ret tt.

Definition shutdown : M unit :=
  shutdown_probe ;;
  shutdown_stage.

(** ** run *)

(** The body of the [try] of [run] (lines 348-380). *)
Definition run_body (keys : list key) : M Z :=
  keys1 <- get_sample_details keys ;;
  connected <- connect_devices ;;
  if negb connected then ret 1%Z
  else
    current_height <- move_to_contact ;;
    ' (contact, _) <- verify_contact current_height keys1 ;;
    if negb contact then
      say MsgAbortedByUser ;;
      return_home ;;
      shutdown ;;
      ret 1%Z
    else
      data <- run_measurement ;;
      save_results data ;;
      return_home ;;
      shutdown ;;
      say MsgComplete ;;
      ret 0%Z.

(** The two [except] clauses of [run]. *)
Definition run_handler (e : exn) : M Z :=
  match e with
  | KeyboardInterrupt => say MsgInterrupted ;; shutdown ;; ret 1%Z
  | _ => say (MsgError e) ;; shutdown ;; ret 1%Z
  end.

Definition run (keys : list key) : M Z :=
  try_except (run_body keys) (fun _ => true) run_handler.

(** [main]: wait for Enter, then run a new [AutomatedProbeSystem]. *)
Definition main (keys : list key) : M Z :=
  match keys with
  | [] => raise EOFError
  | CtrlC :: _ => raise KeyboardInterrupt
  | Typed _ :: rest => run rest
  end.

End Methods.

End GetConductivity.

(* ================================================================== *)
(** * check_connection.py *)
(* ================================================================== *)

Module CheckConnection.

Section Checks.
Variable E : env.

(** [abs(current_pos) > 10]. *)
Definition away_from_home (current_pos : reply) : result bool :=
  rbind (as_number current_pos) (fun n => Ok (py_gt (py_abs n) (PyInt 10))).

(** The two [except] clauses shared by both checks: [ImportError] first,
    then any other [Exception]; both make the check return [False]. *)
Definition check_handler (missing : message) (failed : exn -> message)
  (e : exn) : M bool :=
  if is_ImportError e then say missing ;; ret false
  else say (failed e) ;; ret false.

Definition check_stage : M bool :=
  try_except
    (invoke E ImportThorlabs ;;
     invoke E StageOpen ;;
     say ChkStageConnected ;;
     invoke E StageEnable ;;
     current_pos <- invoke E StageGetPosition ;;
     is_homed <- invoke E StageIsHomed ;;
     say (ChkStageState current_pos is_homed) ;;
     (if negb (truthy is_homed) then
        say ChkHomingStart ;;
        invoke E StageHome ;;
        status <- invoke E StageGetStatus ;;
        say (ChkHomingStatus status) ;;
        invoke E StageWaitForHome ;;
        say ChkHomingDone ;;
        final_pos <- invoke E StageGetPosition ;;
        say (ChkFinalPosition final_pos)
      else
        say ChkAlreadyHomed ;;
        away <- lift (away_from_home current_pos) ;;
        if away then
          say ChkMovingHome ;;
          invoke E (StageMoveTo 0) ;;
          invoke E StageWaitMove ;;
          pos <- invoke E StageGetPosition ;;
          say (ChkAtHome pos)
        else say ChkAlreadyAtHome) ;;
     invoke E StageClose ;;
     say ChkStagePassed ;;
     ret true)
    is_Exception
    (check_handler ChkNoPylablib ChkStageError).

Definition check_probe : M bool :=
  try_except
    (invoke E ImportXtralien ;;
     invoke E ProbeOpen ;;
     say ChkProbeConnected ;;
     response <- invoke E ProbeHello ;;
     say (ChkProbeResponse response) ;;
     temp <- invoke E ProbeTempRead ;;
     say (ChkProbeTemperature temp) ;;
     invoke E ProbeClose ;;
     say ChkProbePassed ;;
     ret true)
    is_Exception
    (check_handler ChkNoXtralien ChkProbeError).

Definition main : M Z :=
  stage_ok <- check_stage ;;
  probe_ok <- check_probe ;;
  say (ChkStatusStage stage_ok) ;;
  say (ChkStatusProbe probe_ok) ;;
  if stage_ok && probe_ok then say ChkAllReady ;; ret 0%Z
  else say ChkNotReady ;; ret 1%Z.

End Checks.

End CheckConnection.

(* ================================================================== *)
(** * Instances of the library functions, and test benches *)
(* ================================================================== *)

(** The worked examples below need some [float] on strings and some
    [numpy.mean].  The general theorems hold for every [env]. *)
Module Bench.

(** ** Reading a decimal literal

    The plain ASCII part of what Python's [float] accepts on a stripped
    string: an optional sign followed by [nan], [inf] or [infinity] in any
    case, or by decimal digits with an optional fraction and an optional
    exponent.  The value is the nearest binary64 number (ties to even). *)

Definition digit_of (c : ascii) : option Z :=
  let n := nat_of_ascii c in
  if ((48 <=? n) && (n <=? 57))%nat then Some (Z.of_nat (n - 48)) else None.

(** A run of digits continuing the number [acc]: its value, the count of
    digits read, and the rest of the string. *)
Fixpoint digits (s : string) (acc count : Z) : Z * Z * string :=
  match s with
  | EmptyString => (acc, count, s)
  | String c rest =>
      match digit_of c with
      | Some d => digits rest (10 * acc + d) (count + 1)
      | None => (acc, count, s)
      end
  end.

Definition lower (c : ascii) : ascii :=
  let n := nat_of_ascii c in
  if ((65 <=? n) && (n <=? 90))%nat then ascii_of_nat (n + 32) else c.

Fixpoint lowercase (s : string) : string :=
  match s with
  | EmptyString => EmptyString
  | String c rest => String (lower c) (lowercase rest)
  end.

Definition signed (s : string) : bool * string :=
  match s with
  | String "+" rest => (false, rest)
  | String "-" rest => (true, rest)
  | _ => (false, s)
  end.

(** The float nearest to [(-1)^neg * m * 10^e], for [m >= 0]. *)
Definition decimal (neg : bool) (m e : Z) : float :=
  let magnitude :=
    match m with
    | Zpos p =>
        if (0 <=? e)%Z then binary_normalize prec emax (m * 10 ^ e) 0 false
        else SF64div (S754_finite false p 0)
                     (S754_finite false (Z.to_pos (10 ^ (- e))) 0)
    | _ => S754_zero false
    end in
  SF2Prim (if neg then SFopp magnitude else magnitude).

Definition float_of_text (s : string) : option float :=
  let '(neg, body) := signed s in
  let word := lowercase body in
  if String.eqb word "nan" then Some nan
  else if String.eqb word "inf" || String.eqb word "infinity" then
    Some (if neg then neg_infinity else infinity)
  else
    let '(whole, n_whole, after_whole) := digits body 0 0 in
    let '(mantissa, n_frac, after_frac) :=
      match after_whole with
      | String "." rest => digits rest whole 0
      | _ => (whole, 0%Z, after_whole)
      end in
    if (n_whole + n_frac =? 0)%Z then None
    else
      match after_frac with
      | EmptyString => Some (decimal neg mantissa (- n_frac))
      | String c after_e =>
          if Ascii.eqb (lower c) "e" then
            let '(eneg, exp_digits) := signed after_e in
            let '(ev, n_exp, tail) := digits exp_digits 0 0 in
            if (n_exp =? 0)%Z || negb (String.eqb tail EmptyString) then None
            else Some (decimal neg mantissa
                         ((if eneg then - ev else ev) - n_frac))
          else None
      end.

(** ** A mean

    The sum from left to right divided by the count.  numpy adds in this
    order for fewer than eight values and pairwise beyond. *)
Definition sequential_mean (xs : list float) : float :=
  (fold_left PrimFloat.add xs 0 / float_of_Z (Z.of_nat (List.length xs)))%float.

(** ** Devices *)

(** A film of 100 Ohm between the probes on a homed stage that stands at
    the contact height: the probe returns the applied voltage and the
    current through the film. *)
Definition film (n : nat) (c : call) : reply :=
  match c with
  | StageIsHomed => RBool true
  | StageGetPosition => RInt 185241
  | ProbeOneshot v => RData v (v / 100)%float
  | _ => RNone
  end.

(** The same film, with a probe that fails on every negative voltage. *)
Definition glitchy (n : nat) (c : call) : reply :=
  match c with
  | ProbeOneshot v =>
      if (v <? 0)%float then RRaise (DeviceError 7) else film n c
  | _ => film n c
  end.

(** The film, with a probe whose voltage sense is broken: the voltage it
    reports is not a number. *)
Definition broken_sense (n : nat) (c : call) : reply :=
  match c with
  | ProbeOneshot v => RData nan (v / 100)%float
  | _ => film n c
  end.

(** No sample under the probe: no current at any voltage. *)
Definition open_circuit (n : nat) (c : call) : reply :=
  match c with
  | ProbeOneshot v => RData v 0%float
  | _ => film n c
  end.

(** A stage that loses its connection: every stage call made after the
    first [k] device calls fails. *)
Definition unplugged (k : nat) (n : nat) (c : call) : reply :=
  match c with
  | StageIsHomed | StageGetPosition | StageMoveTo _ | StageWaitMove
  | StageClose =>
      if (k <=? n)%nat then RRaise (DeviceError 3) else film n c
  | _ => film n c
  end.

Definition bench (dev : nat -> call -> reply) : env :=
  {| device := dev; storage := fun _ _ => None;
     py_float := float_of_text; np_mean := sequential_mean;
     recursion_limit := 990 |}.

(** A file system that refuses a file name of more than 255 characters.
    The name of a results file is the sample name followed by an
    underscore, a time stamp of 19 characters and a four-character
    extension. *)
Definition name_limit (n : nat) (op : file_op) : option exn :=
  match op with
  | WriteCsv (Some name) _ | SavePlot (Some name) _ _ _ _ =>
      if (255 <? String.length name + 24)%nat then Some OSError else None
  | _ => None
  end.

Definition short_names (dev : nat -> call -> reply) : env :=
  {| device := dev; storage := name_limit;
     py_float := float_of_text; np_mean := sequential_mean;
     recursion_limit := 990 |}.

(** A sample name of [n] letters. *)
Fixpoint letters (n : nat) : string :=
  match n with
  | O => EmptyString
  | S k => String "a" (letters k)
  end.


(** An instance on which the thickness has been entered as 1 um. *)
Definition ready : machine := with_thickness 1e-6%float fresh.

(** The same instance once [connect_devices] has returned [True]: both
    handles are held. *)
Definition connected : machine := with_probe true (with_stage true ready).

Definition film_rows : list GetConductivity.point :=
  match fst (GetConductivity.run_measurement (bench film) ready) with
  | Ok rows => rows
  | Raise _ => []
  end.

(** The sample prompts answered with a name and a thickness. *)
Definition entered (answer : string) : result (list key) * machine :=
  GetConductivity.get_sample_details (bench film)
    [Typed "FTO"; Typed answer] fresh.

(** Answering the retry prompt with [1] a number of times, then [3]. *)
Definition insist (n : nat) : list key :=
  repeat (Typed "1") n ++ [Typed "3"].

End Bench.

(* ================================================================== *)
(** * What the sweep is expected to record *)
(* ================================================================== *)

(** A second description of the rows of a sweep, read off the replies of
    the probe alone: call number [c + k] answers the [k]-th voltage, and a
    reply contributes its row when it is a reading for which neither
    division raises, and nothing otherwise. *)
Module Expected.
Import GetConductivity.

Definition reading_row (thickness : float) (r : reply) : list point :=
  match r with
  | RData v i =>
      match compute_point thickness v i with
      | Ok row => [row]
      | Raise _ => []
      end
  | _ => []
  end.

Fixpoint rows_of_replies (E : env) (thickness : float) (vs : list float)
  (c : nat) : list point :=
  match vs with
  | [] => []
  | set_v :: rest =>
      reading_row thickness (device E c (ProbeOneshot set_v))
      ++ rows_of_replies E thickness rest (S c)
  end.

(** The number of stage raises announced in a trace. *)
Fixpoint retries (tr : list event) : nat :=
  match tr with
  | [] => 0
  | Printed (MsgMovingTo _) :: rest => S (retries rest)
  | _ :: rest => retries rest
  end.



(** What C9 says of a stored row. *)
Definition never_negative (r : point) : Prop :=
  (exists v i rs,
     p_current r = PyFloat i /\ p_voltage r = PyFloat v
     /\ sheet_resistance v i = Ok rs
     /\ p_rs r = py_abs rs
     /\ (py_ge (p_rs r) (PyInt 0) = true \/ rs = PyFloat nan))
  /\ py_lt (p_rs r) (PyInt 0) = false
  /\ py_ge (p_sigma r) (PyInt 0) = true
  /\ py_lt (p_sigma r) (PyInt 0) = false.

(** A reply that is an exception. *)
Definition raises (r : reply) : bool :=
  match r with
  | RRaise _ => true
  | _ => false
  end.


(** The line the sweep prints for a point that failed. *)
Definition sweep_fault (ev : event) : bool :=
  match ev with
  | Printed (MsgSweepError _ _) => true
  | _ => false
  end.


(** The device calls of a trace, in order, without their replies. *)
Fixpoint commands (tr : list event) : list call :=
  match tr with
  | [] => []
  | Called c _ :: rest => c :: commands rest
  | _ :: rest => commands rest
  end.

(** [m] leaves the attributes of the instance alone and only adds to the
    trace. *)
Definition steady {A : Type} (m : M A) : Prop :=
  forall s,
    stage (snd (m s)) = stage s
    /\ probe (snd (m s)) = probe s
    /\ thickness_m (snd (m s)) = thickness_m s
    /\ sample_name (snd (m s)) = sample_name s
    /\ exists evs, trace (snd (m s)) = trace s ++ evs.

(** What a row records of a point, or the exception of the point. *)
Definition recorded (r : result point) : result (pynum * pynum) :=
  match r with
  | Ok row => Ok (p_rs row, p_sigma row)
  | Raise e => Raise e
  end.

(** The two [try] statements of [connect_devices], each with its
    handler; [None] stands for falling through to the next statement. *)
Definition stage_block (E : env) : M (option bool) :=
  try_except
    (invoke E StageOpen ;;
     modify (with_stage true) ;;
     invoke E StageEnable ;;
     homed <- invoke E StageIsHomed ;;
     if negb (truthy homed) then say MsgStageNotHomed ;; ret (Some false)
     else say MsgStageConnected ;; ret None)
    is_Exception
    (fun e => say (MsgStageFailed e) ;; ret (Some false)).

Definition probe_block (E : env) : M (option bool) :=
  try_except
    (invoke E ProbeOpen ;;
     modify (with_probe true) ;;
     say MsgProbeConnected ;;
     ret None)
    is_Exception
    (fun e =>
       say (MsgProbeFailed e) ;;
       s <- get ;;
       (if stage s then invoke E StageClose ;; ret tt else ret tt) ;;
       ret (Some false)).

(** The end of a trace of a completed run: the results are saved, then
    the stage is sent home and answers, then the devices are shut down,
    probe first, then the completion line is printed. *)
Definition completed_in_order (E : env) (tr : list event) : Prop :=
  exists pre data r1 r2 r3 r4 down,
    tr = pre
         ++ [CsvWritten (csv_rows data);
             PlotSaved (map p_voltage data) (map p_current data)
                       (avg_rs E data) (avg_sigma E data);
             Printed (MsgSummary (avg_rs E data) (avg_sigma E data));
             Called (StageMoveTo 0) r1;
             Called StageWaitMove r2;
             Called StageGetPosition r3;
             Printed (MsgAtHome r3);
             Called (ProbeVoltage (PyInt 0)) r4]
         ++ down ++ [Printed MsgComplete]
    /\ raises r1 = false /\ raises r2 = false /\ raises r3 = false
    /\ In (Printed MsgAllConnected) pre.

(** [after] continues [before] with events among which the stage is
    closed. *)
Definition stage_closed_after (E : env) (before after : list event) : Prop :=
  exists n pre post,
    after = before ++ pre ++ Called StageClose (device E n StageClose) :: post.

(** Started with the stage handle held, [m] keeps it held, and closes the
    stage whenever it returns. *)
Definition closes (E : env) {A : Type} (m : M A) : Prop :=
  forall s,
    stage s = true ->
    stage (snd (m s)) = true
    /\ match fst (m s) with
       | Ok _ => stage_closed_after E (trace s) (trace (snd (m s)))
       | Raise _ => exists evs, trace (snd (m s)) = trace s ++ evs
       end.

(** A device call that raised. *)
Definition failed (ev : event) : bool :=
  match ev with
  | Called _ (RRaise _) => true
  | _ => false
  end.




(** The line [run] prints for an exception that reaches its handlers. *)
Definition top_message (e : exn) : message :=
  match e with
  | KeyboardInterrupt => MsgInterrupted
  | _ => MsgError e
  end.

(** The number of sweep points reported as failed in a stretch of trace. *)
Definition faults (evs : list event) : nat :=
  List.length (filter sweep_fault evs).

(** An answer the thickness prompt turns down, and the line it prints
    for it. *)
Definition rejected (E : env) (line : string) : bool :=
  match py_float E (strip line) with
  | None => true
  | Some thickness_mm => py_le (PyFloat thickness_mm) (PyInt 0)
  end.

Definition rejection (E : env) (line : string) : event :=
  match py_float E (strip line) with
  | None => Printed MsgInvalidNumber
  | Some _ => Printed MsgThicknessNotPositive
  end.

(** How a prompt loop stops without an answer: the input ends, or Ctrl-C
    is pressed. *)
Definition input_stops (left : list key) (e : exn) : Prop :=
  (left = [] /\ e = EOFError)
  \/ (exists rest, left = CtrlC :: rest /\ e = KeyboardInterrupt).

Fixpoint chars (s : string) : list ascii :=
  match s with
  | EmptyString => []
  | String c rest => c :: chars rest
  end.

(** The last events of a contact test that found contact. *)
Definition contact_found (tail : list event) : Prop :=
  exists v i r,
    tail = [Called (ProbeOneshot TEST_VOLTAGE) (RData v i);
            Printed (MsgContactReading v (abs i));
            Called (ProbeVoltage (PyInt 0)) r;
            Printed MsgGoodContact]
    /\ fge (abs i) CONTACT_THRESHOLD = true.

(** The verdict that follows the last answer read at the retry prompt,
    with the events [evs] it ends. *)
Definition answer_decides (verdict : bool) (choice : string)
  (evs : list event) : Prop :=
  (choice = "1"%string /\ verdict = true
   /\ exists pre tail, evs = pre ++ tail /\ contact_found tail)
  \/ (choice = "2"%string /\ verdict = false
      /\ exists pre, evs = pre ++ [Printed MsgAborting])
  \/ (choice = "3"%string /\ verdict = true
      /\ exists pre, evs = pre ++ [Printed MsgOverriding]).

(** What a call of [verify_contact] that returns has decided. *)
Definition decided (keys : list key) (s : machine) (verdict : bool)
  (rest : list key) (s' : machine) : Prop :=
  exists evs,
    trace s' = trace s ++ evs
    /\ ((verdict = true /\ rest = keys
         /\ exists pre tail, evs = pre ++ tail /\ contact_found tail)
        \/ exists used line,
             keys = used ++ Typed line :: rest
             /\ answer_decides verdict (strip line) evs).

(** Every device call among [evs] came back without raising. *)
Definition answered (ev : event) : bool :=
  match ev with
  | Called _ r => negb (raises r)
  | _ => true
  end.

(** The device calls of a stage check that passes, given the position and
    the homing state that the stage first reports. *)
Definition passed_stage_check (pos homed : reply) : list call :=
  [ImportThorlabs; StageOpen; StageEnable; StageGetPosition; StageIsHomed]
  ++ (if truthy homed then
        match CheckConnection.away_from_home pos with
        | Ok true => [StageMoveTo 0; StageWaitMove; StageGetPosition]
        | _ => []
        end
      else [StageHome; StageGetStatus; StageWaitForHome; StageGetPosition])
  ++ [StageClose].

(** A stage that answers every call and reports that it is not homed. *)
Definition unhomed (n : nat) (c : call) : reply :=
  match c with
  | StageIsHomed => RBool false
  | _ => Bench.film n c
  end.

(** The calls that set a device in motion: moving or homing the stage,
    switching the probe output on, applying a voltage and measuring. *)
Definition drives (ev : event) : bool :=
  match ev with
  | Called (StageMoveTo _) _ | Called StageHome _
  | Called (ProbeOneshot _) _ | Called (ProbeEnabled true) _ => true
  | _ => false
  end.

Definition resting (ev : event) : bool := negb (drives ev).

Definition at_rest (evs : list event) : bool := forallb resting evs.

(** [m] only adds to the trace, and only events that pass [P]. *)
Definition only (P : event -> bool) {A : Type} (m : M A) : Prop :=
  forall s, exists evs,
    trace (snd (m s)) = trace s ++ evs /\ forallb P evs = true.

(** [m] drives no device. *)
Definition idle {A : Type} (m : M A) : Prop := only resting m.

(** The events of a measurement: a reading of the probe, the CSV file and
    the plot. *)
Definition measures (ev : event) : bool :=
  match ev with
  | Called (ProbeOneshot _) _ | CsvWritten _ | PlotSaved _ _ _ _ => true
  | _ => false
  end.

Definition unmeasured (ev : event) : bool := negb (measures ev).

(** Whatever drives a device among [evs] comes after the line that
    reports both devices connected. *)
Definition driven_after_connection (evs : list event) : Prop :=
  forall pre ev post,
    evs = pre ++ ev :: post -> drives ev = true ->
    In (Printed MsgAllConnected) pre.

(** The ways in which a run deals with a device call that raised [e];
    [pre] and [post] are the events of the run before and after the
    call. *)








End Expected.

(* ================================================================== *)
(** * Facts about binary64 arithmetic *)
(* ================================================================== *)

Module FloatFacts.

Local Open Scope Z_scope.

(** Strictly positive: a positive finite number or plus infinity. *)
Definition positive_sf (x : spec_float) : bool :=
  match x with
  | S754_infinity false | S754_finite false _ _ => true
  | _ => false
  end.

(** A number (not NaN) whose sign bit is [sx]. *)
Definition signed_as (sx : bool) (x : spec_float) : Prop :=
  match x with
  | S754_nan => False
  | S754_zero s | S754_infinity s | S754_finite s _ _ => s = sx
  end.

(** ** Comparison *)

Lemma SFcompare_antisym (a b : spec_float) :
  SFcompare b a = option_map CompOpp (SFcompare a b).
Proof.
  destruct a as [sa|sa| |sa ma ea], b as [sb|sb| |sb mb eb]; simpl;
    try reflexivity;
    try (destruct sa; reflexivity);
    try (destruct sb; reflexivity);
    try (destruct sa, sb; reflexivity).
  destruct sa, sb; try reflexivity;
    rewrite (Z.compare_antisym ea eb);
    destruct (ea ?= eb); simpl; try reflexivity;
    rewrite (Pos.compare_cont_antisym ma mb Eq); reflexivity.
Qed.

(** [x <= y] excludes [y < x]. *)
Lemma leb_not_gt (x y : float) :
  (x <=? y)%float = true -> (y <? x)%float = false.
Proof.
  rewrite leb_spec, ltb_spec. unfold SFleb, SFltb.
  rewrite (SFcompare_antisym (Prim2SF x) (Prim2SF y)).
  destruct (SFcompare (Prim2SF x) (Prim2SF y)) as [[]|]; simpl;
    congruence.
Qed.

(** ** Signs *)

Lemma positive_signed x : positive_sf x = true -> signed_as false x.
Proof.
  destruct x as [s|s| |s m e]; simpl; try discriminate;
    destruct s; congruence.
Qed.

Lemma prim_zero : Prim2SF 0%float = S754_zero false.
Proof. reflexivity. Qed.

Lemma float_of_Z_0 : float_of_Z 0 = 0%float.
Proof. reflexivity. Qed.

Lemma float_of_Z_1 : Prim2SF (float_of_Z 1) = S754_finite false 4503599627370496 (-52).
Proof. reflexivity. Qed.

(** Whatever lies strictly above a non-negative bound is strictly
    positive. *)
Lemma above_bound_positive (c x : float) :
  (0 <=? c)%float = true -> (c <? x)%float = true ->
  positive_sf (Prim2SF x) = true.
Proof.
  rewrite leb_spec, ltb_spec, prim_zero. unfold SFleb, SFltb.
  destruct (Prim2SF c) as [sc|sc| |sc mc ec],
           (Prim2SF x) as [sx|sx| |sx mx ex]; simpl;
    try discriminate; try (destruct sc; discriminate);
    try (destruct sx; simpl; congruence);
    try (destruct sc, sx; simpl; congruence).
Qed.

Lemma nonneg_number_leb (x : float) :
  signed_as false (Prim2SF x) -> (0 <=? x)%float = true.
Proof.
  rewrite leb_spec, prim_zero. unfold SFleb.
  destruct (Prim2SF x) as [s|s| |s m e]; simpl; intros H;
    try contradiction; subst; reflexivity.
Qed.

(** [abs x] never compares below zero, and is at least zero unless [x] is
    NaN. *)
Lemma abs_not_negative (x : float) : (abs x <? 0)%float = false.
Proof.
  rewrite ltb_spec, abs_spec, prim_zero. unfold SFltb.
  destruct (Prim2SF x) as [s|s| |s m e]; reflexivity.
Qed.

Lemma abs_nonneg_or_nan (x : float) :
  (0 <=? abs x)%float = true \/ x = nan.
Proof.
  destruct (Prim2SF x) as [s|s| |s m e] eqn:Hx.
  all: try (left; rewrite leb_spec, abs_spec, prim_zero, Hx; reflexivity).
  right. apply Prim2SF_inj. rewrite Hx. reflexivity.
Qed.

(** A float whose magnitude is strictly above a non-negative bound is not
    a zero. *)
Lemma magnitude_above_nonzero (c x : float) :
  (0 <=? c)%float = true -> (c <? abs x)%float = true ->
  (x =? 0)%float = false.
Proof.
  intros Hc Hx. pose proof (above_bound_positive c (abs x) Hc Hx) as Hp.
  rewrite abs_spec in Hp. rewrite eqb_spec, prim_zero. unfold SFeqb.
  destruct (Prim2SF x) as [s|s| |s m e]; simpl in *;
    try discriminate; destruct s; reflexivity.
Qed.

Lemma positive_nonzero (x : float) :
  positive_sf (Prim2SF x) = true -> (x =? 0)%float = false.
Proof.
  rewrite eqb_spec, prim_zero. unfold SFeqb.
  destruct (Prim2SF x) as [s|s| |s m e]; simpl;
    try discriminate; destruct s; intros; try discriminate; reflexivity.
Qed.

(** ** Rounding keeps the sign *)

Lemma shr_1_nonneg mrs : 0 <= shr_m mrs -> 0 <= shr_m (shr_1 mrs).
Proof.
  destruct mrs as [m r s]; simpl.
  destruct m as [|p|p]; simpl; intros H; try lia; destruct p; simpl; lia.
Qed.

Lemma iter_shr_1_nonneg p : forall mrs,
  0 <= shr_m mrs -> 0 <= shr_m (iter_pos shr_1 p mrs).
Proof.
  induction p; simpl; intros mrs H; auto using shr_1_nonneg.
Qed.

Lemma shr_fexp_nonneg m e l :
  0 <= m -> 0 <= shr_m (fst (shr_fexp prec emax m e l)).
Proof.
  intros H. unfold shr_fexp, shr.
  assert (H0 : 0 <= shr_m (shr_record_of_loc m l)).
  { destruct l as [|[]]; simpl; exact H. }
  destruct (fexp prec emax (Zdigits2 m + e) - e); simpl;
    auto using iter_shr_1_nonneg.
Qed.

Lemma round_nearest_even_nonneg m l : 0 <= m -> 0 <= round_nearest_even m l.
Proof.
  intros H. destruct l as [|[]]; simpl; try lia. destruct (Z.even m); lia.
Qed.

Lemma binary_round_aux_sign sx mx ex lx :
  0 <= mx -> signed_as sx (binary_round_aux prec emax sx mx ex lx).
Proof.
  intros H. unfold binary_round_aux.
  pose proof (shr_fexp_nonneg mx ex lx H) as H1.
  destruct (shr_fexp prec emax mx ex lx) as [mrs' e']. simpl in H1.
  pose proof (shr_fexp_nonneg _ e' loc_Exact
                (round_nearest_even_nonneg _ (loc_of_shr_record mrs') H1))
    as H2.
  destruct (shr_fexp prec emax
              (round_nearest_even (shr_m mrs') (loc_of_shr_record mrs'))
              e' loc_Exact) as [mrs'' e''].
  simpl in H2.
  destruct (shr_m mrs''); unfold signed_as; try reflexivity; try lia.
  destruct (e'' <=? emax - prec); reflexivity.
Qed.

Lemma SFmul_finite_sign sx mx ex sy my ey :
  signed_as (xorb sx sy)
    (SF64mul (S754_finite sx mx ex) (S754_finite sy my ey)).
Proof.
  unfold SF64mul, SFmul. apply binary_round_aux_sign. lia.
Qed.

Lemma SFdiv_finite_sign sx mx ex sy my ey :
  signed_as (xorb sx sy)
    (SF64div (S754_finite sx mx ex) (S754_finite sy my ey)).
Proof.
  unfold SF64div, SFdiv.
  destruct (SFdiv_core_binary prec emax (Z.pos mx) ex (Z.pos my) ey)
    as [[mz ez] lz] eqn:Hcore.
  apply binary_round_aux_sign.
  unfold SFdiv_core_binary in Hcore.
  set (m' := match _ - _ - _ with Z0 => _ | _ => _ end) in Hcore.
  assert (Hm : 0 <= m').
  { subst m'. destruct (_ - _ - _); try lia. apply Z.shiftl_nonneg. lia. }
  pose proof (Z.div_pos m' (Z.pos my) Hm ltac:(lia)) as Hq.
  unfold Z.div in Hq.
  destruct (Z.div_eucl m' (Z.pos my)) as [q r].
  inversion Hcore; subst. exact Hq.
Qed.

(** The product of two strictly positive floats is a non-negative number:
    it can underflow to zero or overflow to infinity, nothing else. *)
Lemma mul_positive (a b : float) :
  positive_sf (Prim2SF a) = true -> positive_sf (Prim2SF b) = true ->
  signed_as false (Prim2SF (a * b)).
Proof.
  rewrite mul_spec.
  destruct (Prim2SF a) as [sa|sa| |sa ma ea],
           (Prim2SF b) as [sb|sb| |sb mb eb]; simpl;
    try discriminate; destruct sa, sb; try discriminate; intros _ _;
    try reflexivity.
  apply (SFmul_finite_sign false ma ea false mb eb).
Qed.

(** The reciprocal of a non-negative number other than zero is a
    non-negative number. *)
Lemma reciprocal_nonneg (p : float) :
  signed_as false (Prim2SF p) -> (p =? 0)%float = false ->
  signed_as false (Prim2SF (float_of_Z 1 / p)).
Proof.
  rewrite div_spec, float_of_Z_1, eqb_spec, prim_zero. unfold SFeqb.
  destruct (Prim2SF p) as [s|s| |s m e]; simpl; intros Hs Hz;
    try contradiction; try discriminate; subst.
  - reflexivity.
  - apply (SFdiv_finite_sign false 4503599627370496 (-52) false m e).
Qed.

End FloatFacts.

(* ================================================================== *)
(** * The arithmetic of a sweep point *)
(* ================================================================== *)

Module PointFacts.
Import GetConductivity FloatFacts.

Lemma bound_1e7 : (0 <=? 1e-7)%float = true.
Proof. reflexivity. Qed.

Lemma bound_1e9 : (0 <=? 1e-9)%float = true.
Proof. reflexivity. Qed.

Lemma py_mul_float (a : pynum) (t : float) :
  py_mul a (PyFloat t) = PyFloat (to_float a * t)%float.
Proof. destruct a; reflexivity. Qed.

Lemma py_gt_float (a : pynum) (c : float) :
  py_gt a (PyFloat c) = (c <? to_float a)%float.
Proof. destruct a; reflexivity. Qed.

Lemma py_le_float (a : pynum) (c : float) :
  py_le a (PyFloat c) = (to_float a <=? c)%float.
Proof. destruct a; reflexivity. Qed.

Lemma py_gt_zero (t : float) :
  py_gt (PyFloat t) (PyInt 0) = (0 <? t)%float.
Proof. reflexivity. Qed.

(** The division of the sheet-resistance branch cannot raise: a current
    above the guard is not zero. *)
Lemma sheet_resistance_branch (meas_v meas_i : float) :
  fgt (abs meas_i) 1e-7 = true ->
  sheet_resistance meas_v meas_i
  = Ok (PyFloat (meas_v / meas_i * CORRECTION_FACTOR)%float).
Proof.
  intros H. unfold sheet_resistance, py_truediv. rewrite H. simpl to_float.
  rewrite (magnitude_above_nonzero 1e-7%float meas_i bound_1e7 H). reflexivity.
Qed.

(** The conductivity branch in float terms. *)
Lemma conductivity_branch (rs : pynum) (thickness : float) :
  py_gt (py_abs rs) (PyFloat 1e-9) = true ->
  py_gt (PyFloat thickness) (PyInt 0) = true ->
  conductivity rs thickness
  = let product := (to_float (py_abs rs) * thickness)%float in
    if (product =? 0)%float then Raise ZeroDivisionError
    else Ok (PyFloat (1 / product)%float).
Proof.
  intros H1 H2. unfold conductivity. rewrite H1, H2. simpl andb.
  rewrite py_mul_float. reflexivity.
Qed.

(** What [conductivity] returns is never negative and never NaN. *)
Lemma conductivity_nonneg (rs : pynum) (thickness : float) (sigma : pynum) :
  conductivity rs thickness = Ok sigma ->
  py_ge sigma (PyInt 0) = true.
Proof.
  unfold conductivity.
  destruct (py_gt (py_abs rs) (PyFloat 1e-9)) eqn:H1;
    [destruct (py_gt (PyFloat thickness) (PyInt 0)) eqn:H2|]; simpl andb;
    cbv iota; try (intros H; injection H as <-; reflexivity).
  rewrite py_mul_float. unfold py_truediv. simpl to_float.
  rewrite py_gt_float in H1. rewrite py_gt_zero in H2.
  pose proof (above_bound_positive 1e-9%float _ bound_1e9 H1) as Ha.
  pose proof (above_bound_positive 0%float thickness eq_refl H2) as Ht.
  pose proof (mul_positive _ _ Ha Ht) as Hp.
  destruct (to_float (py_abs rs) * thickness =? 0)%float eqn:Hz;
    [discriminate|].
  intros H; injection H as <-.
  apply (nonneg_number_leb _ (reciprocal_nonneg _ Hp Hz)).
Qed.

(** The magnitude that is stored never compares below zero, and it is at
    least zero unless it is NaN. *)
Lemma py_abs_not_negative (x : pynum) : py_lt (py_abs x) (PyInt 0) = false.
Proof.
  destruct x as [z|f]; simpl.
  - apply Z.ltb_ge. apply Z.abs_nonneg.
  - apply abs_not_negative.
Qed.

Lemma py_abs_nonneg_or_nan (x : pynum) :
  py_ge (py_abs x) (PyInt 0) = true \/ x = PyFloat nan.
Proof.
  destruct x as [z|f].
  - left. apply Z.leb_le. apply Z.abs_nonneg.
  - destruct (abs_nonneg_or_nan f) as [H|H]; [left; exact H|right].
    rewrite H. reflexivity.
Qed.

End PointFacts.

(* ================================================================== *)
(** * Claims about the per-point formulas *)
(* ================================================================== *)

Module Formulas.
Import GetConductivity FloatFacts PointFacts.

Example sheet_resistance_of_100_ohm :
  sheet_resistance 0.1 0.001 = Ok (PyFloat 453.2%float).
Proof. reflexivity. Qed.

Example sheet_resistance_of_noise :
  sheet_resistance 4.4408920985006262e-16 4.4408920985006263e-18
  = Ok (PyInt 0).
Proof. reflexivity. Qed.

Example conductivity_of_one_micron :
  conductivity (PyFloat 453.2) 1e-6 = Ok (PyFloat 2206.5313327449253).
Proof. reflexivity. Qed.



(** C2 as stated fails.  With [Rs = -10] and a thickness of 0.001 the code
    gives 100 where [1 / (Rs * thickness)] is -100, and with [Rs = 0] it
    gives the integer 0 where the formula divides by zero. *)
Lemma conductivity_is_not_the_plain_reciprocal :
  conductivity (PyFloat (-10)) 0.001 = Ok (PyFloat 100)
  /\ py_truediv (PyInt 1) (py_mul (PyFloat (-10)) (PyFloat 0.001))
     = Ok (PyFloat (-100))
  /\ conductivity (PyInt 0) 0.001 = Ok (PyInt 0)
  /\ py_truediv (PyInt 1) (py_mul (PyInt 0) (PyFloat 0.001))
     = Raise ZeroDivisionError.
Proof. repeat split; reflexivity. Qed.

(** C2, amended.  For [abs(Rs) > 1e-9] and a thickness above zero the
    conductivity is [1 / (abs(Rs) * thickness)]: the magnitude of [Rs]
    enters the product, and a product that underflows to zero makes the
    division raise [ZeroDivisionError]. *)
Theorem conductivity_reciprocal (rs : pynum) (thickness : float) :
  py_gt (py_abs rs) (PyFloat 1e-9) = true ->
  py_gt (PyFloat thickness) (PyInt 0) = true ->
  conductivity rs thickness
  = py_truediv (PyInt 1) (py_mul (py_abs rs) (PyFloat thickness))
  /\ conductivity rs thickness
     = if (to_float (py_abs rs) * thickness =? 0)%float
       then Raise ZeroDivisionError
       else Ok (PyFloat (1 / (to_float (py_abs rs) * thickness))%float).
Proof.
  intros H1 H2. split.
  - unfold conductivity. rewrite H1, H2. reflexivity.
  - apply (conductivity_branch rs thickness H1 H2).
Qed.

Lemma conductivity_reciprocal_witness :
  py_gt (py_abs (PyFloat (-453.2))) (PyFloat 1e-9) = true
  /\ py_gt (PyFloat 1e-6) (PyInt 0) = true
  /\ conductivity (PyFloat (-453.2)) 1e-6
     = Ok (PyFloat (1 / (453.2 * 1e-6))%float).
Proof.
  split; [reflexivity|]. split; [reflexivity|].
  exact (proj2 (conductivity_reciprocal (PyFloat (-453.2)) 1e-6
                  eq_refl eq_refl)).
Defined.

(** C3.  If [abs(I) <= 1e-7] the sheet resistance is the integer 0, and if
    [abs(Rs) <= 1e-9] the conductivity is the integer 0.  Neither result
    comes out of a division: a division yields a float or raises, so an
    integer result means that the guard sent the computation to the branch
    without one. *)
Theorem guards_give_zero (meas_v meas_i : float) (rs : pynum)
  (thickness : float) :
  ((abs meas_i <=? 1e-7)%float = true ->
   sheet_resistance meas_v meas_i = Ok (PyInt 0))
  /\ (py_le (py_abs rs) (PyFloat 1e-9) = true ->
      conductivity rs thickness = Ok (PyInt 0))
  /\ (forall z, sheet_resistance meas_v meas_i = Ok (PyInt z) ->
                fgt (abs meas_i) 1e-7 = false)
  /\ (forall z, conductivity rs thickness = Ok (PyInt z) ->
                py_gt (py_abs rs) (PyFloat 1e-9)
                && py_gt (PyFloat thickness) (PyInt 0) = false).
Proof.
  repeat split.
  - intros H. unfold sheet_resistance, fgt.
    rewrite (leb_not_gt _ _ H). reflexivity.
  - intros H. unfold conductivity.
    rewrite py_le_float in H. rewrite py_gt_float.
    rewrite (leb_not_gt _ _ H). reflexivity.
  - intros z. unfold sheet_resistance, py_truediv.
    destruct (fgt (abs meas_i) 1e-7); [|reflexivity].
    destruct (to_float (PyFloat meas_i) =? 0)%float; simpl; discriminate.
  - intros z. unfold conductivity.
    destruct (py_gt (py_abs rs) (PyFloat 1e-9)
              && py_gt (PyFloat thickness) (PyInt 0)); [|reflexivity].
    rewrite py_mul_float. unfold py_truediv.
    destruct (to_float (PyFloat (to_float (py_abs rs) * thickness)) =? 0)%float;
      discriminate.
Qed.

Lemma guards_give_zero_witness :
  ((abs 5e-8 <=? 1e-7)%float = true
   /\ sheet_resistance 0.3 5e-8 = Ok (PyInt 0))
  /\ (py_le (py_abs (PyFloat (-1e-10))) (PyFloat 1e-9) = true
      /\ conductivity (PyFloat (-1e-10)) 1e-6 = Ok (PyInt 0)).
Proof.
  split; (split; [reflexivity|]).
  - apply (proj1 (guards_give_zero 0.3 5e-8 (PyFloat (-1e-10)) 1e-6)).
    reflexivity.
  - apply (proj1 (proj2 (guards_give_zero 0.3 5e-8 (PyFloat (-1e-10)) 1e-6))).
    reflexivity.
Defined.

End Formulas.

(* ================================================================== *)
(** * The sweep loop *)
(* ================================================================== *)

Module SweepFacts.
Import GetConductivity FloatFacts PointFacts.

Section Sweep.
Variable E : env.

(** One pass through the body of the [try]: the probe is called once, and
    the row of the reading is appended unless the reply or one of the two
    divisions raises. *)
Lemma measure_eq (thickness set_v : float) (results : list point)
  (s : machine) :
  measure E thickness set_v results s
  = let r := device E (clock s) (ProbeOneshot set_v) in
    let s1 := record (Called (ProbeOneshot set_v) r) (tick s) in
    match r with
    | RRaise e => (Raise e, s1)
    | RData v i =>
        match compute_point thickness v i with
        | Ok row =>
            (Ok (results ++ [row]),
             record (Printed (MsgSweepRow set_v v i (p_rs row) (p_sigma row)))
                    s1)
        | Raise e => (Raise e, s1)
        end
    | _ => (Raise TypeError, s1)
    end.
Proof.
  unfold measure, compute_point, bind, invoke, lift, say, modify, ret.
  cbv zeta.
  destruct (device E (clock s) (ProbeOneshot set_v)) as [| | |v i|e];
    simpl; try reflexivity.
  destruct (sheet_resistance v i) as [rs|e]; simpl; [|reflexivity].
  destruct (conductivity rs thickness) as [sigma|e]; reflexivity.
Qed.

Lemma sweep_cons (thickness set_v : float) (rest : list float)
  (results : list point) (s : machine) :
  sweep E thickness (set_v :: rest) results s
  = match sweep_point E thickness set_v results s with
    | (Ok results', s') => sweep E thickness rest results' s'
    | (Raise e, s') => (Raise e, s')
    end.
Proof. reflexivity. Qed.

(** An iteration either appends the row of a reading, or leaves the list
    as it was, or is interrupted from the keyboard. *)
Lemma sweep_point_cases (thickness set_v : float) (results : list point)
  (s : machine) :
  (exists v i row s',
     device E (clock s) (ProbeOneshot set_v) = RData v i
     /\ compute_point thickness v i = Ok row
     /\ sweep_point E thickness set_v results s = (Ok (results ++ [row]), s'))
  \/ (exists s', sweep_point E thickness set_v results s = (Ok results, s'))
  \/ (exists s', sweep_point E thickness set_v results s
                 = (Raise KeyboardInterrupt, s')).
Proof.
  unfold sweep_point, try_except. rewrite measure_eq. cbv zeta.
  destruct (device E (clock s) (ProbeOneshot set_v)) as [| | |v i|e] eqn:Hr.
  1-3: right; left; eexists; reflexivity.
  - destruct (compute_point thickness v i) as [row|e] eqn:Hrow.
    + left. exists v, i, row. eexists.
      split; [reflexivity|]. split; [exact Hrow|reflexivity].
    + right. destruct e; simpl;
        try (left; eexists; reflexivity).
      right. eexists; reflexivity.
  - right. destruct e; simpl;
      try (left; eexists; reflexivity).
    right. eexists; reflexivity.
Qed.

(** Every row the sweep returns beyond those it started with is the row of
    a reading. *)
Lemma sweep_rows (thickness : float) (P : point -> Prop) :
  (forall v i row, compute_point thickness v i = Ok row -> P row) ->
  forall vs results s rows s',
    sweep E thickness vs results s = (Ok rows, s') ->
    Forall P results -> Forall P rows.
Proof.
  intros HP vs.
  induction vs as [|set_v rest IH]; intros results s rows s' H Hres.
  - simpl in H. unfold ret in H. injection H as <- _. exact Hres.
  - rewrite sweep_cons in H.
    destruct (sweep_point_cases thickness set_v results s)
      as [(v & i & row & s1 & _ & Hrow & Hstep)|[[s1 Hstep]|[s1 Hstep]]];
      rewrite Hstep in H.
    + apply (IH _ _ _ _ H). apply Forall_app. split; [exact Hres|].
      constructor; [apply (HP v i row Hrow)|constructor].
    + apply (IH _ _ _ _ H Hres).
    + discriminate.
Qed.


End Sweep.

End SweepFacts.

(* ================================================================== *)
(** * Claims about the recorded results *)
(* ================================================================== *)

Module Results.
Import GetConductivity FloatFacts PointFacts SweepFacts Expected.

Lemma comprehension_filter {A B : Type} (sel : A -> B) (cond : A -> bool)
  (data : list A) :
  comprehension sel cond data = map sel (filter cond data).
Proof.
  induction data as [|r rest IH]; simpl; [reflexivity|].
  destruct (cond r); simpl; rewrite IH; reflexivity.
Qed.

Lemma filter_both {A : Type} (p q : A -> bool) (l : list A) :
  filter (fun r => p r && q r) l = filter p (filter q l).
Proof.
  induction l as [|r rest IH]; simpl; [reflexivity|].
  destruct (q r); simpl.
  - rewrite andb_true_r. destruct (p r); rewrite IH; reflexivity.
  - rewrite andb_false_r. exact IH.
Qed.

Lemma py_ge_not_lt (x : pynum) :
  py_ge x (PyInt 0) = true -> py_lt x (PyInt 0) = false.
Proof.
  destruct x as [z|f]; simpl.
  - intros H. apply Z.ltb_ge. apply Z.leb_le. exact H.
  - apply leb_not_gt.
Qed.

Section Saved.
Variable E : env.

Lemma run_measurement_eq (s : machine) :
  run_measurement E s
  = match thickness_m s with
    | None => (Raise TypeError, s)
    | Some thickness =>
        match sweep E thickness voltages [] s with
        | (Ok rows, s') => (Ok rows, record (Printed MsgSweepDone) s')
        | (Raise e, s') => (Raise e, s')
        end
    end.
Proof.
  unfold run_measurement, bind, get, raise, say, modify, ret.
  destruct (thickness_m s) as [t|]; [|reflexivity].
  destruct (sweep E t voltages [] s) as [[rows|e] s']; reflexivity.
Qed.

(** The sweep records exactly the rows of the replies, in order. *)
Lemma sweep_records_replies (thickness : float) :
  forall vs results s rows s',
    sweep E thickness vs results s = (Ok rows, s') ->
    rows = results ++ rows_of_replies E thickness vs (clock s)
    /\ clock s' = (clock s + List.length vs)%nat.
Proof.
  induction vs as [|set_v rest IH]; intros results s rows s' H.
  - injection H as <- <-. simpl. rewrite app_nil_r. split; [reflexivity|lia].
  - rewrite sweep_cons in H. simpl rows_of_replies.
    unfold sweep_point, try_except in H. rewrite measure_eq in H.
    cbv zeta in H. unfold reading_row.
    destruct (device E (clock s) (ProbeOneshot set_v)) as [| | |v i|e].
    4: destruct (compute_point thickness v i) as [row|e].
    all: try (destruct e; try discriminate H).
    all: simpl in H; apply IH in H; destruct H as [-> ->]; simpl.
    all: split; [rewrite <- ?app_assoc; reflexivity|lia].
Qed.

(** C9 as stated fails on a reading that is not a number.  A voltage of
    NaN, or an infinite voltage over an infinite current, gives a sheet
    resistance of NaN; [abs] keeps it, and the row stores a value that is
    not zero or more (and not below zero either).  With a probe whose
    voltage sense is broken this happens at 50 of the 51 points of a
    sweep, and a whole run writes these rows to the CSV file and
    returns 0. *)
Lemma nan_reading_is_stored_as_nan :
  let B := Bench.bench Bench.broken_sense in
  let rows :=
    match fst (run_measurement B Bench.connected) with
    | Ok rows => rows
    | Raise _ => []
    end in
  let out := run B [Typed ""; Typed "0.001"] fresh in
  match compute_point 1e-6 nan 0.001,
        compute_point 1e-6 infinity infinity with
  | Ok row1, Ok row2 =>
      py_ge (p_rs row1) (PyInt 0) = false
      /\ py_lt (p_rs row1) (PyInt 0) = false
      /\ py_ge (p_rs row2) (PyInt 0) = false
  | _, _ => False
  end
  /\ List.length rows = 51%nat
  /\ List.length
       (filter (fun r => negb (py_ge (p_rs r) (PyInt 0))) rows) = 50%nat
  /\ fst out = Ok 0%Z
  /\ filter (fun ev => match ev with CsvWritten _ => true | _ => false end)
            (trace (snd out))
     = [CsvWritten (csv_rows rows)].
Proof. vm_compute. repeat split; reflexivity. Qed.

(** C9, amended.  Every row of the results of a measurement stores the
    magnitude [abs(rs)] of the computed sheet resistance, not [rs] itself,
    and a conductivity that is zero or more.  A stored value never
    compares below zero; the stored sheet resistance is zero or more
    unless the computed [rs] is NaN, a value that is neither negative nor
    non-negative and that [abs] keeps. *)
Theorem results_are_never_negative (s : machine) (rows : list point)
  (s' : machine) :
  run_measurement E s = (Ok rows, s') ->
  Forall never_negative rows.
Proof.
  rewrite run_measurement_eq.
  destruct (thickness_m s) as [t|]; [|discriminate].
  destruct (sweep E t voltages [] s) as [[rows0|e] s0] eqn:Hsweep;
    [|discriminate].
  intros H; injection H as <- _.
  apply (sweep_rows E t _) with (2 := Hsweep); [|constructor].
  intros v i row. unfold compute_point.
  destruct (sheet_resistance v i) as [rs|e] eqn:Hrs; simpl; [|discriminate].
  destruct (conductivity rs t) as [sigma|e] eqn:Hsigma; simpl;
    [|discriminate].
  intros Hrow; injection Hrow as <-. unfold never_negative. simpl.
  pose proof (conductivity_nonneg rs t sigma Hsigma) as Hge.
  repeat split.
  - exists v, i, rs. repeat split; try assumption.
    apply py_abs_nonneg_or_nan.
  - apply py_abs_not_negative.
  - exact Hge.
  - apply (py_ge_not_lt _ Hge).
Qed.

(** [save_results], operation by operation. *)
Lemma save_results_eq (data : list point) (s : machine) :
  save_results E data s
  = match storage E (clock s) MakeFolder with
    | Some e => (Raise e, s)
    | None =>
        match storage E (clock s)
                (WriteCsv (sample_name s) (csv_rows data)) with
        | Some e => (Raise e, s)
        | None =>
            let s1 := record (CsvWritten (csv_rows data)) s in
            match storage E (clock s)
                    (SavePlot (sample_name s) (map p_voltage data)
                       (map p_current data) (avg_rs E data)
                       (avg_sigma E data)) with
            | Some e => (Raise e, s1)
            | None =>
                (Ok tt,
                 record (Printed (MsgSummary (avg_rs E data)
                                    (avg_sigma E data)))
                   (record (PlotSaved (map p_voltage data)
                              (map p_current data) (avg_rs E data)
                              (avg_sigma E data)) s1))
            end
        end
    end.
Proof.
  unfold save_results, bind, store, get, modify, say.
  destruct (storage E (clock s) MakeFolder); [reflexivity|].
  destruct (storage E (clock s) (WriteCsv _ _)); [reflexivity|].
  cbn [clock record].
  destruct (storage E (clock s) (SavePlot _ _ _ _ _)); reflexivity.
Qed.

(** When [save_results] returns, it has added three events to the trace:
    the CSV file, the plot and the summary. *)
Lemma save_results_ok (data : list point) (s s' : machine) :
  save_results E data s = (Ok tt, s') ->
  storage E (clock s) MakeFolder = None
  /\ storage E (clock s) (WriteCsv (sample_name s) (csv_rows data)) = None
  /\ trace s'
     = trace s
       ++ [CsvWritten (csv_rows data);
           PlotSaved (map p_voltage data) (map p_current data)
                     (avg_rs E data) (avg_sigma E data);
           Printed (MsgSummary (avg_rs E data) (avg_sigma E data))].
Proof.
  rewrite save_results_eq. cbv zeta.
  destruct (storage E (clock s) MakeFolder); [discriminate|].
  destruct (storage E (clock s) (WriteCsv _ _)); [discriminate|].
  destruct (storage E (clock s) (SavePlot _ _ _ _ _)); [discriminate|].
  intros H; injection H as <-. repeat split.
  simpl. rewrite <- !app_assoc. reflexivity.
Qed.

(** What [save_results] adds to the trace, whatever the file system
    does. *)
Lemma save_results_events (data : list point) (s : machine) :
  exists evs,
    trace (snd (save_results E data s)) = trace s ++ evs
    /\ (evs = []
        \/ evs = [CsvWritten (csv_rows data)]
        \/ evs = [CsvWritten (csv_rows data);
                  PlotSaved (map p_voltage data) (map p_current data)
                            (avg_rs E data) (avg_sigma E data);
                  Printed (MsgSummary (avg_rs E data) (avg_sigma E data))])
    /\ (fst (save_results E data s) = Ok tt -> List.length evs = 3%nat).
Proof.
  rewrite save_results_eq. cbv zeta.
  destruct (storage E (clock s) MakeFolder).
  { exists []. simpl. rewrite app_nil_r. repeat split; auto. discriminate. }
  destruct (storage E (clock s) (WriteCsv _ _)).
  { exists []. simpl. rewrite app_nil_r. repeat split; auto. discriminate. }
  destruct (storage E (clock s) (SavePlot _ _ _ _ _)).
  { eexists [_]. simpl. repeat split; auto. discriminate. }
  eexists [_; _; _]. simpl. rewrite <- !app_assoc. repeat split; auto.
Qed.

(** C6.  The CSV file of [save_results]: the header row with the four
    column names in the order current, voltage, sheet resistance,
    conductivity, then one row per entry of the data, in order, holding
    that entry's current, voltage, sheet resistance and conductivity.
    This is the only file content [save_results] ever writes: it is
    written when the results folder can be made and the file written, and
    when one of the two raises, [save_results] raises the same exception
    and goes no further.  When the data are those of a measurement, the
    entries are the rows of the probe's readings, one for each sweep
    point that was measured. *)
Theorem csv_file_layout (data : list point) (s : machine) :
  let file := csv_header :: map csv_row data in
  (forall s',
     save_results E data s = (Ok tt, s') ->
     trace s'
     = trace s
       ++ [CsvWritten file;
           PlotSaved (map p_voltage data) (map p_current data)
                     (avg_rs E data) (avg_sigma E data);
           Printed (MsgSummary (avg_rs E data) (avg_sigma E data))])
  /\ (exists evs,
        trace (snd (save_results E data s)) = trace s ++ evs
        /\ (forall rows, In (CsvWritten rows) evs -> rows = file)
        /\ (storage E (clock s) MakeFolder = None ->
            storage E (clock s) (WriteCsv (sample_name s) file) = None ->
            exists rest, evs = CsvWritten file :: rest))
  /\ (forall e,
        storage E (clock s) MakeFolder = Some e
        \/ (storage E (clock s) MakeFolder = None
            /\ storage E (clock s) (WriteCsv (sample_name s) file)
               = Some e) ->
        save_results E data s = (Raise e, s))
  /\ csv_header
     = [CText "Current (A)"; CText "Voltage (V)";
        CText "Sheet Resistance (Ohm/sq)"; CText "Conductivity (S/m)"]
  /\ List.length file = S (List.length data)
  /\ (forall k r,
        nth_error data k = Some r ->
        nth_error file (S k)
        = Some [CNum (p_current r); CNum (p_voltage r);
                CNum (p_rs r); CNum (p_sigma r)])
  /\ (forall s0 thickness,
        thickness_m s0 = Some thickness ->
        run_measurement E s0 = (Ok data, s) ->
        data = rows_of_replies E thickness voltages (clock s0)).
Proof.
  cbv zeta.
  split; [intros s' H; apply (save_results_ok data s s' H)|].
  split.
  { rewrite save_results_eq. cbv zeta. fold (csv_rows data).
    destruct (storage E (clock s) MakeFolder).
    { exists []. simpl. rewrite app_nil_r.
      repeat split; [intros rows Hf; destruct Hf|discriminate]. }
    destruct (storage E (clock s) (WriteCsv _ _)).
    { exists []. simpl. rewrite app_nil_r.
      repeat split; [intros rows Hf; destruct Hf|discriminate]. }
    destruct (storage E (clock s) (SavePlot _ _ _ _ _)).
    - eexists [_]. simpl. split; [reflexivity|]. split.
      + intros rows [H|[]]. injection H as <-. reflexivity.
      + intros _ _. eexists. reflexivity.
    - eexists [_; _; _]. simpl. rewrite <- !app_assoc.
      split; [reflexivity|]. split.
      + intros rows [H|[H|[H|[]]]]; try discriminate.
        injection H as <-. reflexivity.
      + intros _ _. eexists. reflexivity. }
  split.
  { intros e H. rewrite save_results_eq. fold (csv_rows data) in H.
    destruct H as [-> | [-> ->]]; reflexivity. }
  repeat split.
  - simpl. rewrite length_map. reflexivity.
  - intros k r H. simpl. rewrite nth_error_map, H. reflexivity.
  - intros s0 t Ht. rewrite run_measurement_eq, Ht.
    destruct (sweep E t voltages [] s0) as [[rows|e] s1] eqn:Hsweep;
      [|discriminate].
    intros H; injection H as <- _.
    apply (sweep_records_replies t _ _ _ _ _ Hsweep).
Qed.

(** C8.  The average sheet resistance of the summary is the mean of the
    recorded values strictly between 5 and 1000, and the integer 0 when
    there is none; the average conductivity is the mean of the
    conductivities above zero among the same rows, and 0 when there is
    none.  These two averages are the ones in every summary line that
    [save_results] prints, and it prints one whenever it returns.  The
    filter touches the summary and the plot title only: a summary is
    printed only after the CSV file was written, and that file holds every
    row. *)
Theorem summary_averages_filtered (data : list point) (s : machine) :
  avg_rs E data
  = match map p_rs (filter in_band data) with
    | [] => PyInt 0
    | x :: xs => PyFloat (np_mean E (map to_float (x :: xs)))
    end
  /\ avg_sigma E data
     = match map p_sigma
               (filter (fun r => py_gt (p_sigma r) (PyInt 0))
                       (filter in_band data)) with
       | [] => PyInt 0
       | x :: xs => PyFloat (np_mean E (map to_float (x :: xs)))
       end
  /\ (forall r, in_band r = true
                <-> py_lt (PyInt 5) (p_rs r) = true
                    /\ py_lt (p_rs r) (PyInt 1000) = true)
  /\ exists evs,
       trace (snd (save_results E data s)) = trace s ++ evs
       /\ (fst (save_results E data s) = Ok tt ->
           In (Printed (MsgSummary (avg_rs E data) (avg_sigma E data))) evs)
       /\ (forall a b,
             In (Printed (MsgSummary a b)) evs ->
             a = avg_rs E data /\ b = avg_sigma E data
             /\ In (CsvWritten (csv_header :: map csv_row data)) evs)
       /\ (forall rows, In (CsvWritten rows) evs ->
                        rows = csv_header :: map csv_row data).
Proof.
  split.
  { unfold avg_rs, valid_rs, mean_or_zero. rewrite comprehension_filter.
    destruct (map p_rs (filter in_band data)); reflexivity. }
  split.
  { unfold avg_sigma, valid_sigma, mean_or_zero.
    rewrite comprehension_filter, filter_both.
    destruct (map p_sigma _); reflexivity. }
  split.
  { intros r. unfold in_band. split.
    - intros H. apply andb_prop in H. exact H.
    - intros [H1 H2]. rewrite H1, H2. reflexivity. }
  destruct (save_results_events data s) as (evs & T & Hevs & Hok).
  exists evs. split; [exact T|].
  fold (csv_rows data).
  destruct Hevs as [-> | [-> | ->]].
  - split; [intros H; apply Hok in H; discriminate|].
    split; [intros a b Hf; destruct Hf|intros rows Hf; destruct Hf].
  - split; [intros H; apply Hok in H; discriminate|].
    split.
    + intros a b [H|[]]. discriminate.
    + intros rows [H|[]]. injection H as <-. reflexivity.
  - split; [intros _; simpl; auto|].
    split.
    + intros a b [H|[H|[H|[]]]]; try discriminate.
      injection H as <- <-. repeat split. simpl. auto.
    + intros rows [H|[H|[H|[]]]]; try discriminate.
      injection H as <-. reflexivity.
Qed.

End Saved.

(** A sample name of 300 letters makes a file name that the file system
    of [Bench.short_names] refuses: [save_results] raises [OSError] when
    it opens the CSV file, no file and no plot is made, and the run
    reports the error and returns 1. *)
Example name_too_long :
  let out := run (Bench.short_names Bench.film)
               [Typed (Bench.letters 300); Typed "0.001"] fresh in
  fst out = Ok 1%Z
  /\ In (Printed (MsgError OSError)) (trace (snd out))
  /\ existsb (fun ev => match ev with
                        | CsvWritten _ | PlotSaved _ _ _ _ => true
                        | _ => false
                        end) (trace (snd out)) = false.
Proof.
  vm_compute. split; [reflexivity|]. split; [|reflexivity].
  auto 200.
Qed.

Lemma results_are_never_negative_witness :
  run_measurement (Bench.bench Bench.film) Bench.ready
  = (Ok Bench.film_rows,
     snd (run_measurement (Bench.bench Bench.film) Bench.ready))
  /\ Forall never_negative Bench.film_rows.
Proof.
  assert (H : run_measurement (Bench.bench Bench.film) Bench.ready
              = (Ok Bench.film_rows,
                 snd (run_measurement (Bench.bench Bench.film) Bench.ready))).
  { vm_compute. reflexivity. }
  split; [exact H|].
  exact (results_are_never_negative (Bench.bench Bench.film) Bench.ready
           Bench.film_rows _ H).
Defined.

End Results.

(* ================================================================== *)
(** * Stepping through statements *)
(* ================================================================== *)

Module MonadFacts.

Lemma bind_eq {A B : Type} (m : M A) (k : A -> M B) (s : machine) :
  bind m k s
  = match m s with
    | (Ok a, s') => k a s'
    | (Raise e, s') => (Raise e, s')
    end.
Proof. reflexivity. Qed.

Lemma bind_ok_inv {A B : Type} (m : M A) (k : A -> M B) (s s' : machine)
  (b : B) :
  bind m k s = (Ok b, s') ->
  exists a s1, m s = (Ok a, s1) /\ k a s1 = (Ok b, s').
Proof.
  unfold bind. destruct (m s) as [[a|e] s1]; [|discriminate].
  intros H. exists a, s1. split; [reflexivity|exact H].
Qed.

Lemma invoke_ok_inv (E : env) (c : call) (s s' : machine) (r : reply) :
  invoke E c s = (Ok r, s') ->
  r = device E (clock s) c /\ s' = record (Called c r) (tick s).
Proof.
  unfold invoke. destruct (device E (clock s) c); try discriminate;
    intros H; injection H as <- <-; split; reflexivity.
Qed.

Lemma invoke_snd (E : env) (c : call) (s : machine) :
  snd (invoke E c s) = record (Called c (device E (clock s) c)) (tick s).
Proof. unfold invoke. destruct (device E (clock s) c); reflexivity. Qed.


Lemma say_eq (m : message) (s : machine) :
  say m s = (Ok tt, record (Printed m) s).
Proof. reflexivity. Qed.

Lemma lift_ok_inv {A : Type} (r : result A) (s s' : machine) (a : A) :
  lift r s = (Ok a, s') -> r = Ok a /\ s' = s.
Proof. unfold lift. intros H; injection H as -> <-. split; reflexivity. Qed.

Lemma clock_record (ev : event) (s : machine) :
  clock (record ev s) = clock s.
Proof. reflexivity. Qed.

Lemma clock_tick (s : machine) : clock (tick s) = S (clock s).
Proof. reflexivity. Qed.

Lemma trace_record (ev : event) (s : machine) :
  trace (record ev s) = trace s ++ [ev].
Proof. reflexivity. Qed.

Lemma trace_tick (s : machine) : trace (tick s) = trace s.
Proof. reflexivity. Qed.

End MonadFacts.

(* ================================================================== *)
(** * Contact verification *)
(* ================================================================== *)

Module Contact.
Import GetConductivity Expected MonadFacts.











Section Verify.
Variable E : env.



(** What a successful raise does: the height grows by the increment, and
    the stage is sent to the truncated step count of the new height. *)
Lemma raise_stage_ok (h h' : float) (s s' : machine) :
  raise_stage E h s = (Ok h', s') ->
  h' = (h + RETRY_INCREMENT_MM)%float
  /\ exists steps r1 r2,
       int_of_float (h' * float_of_Z STEPS_PER_MM)%float = Ok steps
       /\ trace s' = trace s ++ [Printed (MsgMovingTo h');
                                 Called (StageMoveTo steps) r1;
                                 Called StageWaitMove r2].
Proof.
  unfold raise_stage, bind, lift, say, modify, invoke, ret.
  destruct (int_of_float _) as [steps|e] eqn:Hsteps; [|discriminate].
  simpl.
  destruct (device E (clock s) (StageMoveTo steps)) eqn:H1;
    simpl; try discriminate;
    destruct (device E (S (clock s)) StageWaitMove) eqn:H2;
    simpl; try discriminate;
    intros H; injection H as <- <-;
    (split; [reflexivity|]);
    exists steps; do 2 eexists; (split; [exact Hsteps|]);
    simpl; rewrite <- !app_assoc; reflexivity.
Qed.

(** The choices of the prompt. *)
Lemma retry_prompt_choice_1
  (again : float -> list key -> M (bool * list key)) (h : float)
  (line : string) (rest : list key) (s : machine) :
  String.eqb (strip line) "1" = true ->
  retry_prompt E again h (Typed line :: rest) s
  = match raise_stage E h s with
    | (Ok h', s1) => again h' rest s1
    | (Raise e, s1) => (Raise e, s1)
    end.
Proof.
  intros H. simpl. rewrite H. unfold bind at 1.
  destruct (raise_stage E h s) as [[h'|e] s1]; reflexivity.
Qed.

Lemma retry_prompt_choice_2
  (again : float -> list key -> M (bool * list key)) (h : float)
  (line : string) (rest : list key) (s : machine) :
  String.eqb (strip line) "2" = true ->
  retry_prompt E again h (Typed line :: rest) s
  = (Ok (false, rest), record (Printed MsgAborting) s).
Proof.
  intros H. simpl.
  destruct (String.eqb (strip line) "1") eqn:H1.
  - apply String.eqb_eq in H, H1. congruence.
  - rewrite H. reflexivity.
Qed.

Lemma retry_prompt_choice_3
  (again : float -> list key -> M (bool * list key)) (h : float)
  (line : string) (rest : list key) (s : machine) :
  String.eqb (strip line) "3" = true ->
  retry_prompt E again h (Typed line :: rest) s
  = (Ok (true, rest), record (Printed MsgOverriding) s).
Proof.
  intros H. simpl.
  destruct (String.eqb (strip line) "1") eqn:H1.
  { apply String.eqb_eq in H, H1. congruence. }
  destruct (String.eqb (strip line) "2") eqn:H2.
  { apply String.eqb_eq in H, H2. congruence. }
  rewrite H. reflexivity.
Qed.

Lemma retry_prompt_other
  (again : float -> list key -> M (bool * list key)) (h : float)
  (line : string) (rest : list key) (s : machine) :
  String.eqb (strip line) "1" = false ->
  String.eqb (strip line) "2" = false ->
  String.eqb (strip line) "3" = false ->
  retry_prompt E again h (Typed line :: rest) s
  = retry_prompt E again h rest (record (Printed MsgInvalidChoice) s).
Proof. intros H1 H2 H3. simpl. rewrite H1, H2, H3. reflexivity. Qed.


(** [verify_contact], call by call. *)
Lemma verify_contact_within_eq (depth : nat) (h : float) (keys : list key)
  (s : machine) :
  verify_contact_within E (S depth) h keys s
  = match contact_test E h s with
    | (Ok true, s1) => (Ok (true, keys), s1)
    | (Ok false, s1) =>
        retry_prompt E (verify_contact_within E depth) h keys s1
    | (Raise e, s1) => (Raise e, s1)
    end.
Proof.
  simpl verify_contact_within. rewrite bind_eq.
  destruct (contact_test E h s) as [[[|]|e] s1]; reflexivity.
Qed.




End Verify.

End Contact.

Module ContactClaims.
Import GetConductivity Expected MonadFacts Contact.

(** From the contact height of a real run, thirty answers [1] to the
    prompt raise the stage thirty times, up to 8.4 mm. *)
Example thirty_retries :
  let r := run (Bench.bench Bench.open_circuit)
               (Typed "" :: Typed "0.001" :: Bench.insist 30) fresh in
  fst r = Ok 0%Z /\ retries (trace (snd r)) = 30%nat.
Proof. vm_compute. split; reflexivity. Qed.



End ContactClaims.

(* ================================================================== *)
(** * The top level of a measurement run *)
(* ================================================================== *)

Module TopLevel.
Import GetConductivity Expected MonadFacts SweepFacts.

Section Run.
Variable E : env.

Ltac answer_calls :=
  repeat match goal with
         | |- context [match device E ?n ?c with _ => _ end] =>
             destruct (device E n c) eqn:?; simpl
         | H : context [match device E ?n ?c with _ => _ end] |- _ =>
             destruct (device E n c) eqn:?; simpl in H
         end.

(** Each block of [shutdown] swallows whatever its calls raise and leaves
    the two handles as they were. *)
Lemma shutdown_probe_returns (s : machine) :
  fst (shutdown_probe E s) = Ok tt
  /\ probe (snd (shutdown_probe E s)) = probe s
  /\ stage (snd (shutdown_probe E s)) = stage s.
Proof.
  unfold shutdown_probe, bind, get, try_except, invoke, say, modify, ret.
  destruct (probe s) eqn:Hp; simpl; [|auto].
  answer_calls; simpl; auto.
Qed.

Lemma shutdown_stage_returns (s : machine) :
  fst (shutdown_stage E s) = Ok tt
  /\ probe (snd (shutdown_stage E s)) = probe s
  /\ stage (snd (shutdown_stage E s)) = stage s.
Proof.
  unfold shutdown_stage, bind, get, try_except, invoke, say, modify, ret.
  destruct (stage s) eqn:Hs; simpl; [|auto].
  answer_calls; simpl; auto.
Qed.

Lemma shutdown_eq (s : machine) :
  shutdown E s = (Ok tt, snd (shutdown_stage E (snd (shutdown_probe E s)))).
Proof.
  unfold shutdown. rewrite bind_eq.
  destruct (shutdown_probe_returns s) as (H1 & _ & _).
  destruct (shutdown_probe E s) as [[[]|e] s1]; simpl in *; [|discriminate].
  destruct (shutdown_stage_returns s1) as (H2 & _ & _).
  destruct (shutdown_stage E s1) as [[[]|e] s2]; simpl in *;
    [reflexivity|discriminate].
Qed.

Lemma shutdown_returns (s : machine) : fst (shutdown E s) = Ok tt.
Proof. rewrite shutdown_eq. reflexivity. Qed.

(** The events each block adds to the trace. *)
Lemma shutdown_probe_trace (s : machine) :
  exists evs,
    trace (snd (shutdown_probe E s)) = trace s ++ evs
    /\ (probe s = true ->
        exists rest,
          evs = Called (ProbeVoltage (PyInt 0))
                       (device E (clock s) (ProbeVoltage (PyInt 0))) :: rest).
Proof.
  unfold shutdown_probe, bind, get, try_except, invoke, say, modify, ret.
  destruct (probe s) eqn:Hp; simpl.
  - destruct (device E (clock s) (ProbeVoltage (PyInt 0))) eqn:H1; simpl;
      answer_calls; rewrite <- ?app_assoc; simpl;
      eexists; (split; [reflexivity|]); intros _; eexists; reflexivity.
  - exists []. rewrite app_nil_r. split; [reflexivity|discriminate].
Qed.

Lemma shutdown_stage_trace (s : machine) :
  exists evs,
    trace (snd (shutdown_stage E s)) = trace s ++ evs
    /\ (stage s = true ->
        exists rest,
          evs = Called StageClose (device E (clock s) StageClose) :: rest).
Proof.
  unfold shutdown_stage, bind, get, try_except, invoke, say, modify, ret.
  destruct (stage s) eqn:Hs; simpl.
  - destruct (device E (clock s) StageClose) eqn:H1; simpl;
      rewrite <- ?app_assoc; simpl;
      eexists; (split; [reflexivity|]); intros _; eexists; reflexivity.
  - exists []. rewrite app_nil_r. split; [reflexivity|discriminate].
Qed.

(** With the probe handle held, the first thing [shutdown] does is to set
    the probe voltage to zero. *)
Lemma shutdown_zeroes_probe (s : machine) :
  probe s = true ->
  exists evs,
    trace (snd (shutdown E s))
    = trace s
      ++ Called (ProbeVoltage (PyInt 0))
                (device E (clock s) (ProbeVoltage (PyInt 0))) :: evs.
Proof.
  intros Hp. rewrite shutdown_eq. simpl snd.
  destruct (shutdown_probe_trace s) as (evs & Ht & Hfirst).
  destruct (Hfirst Hp) as [rest ->].
  destruct (shutdown_stage_trace (snd (shutdown_probe E s)))
    as (evs' & Ht' & _).
  rewrite Ht', Ht, <- app_assoc. simpl. eexists. reflexivity.
Qed.

(** With the stage handle held, [shutdown] calls [close] on the stage. *)
Lemma shutdown_closes_stage (s : machine) :
  stage s = true ->
  exists n evs evs',
    trace (snd (shutdown E s))
    = trace s ++ evs ++ Called StageClose (device E n StageClose) :: evs'.
Proof.
  intros Hs. rewrite shutdown_eq. simpl snd.
  destruct (shutdown_probe_trace s) as (evs & Ht & _).
  destruct (shutdown_probe_returns s) as (_ & _ & Hstage).
  destruct (shutdown_stage_trace (snd (shutdown_probe E s)))
    as (evs' & Ht' & Hclose).
  rewrite Hstage in Hclose. destruct (Hclose Hs) as [rest ->].
  rewrite Ht', Ht, <- app_assoc.
  exists (clock (snd (shutdown_probe E s))), evs, rest. reflexivity.
Qed.


Lemma run_eq (keys : list key) (s : machine) :
  run E keys s
  = match run_body E keys s with
    | (Ok code, s1) => (Ok code, s1)
    | (Raise e, s1) =>
        (Ok 1%Z, snd (shutdown E (record (Printed (top_message e)) s1)))
    end.
Proof.
  unfold run, try_except.
  destruct (run_body E keys s) as [[code|e] s1]; [reflexivity|].
  unfold run_handler.
  assert (H : forall m, (say m ;; shutdown E ;; ret 1%Z) s1
                        = (Ok 1%Z, snd (shutdown E (record (Printed m) s1)))).
  { intros m. rewrite bind_eq, say_eq, bind_eq.
    pose proof (shutdown_returns (record (Printed m) s1)) as Hr.
    destruct (shutdown E (record (Printed m) s1)) as [[[]|e'] s2];
      simpl in Hr; [reflexivity|discriminate]. }
  destruct e; apply H.
Qed.

(** What [shutdown] adds to the trace. *)
Lemma shutdown_trace (s : machine) :
  exists evs,
    trace (snd (shutdown E s)) = trace s ++ evs
    /\ (probe s = true ->
        exists rest,
          evs = Called (ProbeVoltage (PyInt 0))
                       (device E (clock s) (ProbeVoltage (PyInt 0))) :: rest)
    /\ (stage s = true ->
        exists n pre post,
          evs = pre ++ Called StageClose (device E n StageClose) :: post).
Proof.
  rewrite shutdown_eq. simpl snd.
  destruct (shutdown_probe_trace s) as (evs1 & Ht1 & Hfirst).
  destruct (shutdown_probe_returns s) as (_ & _ & Hstage).
  destruct (shutdown_stage_trace (snd (shutdown_probe E s)))
    as (evs2 & Ht2 & Hclose).
  exists (evs1 ++ evs2). rewrite Ht2, Ht1, <- app_assoc.
  split; [reflexivity|]. split.
  - intros Hp. destruct (Hfirst Hp) as [rest ->].
    exists (rest ++ evs2). reflexivity.
  - intros Hs. rewrite Hstage in Hclose. destruct (Hclose Hs) as [rest ->].
    exists (clock (snd (shutdown_probe E s))), evs1, rest. reflexivity.
Qed.


End Run.

End TopLevel.

Module TopLevelClaims.
Import GetConductivity Expected MonadFacts SweepFacts TopLevel.


End TopLevelClaims.

(* ================================================================== *)
(** * The connection check *)
(* ================================================================== *)

Module ConnectionClaims.
Import CheckConnection MonadFacts.

Example both_devices_ready :
  fst (main (Bench.bench Bench.film) fresh) = Ok 0%Z.
Proof. reflexivity. Qed.

Example stage_unplugged :
  fst (main (Bench.bench (Bench.unplugged 3)) fresh) = Ok 1%Z.
Proof. reflexivity. Qed.

Section Checks.
Variable E : env.

(** A check whose [try] has the two [except] clauses returns a boolean, or
    is interrupted from the keyboard; every [Exception] becomes [False]. *)
Lemma guarded_check (body : M bool) (missing : message)
  (failed : exn -> message) (s : machine) :
  (exists b s',
     try_except body is_Exception (check_handler missing failed) s
     = (Ok b, s'))
  \/ (exists s',
        try_except body is_Exception (check_handler missing failed) s
        = (Raise KeyboardInterrupt, s')).
Proof.
  unfold try_except, check_handler.
  destruct (body s) as [[b|e] s1].
  - left. exists b, s1. reflexivity.
  - destruct e; simpl; try (left; do 2 eexists; reflexivity).
    right. eexists. reflexivity.
Qed.

Lemma check_stage_returns (s : machine) :
  (exists b s', check_stage E s = (Ok b, s'))
  \/ (exists s', check_stage E s = (Raise KeyboardInterrupt, s')).
Proof. apply guarded_check. Qed.

Lemma check_probe_returns (s : machine) :
  (exists b s', check_probe E s = (Ok b, s'))
  \/ (exists s', check_probe E s = (Raise KeyboardInterrupt, s')).
Proof. apply guarded_check. Qed.

(** [main] after the two checks have returned. *)
Lemma main_after_checks (s s1 s2 : machine) (stage_ok probe_ok : bool) :
  check_stage E s = (Ok stage_ok, s1) ->
  check_probe E s1 = (Ok probe_ok, s2) ->
  main E s
  = (Ok (if stage_ok && probe_ok then 0%Z else 1%Z),
     record (Printed (if stage_ok && probe_ok then ChkAllReady
                      else ChkNotReady))
       (record (Printed (ChkStatusProbe probe_ok))
          (record (Printed (ChkStatusStage stage_ok)) s2))).
Proof.
  intros H1 H2. unfold main. rewrite bind_eq, H1, bind_eq, H2.
  destruct (stage_ok && probe_ok); reflexivity.
Qed.

(** C7.  [main] prints one status line per device, saying whether its
    check returned [True], and returns 0 exactly when both checks returned
    [True]; whenever the two checks return and one of them returned
    [False], it returns 1.  A check turns every [Exception] into [False],
    so the only way for [main] not to return is a keyboard interrupt. *)
Theorem main_exit_code (s : machine) :
  (fst (main E s) = Ok 0%Z
   <-> exists s1 s2,
         check_stage E s = (Ok true, s1)
         /\ check_probe E s1 = (Ok true, s2))
  /\ (forall stage_ok probe_ok s1 s2,
        check_stage E s = (Ok stage_ok, s1) ->
        check_probe E s1 = (Ok probe_ok, s2) ->
        fst (main E s) = Ok (if stage_ok && probe_ok then 0%Z else 1%Z)
        /\ trace (snd (main E s))
           = trace s2
             ++ [Printed (ChkStatusStage stage_ok);
                 Printed (ChkStatusProbe probe_ok);
                 Printed (if stage_ok && probe_ok then ChkAllReady
                          else ChkNotReady)])
  /\ (forall code, fst (main E s) = Ok code -> code = 0%Z \/ code = 1%Z)
  /\ (forall e, fst (main E s) = Raise e -> e = KeyboardInterrupt).
Proof.
  assert (Hafter : forall stage_ok probe_ok s1 s2,
             check_stage E s = (Ok stage_ok, s1) ->
             check_probe E s1 = (Ok probe_ok, s2) ->
             fst (main E s) = Ok (if stage_ok && probe_ok then 0%Z else 1%Z)
             /\ trace (snd (main E s))
                = trace s2
                  ++ [Printed (ChkStatusStage stage_ok);
                      Printed (ChkStatusProbe probe_ok);
                      Printed (if stage_ok && probe_ok then ChkAllReady
                               else ChkNotReady)]).
  { intros stage_ok probe_ok s1 s2 H1 H2.
    rewrite (main_after_checks s s1 s2 stage_ok probe_ok H1 H2).
    split; [reflexivity|]. simpl. rewrite <- !app_assoc. reflexivity. }
  assert (Hcases :
            (exists stage_ok probe_ok s1 s2,
               check_stage E s = (Ok stage_ok, s1)
               /\ check_probe E s1 = (Ok probe_ok, s2))
            \/ (exists s', main E s = (Raise KeyboardInterrupt, s'))).
  { destruct (check_stage_returns s) as [(a & s1 & H1)|(s1 & H1)].
    - destruct (check_probe_returns s1) as [(b & s2 & H2)|(s2 & H2)].
      + left. exists a, b, s1, s2. split; assumption.
      + right. exists s2. unfold main. rewrite bind_eq, H1, bind_eq, H2.
        reflexivity.
    - right. exists s1. unfold main. rewrite bind_eq, H1. reflexivity. }
  split; [|split; [exact Hafter|split]].
  - split.
    + intros H0.
      destruct Hcases as [(a & b & s1 & s2 & H1 & H2)|(s' & Hm)].
      * destruct (Hafter a b s1 s2 H1 H2) as [Hcode _].
        rewrite Hcode in H0.
        destruct a, b; simpl in H0; try discriminate.
        exists s1, s2. split; assumption.
      * rewrite Hm in H0. discriminate.
    + intros (s1 & s2 & H1 & H2).
      apply (proj1 (Hafter true true s1 s2 H1 H2)).
  - intros code H0.
    destruct Hcases as [(a & b & s1 & s2 & H1 & H2)|(s' & Hm)].
    + destruct (Hafter a b s1 s2 H1 H2) as [Hcode _].
      rewrite Hcode in H0. injection H0 as <-.
      destruct (a && b); [left|right]; reflexivity.
    + rewrite Hm in H0. discriminate.
  - intros e H0.
    destruct Hcases as [(a & b & s1 & s2 & H1 & H2)|(s' & Hm)].
    + destruct (Hafter a b s1 s2 H1 H2) as [Hcode _].
      rewrite Hcode in H0. discriminate.
    + rewrite Hm in H0. injection H0 as <-. reflexivity.
Qed.

End Checks.

End ConnectionClaims.

(* ================================================================== *)
(** * The thickness prompt *)
(* ================================================================== *)

Module Thickness.
Import GetConductivity MonadFacts.

Section Prompt.
Variable E : env.

Lemma ask_thickness_line (line : string) (rest : list key) :
  ask_thickness E (Typed line :: rest)
  = match py_float E (strip line) with
    | None => say MsgInvalidNumber ;; ask_thickness E rest
    | Some thickness_mm =>
        if py_le (PyFloat thickness_mm) (PyInt 0) then
          say MsgThicknessNotPositive ;; ask_thickness E rest
        else
          modify (with_thickness (thickness_mm * 1e-3)%float) ;;
          say (MsgThicknessSet thickness_mm (thickness_mm * 1e-3)%float) ;;
          ret rest
    end.
Proof. reflexivity. Qed.

(** What the prompt guarantees when it returns: the thickness stored is
    the entered number of millimetres times [1e-3], and that number did
    not compare [<= 0]. *)
Lemma ask_thickness_accepts :
  forall keys s rest s',
    ask_thickness E keys s = (Ok rest, s') ->
    exists line thickness_mm,
      In (Typed line) keys
      /\ py_float E (strip line) = Some thickness_mm
      /\ py_le (PyFloat thickness_mm) (PyInt 0) = false
      /\ thickness_m s' = Some (thickness_mm * 1e-3)%float.
Proof.
  induction keys as [|k keys IH]; intros s rest s' H.
  - discriminate.
  - destruct k as [line|]; [|discriminate].
    rewrite ask_thickness_line in H.
    destruct (py_float E (strip line)) as [mm|] eqn:Hparse.
    + destruct (py_le (PyFloat mm) (PyInt 0)) eqn:Hle.
      * rewrite bind_eq, say_eq in H. apply IH in H.
        destruct H as (l & t & Hin & Hrest). exists l, t.
        split; [right; exact Hin|exact Hrest].
      * injection H as _ <-. exists line, mm.
        repeat split; try assumption. left. reflexivity.
    + rewrite bind_eq, say_eq in H. apply IH in H.
      destruct H as (l & t & Hin & Hrest). exists l, t.
      split; [right; exact Hin|exact Hrest].
Qed.

End Prompt.

(** A thickness that does not compare above zero switches the
    conductivity off for every sheet resistance. *)
Lemma conductivity_without_thickness (rs : pynum) (thickness : float) :
  py_gt (PyFloat thickness) (PyInt 0) = false ->
  conductivity rs thickness = Ok (PyInt 0).
Proof.
  intros H. unfold conductivity. rewrite H, andb_false_r. reflexivity.
Qed.

(** C10 fails on the code.  The prompt rejects a number only when it
    compares [<= 0], which NaN does not: the answer [nan] is accepted and
    stored as a thickness that is not above zero.  So is a positive answer
    small enough for the conversion to metres to underflow, such as
    [1e-322], which is stored as zero.  In both cases the guard
    [thickness_m > 0] of the sweep is false, and a complete run reports a
    conductivity of 0 at every one of its 51 points. *)
Theorem thickness_guard_can_fail :
  (fst (Bench.entered "nan") = Ok []
   /\ thickness_m (snd (Bench.entered "nan")) = Some nan
   /\ py_gt (PyFloat nan) (PyInt 0) = false)
  /\ (fst (Bench.entered "1e-322") = Ok []
      /\ thickness_m (snd (Bench.entered "1e-322")) = Some 0%float
      /\ py_gt (PyFloat 0) (PyInt 0) = false)
  /\ (fst (run (Bench.bench Bench.film) [Typed "FTO"; Typed "nan"] fresh)
      = Ok 0%Z
      /\ match fst (run_measurement (Bench.bench Bench.film)
                      (snd (Bench.entered "nan"))) with
         | Ok rows => map p_sigma rows = repeat (PyInt 0) 51
         | Raise _ => False
         end).
Proof. vm_compute. repeat split; reflexivity. Qed.

End Thickness.

(* ================================================================== *)
(** * Further properties of the point arithmetic *)
(* ================================================================== *)

Module PointSymmetry.
Import GetConductivity FloatFacts PointFacts Expected.

(** ** Negation and the float operations *)

Lemma binary_round_aux_opp (sx : bool) (mx ex : Z) (lx : location) :
  binary_round_aux prec emax (negb sx) mx ex lx
  = SFopp (binary_round_aux prec emax sx mx ex lx).
Proof.
  unfold binary_round_aux.
  destruct (shr_fexp prec emax mx ex lx) as [mrs' e'].
  destruct (shr_fexp prec emax _ e' loc_Exact) as [mrs'' e''].
  destruct (shr_m mrs''); simpl; try reflexivity.
  destruct (_ <=? _)%Z; reflexivity.
Qed.

Lemma SFdiv_opp_l (x y : spec_float) :
  SF64div (SFopp x) y = SFopp (SF64div x y).
Proof.
  unfold SF64div.
  destruct x as [sx|sx| |sx mx ex], y as [sy|sy| |sy my ey]; simpl;
    rewrite <- ?negb_xorb_l; try reflexivity.
  destruct (SFdiv_core_binary prec emax (Z.pos mx) ex (Z.pos my) ey)
    as [[mz ez] lz].
  apply binary_round_aux_opp.
Qed.

Lemma SFdiv_opp_r (x y : spec_float) :
  SF64div x (SFopp y) = SFopp (SF64div x y).
Proof.
  unfold SF64div.
  destruct x as [sx|sx| |sx mx ex], y as [sy|sy| |sy my ey]; simpl;
    rewrite <- ?negb_xorb_r; try reflexivity.
  destruct (SFdiv_core_binary prec emax (Z.pos mx) ex (Z.pos my) ey)
    as [[mz ez] lz].
  apply binary_round_aux_opp.
Qed.

Lemma SFmul_opp_l (x y : spec_float) :
  SF64mul (SFopp x) y = SFopp (SF64mul x y).
Proof.
  unfold SF64mul.
  destruct x as [sx|sx| |sx mx ex], y as [sy|sy| |sy my ey]; simpl;
    rewrite <- ?negb_xorb_l; try reflexivity.
  apply binary_round_aux_opp.
Qed.

Lemma div_opp_l (v i : float) : (- v / i = - (v / i))%float.
Proof.
  apply Prim2SF_inj. rewrite div_spec, !opp_spec, div_spec.
  apply SFdiv_opp_l.
Qed.

Lemma div_opp_r (v i : float) : (v / - i = - (v / i))%float.
Proof.
  apply Prim2SF_inj. rewrite div_spec, !opp_spec, div_spec.
  apply SFdiv_opp_r.
Qed.

Lemma mul_opp_l (a c : float) : (- a * c = - (a * c))%float.
Proof.
  apply Prim2SF_inj. rewrite mul_spec, !opp_spec, mul_spec.
  apply SFmul_opp_l.
Qed.

Lemma abs_opp (x : float) : abs (- x) = abs x.
Proof.
  apply Prim2SF_inj. rewrite !abs_spec, opp_spec.
  destruct (Prim2SF x); reflexivity.
Qed.

Lemma eqb_zero_opp (x : float) : (- x =? 0)%float = (x =? 0)%float.
Proof.
  rewrite !eqb_spec, opp_spec, prim_zero. unfold SFeqb.
  destruct (Prim2SF x) as [s|s| |s m e]; simpl; try reflexivity;
    destruct s; reflexivity.
Qed.

(** ** The sheet resistance never raises *)

Lemma sheet_resistance_total (meas_v meas_i : float) :
  sheet_resistance meas_v meas_i
  = Ok (if fgt (abs meas_i) 1e-7
        then PyFloat (meas_v / meas_i * CORRECTION_FACTOR)%float
        else PyInt 0).
Proof.
  destruct (fgt (abs meas_i) 1e-7) eqn:H.
  - apply (sheet_resistance_branch meas_v meas_i H).
  - unfold sheet_resistance. rewrite H. reflexivity.
Qed.

Lemma sheet_resistance_flip_v (meas_v meas_i : float) :
  exists rs rs',
    sheet_resistance meas_v meas_i = Ok rs
    /\ sheet_resistance (- meas_v) meas_i = Ok rs'
    /\ py_abs rs' = py_abs rs.
Proof.
  rewrite !sheet_resistance_total.
  destruct (fgt (abs meas_i) 1e-7); do 2 eexists;
    (split; [reflexivity|]); (split; [reflexivity|]); [|reflexivity].
  simpl. rewrite div_opp_l, mul_opp_l, abs_opp. reflexivity.
Qed.

Lemma sheet_resistance_flip_i (meas_v meas_i : float) :
  exists rs rs',
    sheet_resistance meas_v meas_i = Ok rs
    /\ sheet_resistance meas_v (- meas_i) = Ok rs'
    /\ py_abs rs' = py_abs rs.
Proof.
  rewrite !sheet_resistance_total, abs_opp.
  destruct (fgt (abs meas_i) 1e-7); do 2 eexists;
    (split; [reflexivity|]); (split; [reflexivity|]); [|reflexivity].
  simpl. rewrite div_opp_r, mul_opp_l, abs_opp. reflexivity.
Qed.

(** The conductivity reads [rs] through its magnitude only. *)
Lemma conductivity_of_magnitude (rs rs' : pynum) (thickness : float) :
  py_abs rs' = py_abs rs ->
  conductivity rs' thickness = conductivity rs thickness.
Proof. intros H. unfold conductivity. rewrite H. reflexivity. Qed.

Lemma recorded_of_magnitude (thickness v i v' i' : float) (rs rs' : pynum) :
  sheet_resistance v i = Ok rs ->
  sheet_resistance v' i' = Ok rs' ->
  py_abs rs' = py_abs rs ->
  recorded (compute_point thickness v' i')
  = recorded (compute_point thickness v i).
Proof.
  intros H H' Habs. unfold compute_point. rewrite H, H'. simpl rbind.
  rewrite (conductivity_of_magnitude rs rs' thickness Habs).
  destruct (conductivity rs thickness); simpl; [rewrite Habs|]; reflexivity.
Qed.

(** X1.  The sheet resistance and the conductivity recorded for a point
    depend on the magnitudes of the measured voltage and current only:
    reversing the sign of the voltage, of the current, or of both leaves
    both recorded values, and whether the point raises, unchanged. *)
Theorem recorded_values_ignore_polarity (thickness meas_v meas_i : float) :
  recorded (compute_point thickness (- meas_v) meas_i)
  = recorded (compute_point thickness meas_v meas_i)
  /\ recorded (compute_point thickness meas_v (- meas_i))
     = recorded (compute_point thickness meas_v meas_i)
  /\ recorded (compute_point thickness (- meas_v) (- meas_i))
     = recorded (compute_point thickness meas_v meas_i).
Proof.
  assert (Hv : forall v i,
             recorded (compute_point thickness (- v) i)
             = recorded (compute_point thickness v i)).
  { intros v i.
    destruct (sheet_resistance_flip_v v i) as (rs & rs' & H & H' & Habs).
    apply (recorded_of_magnitude thickness v i (- v)%float i rs rs' H H' Habs). }
  assert (Hi : forall v i,
             recorded (compute_point thickness v (- i))
             = recorded (compute_point thickness v i)).
  { intros v i.
    destruct (sheet_resistance_flip_i v i) as (rs & rs' & H & H' & Habs).
    apply (recorded_of_magnitude thickness v i v (- i)%float rs rs' H H' Habs). }
  split; [apply Hv|]. split; [apply Hi|].
  rewrite Hv. apply Hi.
Qed.

(** X2.  The arithmetic of a point can raise one exception only,
    [ZeroDivisionError], and only in the conductivity: the sheet
    resistance passed its guard, the thickness is above zero, and their
    float product underflowed to zero. *)
Theorem point_raises_only_on_underflow (thickness meas_v meas_i : float)
  (e : exn) :
  compute_point thickness meas_v meas_i = Raise e ->
  e = ZeroDivisionError
  /\ exists rs,
       sheet_resistance meas_v meas_i = Ok rs
       /\ py_gt (py_abs rs) (PyFloat 1e-9) = true
       /\ py_gt (PyFloat thickness) (PyInt 0) = true
       /\ (to_float (py_abs rs) * thickness =? 0)%float = true.
Proof.
  unfold compute_point. rewrite sheet_resistance_total. simpl rbind.
  set (rs := if fgt (abs meas_i) 1e-7 then _ else _).
  destruct (py_gt (py_abs rs) (PyFloat 1e-9)) eqn:H1.
  2: { unfold conductivity. rewrite H1. simpl. discriminate. }
  destruct (py_gt (PyFloat thickness) (PyInt 0)) eqn:H2.
  2: { unfold conductivity. rewrite H1, H2. simpl. discriminate. }
  rewrite (conductivity_branch rs thickness H1 H2). cbv zeta.
  destruct (to_float (py_abs rs) * thickness =? 0)%float eqn:Hz; simpl;
    [|discriminate].
  intros H; injection H as <-. split; [reflexivity|].
  exists rs. repeat split; assumption.
Qed.

Lemma point_raises_only_on_underflow_witness :
  compute_point 1e-320 1e-8 4.532 = Raise ZeroDivisionError
  /\ exists rs,
       sheet_resistance 1e-8 4.532 = Ok rs
       /\ py_gt (py_abs rs) (PyFloat 1e-9) = true
       /\ py_gt (PyFloat 1e-320) (PyInt 0) = true
       /\ (to_float (py_abs rs) * 1e-320 =? 0)%float = true.
Proof.
  assert (H : compute_point 1e-320 1e-8 4.532 = Raise ZeroDivisionError).
  { vm_compute. reflexivity. }
  split; [exact H|].
  exact (proj2 (point_raises_only_on_underflow 1e-320 1e-8 4.532 _ H)).
Defined.

End PointSymmetry.

(* ================================================================== *)
(** * What the methods leave alone *)
(* ================================================================== *)

Module Frame.
Import GetConductivity Expected MonadFacts.

Lemma commands_app (a b : list event) :
  commands (a ++ b) = commands a ++ commands b.
Proof.
  induction a as [|ev a IH]; simpl; [reflexivity|].
  destruct ev; simpl; rewrite ?IH; reflexivity.
Qed.

Lemma steady_ret {A : Type} (a : A) : steady (ret a).
Proof.
  intros s. simpl. repeat split. exists []. rewrite app_nil_r. reflexivity.
Qed.

Lemma steady_raise {A : Type} (e : exn) : steady (@raise A e).
Proof.
  intros s. simpl. repeat split. exists []. rewrite app_nil_r. reflexivity.
Qed.

Lemma steady_lift {A : Type} (r : result A) : steady (lift r).
Proof.
  intros s. simpl. repeat split. exists []. rewrite app_nil_r. reflexivity.
Qed.

Lemma steady_get : steady get.
Proof.
  intros s. simpl. repeat split. exists []. rewrite app_nil_r. reflexivity.
Qed.

Lemma steady_record (ev : event) : steady (modify (record ev)).
Proof. intros s. simpl. repeat split. exists [ev]. reflexivity. Qed.

Lemma steady_say (m : message) : steady (say m).
Proof. apply steady_record. Qed.

Lemma steady_invoke (E : env) (c : call) : steady (invoke E c).
Proof.
  intros s. rewrite invoke_snd. simpl. repeat split.
  eexists [_]. reflexivity.
Qed.

Lemma steady_bind {A B : Type} (m : M A) (k : A -> M B) :
  steady m -> (forall x, steady (k x)) -> steady (bind m k).
Proof.
  intros Hm Hk s. rewrite bind_eq.
  destruct (Hm s) as (H1 & H2 & H3 & H4 & evs & H5).
  destruct (m s) as [[x|e] s1]; simpl in *.
  - destruct (Hk x s1) as (K1 & K2 & K3 & K4 & evs' & K5).
    rewrite K1, K2, K3, K4, K5, H1, H2, H3, H4, H5.
    repeat split. exists (evs ++ evs'). rewrite app_assoc. reflexivity.
  - repeat split; try assumption. exists evs. exact H5.
Qed.

Lemma steady_try {A : Type} (m : M A) (catches : exn -> bool)
  (h : exn -> M A) :
  steady m -> (forall e, steady (h e)) -> steady (try_except m catches h).
Proof.
  intros Hm Hh s. unfold try_except.
  destruct (Hm s) as (H1 & H2 & H3 & H4 & evs & H5).
  destruct (m s) as [[x|e] s1]; simpl in *.
  - repeat split; try assumption. exists evs. exact H5.
  - destruct (catches e).
    + destruct (Hh e s1) as (K1 & K2 & K3 & K4 & evs' & K5).
      rewrite K1, K2, K3, K4, K5, H1, H2, H3, H4, H5.
      repeat split. exists (evs ++ evs'). rewrite app_assoc. reflexivity.
    + simpl. repeat split; try assumption. exists evs. exact H5.
Qed.

Ltac steady_step :=
  first
    [ apply steady_ret | apply steady_raise | apply steady_lift
    | apply steady_get | apply steady_say | apply steady_record
    | apply steady_invoke
    | apply steady_bind; [|intros ?]
    | apply steady_try; [|intros ?]
    | match goal with
      | |- steady (if ?b then _ else _) => destruct b
      | |- steady (match ?x with (_, _) => _ end) => destruct x
      | |- steady (match ?x with Some _ => _ | None => _ end) => destruct x
      end ].

Ltac steady_steps := repeat steady_step.

Section Methods.
Variable E : env.

Lemma steady_move_to_contact : steady (move_to_contact E).
Proof. unfold move_to_contact. steady_steps. Qed.

Lemma steady_contact_test (h : float) : steady (contact_test E h).
Proof. unfold contact_test. steady_steps. Qed.

Lemma steady_raise_stage (h : float) : steady (raise_stage E h).
Proof. unfold raise_stage. steady_steps. Qed.

Lemma steady_retry_prompt
  (again : float -> list key -> M (bool * list key)) :
  (forall h keys, steady (again h keys)) ->
  forall keys h, steady (retry_prompt E again h keys).
Proof.
  intros Hagain.
  induction keys as [|k rest IH]; intros h; [apply steady_raise|].
  destruct k as [line|]; [|apply steady_raise].
  simpl retry_prompt.
  destruct (String.eqb (strip line) "1").
  { apply steady_bind; [apply steady_raise_stage|intros h'].
    apply Hagain. }
  destruct (String.eqb (strip line) "2"); [steady_steps|].
  destruct (String.eqb (strip line) "3"); [steady_steps|].
  apply steady_bind; [apply steady_say|intros ?]. apply IH.
Qed.

Lemma steady_verify_contact_within :
  forall depth h keys, steady (verify_contact_within E depth h keys).
Proof.
  induction depth as [|depth IH]; intros h keys; [apply steady_raise|].
  simpl verify_contact_within.
  apply steady_bind; [apply steady_contact_test|intros good].
  destruct good; [apply steady_ret|].
  apply steady_retry_prompt. exact IH.
Qed.

Lemma steady_verify_contact (h : float) (keys : list key) :
  steady (verify_contact E h keys).
Proof. apply steady_verify_contact_within. Qed.

Lemma steady_measure (thickness set_v : float) (results : list point) :
  steady (measure E thickness set_v results).
Proof. unfold measure. steady_steps. Qed.

Lemma steady_sweep_point (thickness set_v : float) (results : list point) :
  steady (sweep_point E thickness set_v results).
Proof.
  unfold sweep_point. apply steady_try; [apply steady_measure|intros e].
  steady_steps.
Qed.

Lemma steady_sweep (thickness : float) :
  forall vs results, steady (sweep E thickness vs results).
Proof.
  induction vs as [|set_v rest IH]; intros results; [apply steady_ret|].
  simpl sweep.
  apply steady_bind; [apply steady_sweep_point|intros results'].
  apply IH.
Qed.

Lemma steady_run_measurement : steady (run_measurement E).
Proof.
  unfold run_measurement.
  apply steady_bind; [apply steady_get|intros s].
  destruct (thickness_m s); [|apply steady_raise].
  apply steady_bind; [apply steady_sweep|intros rows]. steady_steps.
Qed.

Lemma steady_store (op : file_op) : steady (store E op).
Proof.
  intros s. unfold store.
  destruct (storage E (clock s) op); simpl; repeat split;
    exists []; rewrite app_nil_r; reflexivity.
Qed.

Lemma steady_save_results (data : list point) : steady (save_results E data).
Proof.
  unfold save_results.
  repeat first [ apply steady_store | steady_step ].
Qed.

Lemma steady_return_home : steady (return_home E).
Proof. unfold return_home. steady_steps. Qed.

Lemma steady_shutdown : steady (shutdown E).
Proof.
  unfold shutdown, shutdown_probe, shutdown_stage.
  apply steady_bind; [|intros ?].
  - apply steady_bind; [apply steady_get|intros s].
    destruct (probe s); steady_steps.
  - apply steady_bind; [apply steady_get|intros s].
    destruct (stage s); steady_steps.
Qed.

End Methods.

End Frame.

Module Connecting.
Import GetConductivity Expected MonadFacts Frame.

Lemma raises_inv (r : reply) : raises r = true -> exists e, r = RRaise e.
Proof. destruct r; try discriminate. intros _. eexists. reflexivity. Qed.

Section Connect.
Variable E : env.

Lemma invoke_answers (c : call) (s : machine) :
  raises (device E (clock s) c) = false ->
  invoke E c s
  = (Ok (device E (clock s) c),
     record (Called c (device E (clock s) c)) (tick s)).
Proof. unfold invoke. destruct (device E (clock s) c); try reflexivity. discriminate. Qed.

Lemma invoke_fails (c : call) (s : machine) (e : exn) :
  device E (clock s) c = RRaise e ->
  invoke E c s = (Raise e, record (Called c (RRaise e)) (tick s)).
Proof. unfold invoke. intros ->. reflexivity. Qed.

Lemma connect_devices_blocks (s : machine) :
  connect_devices E s
  = match stage_block E s with
    | (Ok (Some b), s1) => (Ok b, s1)
    | (Ok None, s1) =>
        match probe_block E s1 with
        | (Ok (Some b), s2) => (Ok b, s2)
        | (Ok None, s2) => (Ok true, record (Printed MsgAllConnected) s2)
        | (Raise e, s2) => (Raise e, s2)
        end
    | (Raise e, s1) => (Raise e, s1)
    end.
Proof.
  unfold connect_devices. rewrite bind_eq.
  change (try_except _ is_Exception _ s) with (stage_block E s).
  destruct (stage_block E s) as [[[b|]|e] s1]; try reflexivity.
  rewrite bind_eq.
  change (try_except _ is_Exception _ s1) with (probe_block E s1).
  destruct (probe_block E s1) as [[[b|]|e] s2]; reflexivity.
Qed.

Ltac call_fails A e :=
  apply raises_inv in A; destruct A as [e A];
  match goal with
  | |- context [invoke E ?c ?st] => rewrite (invoke_fails c st e A)
  end.

Ltac call_answers A :=
  match goal with
  | |- context [invoke E ?c ?st] => rewrite (invoke_answers c st A)
  end.

Lemma stage_block_eq (s : machine) :
  let r0 := device E (clock s) StageOpen in
  let r1 := device E (1 + clock s) StageEnable in
  let r2 := device E (2 + clock s) StageIsHomed in
  let s0 := with_stage true (record (Called StageOpen r0) (tick s)) in
  let s1 := record (Called StageEnable r1) (tick s0) in
  let s2 := record (Called StageIsHomed r2) (tick s1) in
  raises r0 = false -> raises r1 = false -> raises r2 = false ->
  stage_block E s
  = if truthy r2 then (Ok None, record (Printed MsgStageConnected) s2)
    else (Ok (Some false), record (Printed MsgStageNotHomed) s2).
Proof.
  cbv zeta. intros A0 A1 A2.
  unfold stage_block, try_except.
  rewrite bind_eq. call_answers A0.
  rewrite bind_eq. unfold modify at 1. cbv beta iota.
  rewrite bind_eq. call_answers A1.
  rewrite bind_eq. call_answers A2.
  destruct (truthy _); reflexivity.
Qed.

Lemma stage_block_falls_through (s s1 : machine) :
  stage_block E s = (Ok None, s1) ->
  raises (device E (clock s) StageOpen) = false
  /\ raises (device E (1 + clock s) StageEnable) = false
  /\ truthy (device E (2 + clock s) StageIsHomed) = true.
Proof.
  destruct (raises (device E (clock s) StageOpen)) eqn:A0.
  { unfold stage_block, try_except. rewrite bind_eq.
    call_fails A0 e. destruct (is_Exception e); discriminate. }
  destruct (raises (device E (1 + clock s) StageEnable)) eqn:A1.
  { unfold stage_block, try_except.
    rewrite bind_eq. call_answers A0.
    rewrite bind_eq. unfold modify at 1. cbv beta iota. rewrite bind_eq.
    call_fails A1 e. destruct (is_Exception e); discriminate. }
  destruct (raises (device E (2 + clock s) StageIsHomed)) eqn:A2.
  { unfold stage_block, try_except.
    rewrite bind_eq. call_answers A0.
    rewrite bind_eq. unfold modify at 1. cbv beta iota.
    rewrite bind_eq. call_answers A1. rewrite bind_eq.
    call_fails A2 e. destruct (is_Exception e); discriminate. }
  rewrite (stage_block_eq s A0 A1 A2).
  destruct (truthy _); [|discriminate]. auto.
Qed.

Lemma probe_block_eq (s : machine) :
  let r3 := device E (clock s) ProbeOpen in
  raises r3 = false ->
  probe_block E s
  = (Ok None,
     record (Printed MsgProbeConnected)
       (with_probe true (record (Called ProbeOpen r3) (tick s)))).
Proof.
  cbv zeta. intros A3. unfold probe_block, try_except.
  rewrite bind_eq. call_answers A3. reflexivity.
Qed.

Lemma probe_block_falls_through (s s1 : machine) :
  probe_block E s = (Ok None, s1) ->
  raises (device E (clock s) ProbeOpen) = false.
Proof.
  destruct (raises (device E (clock s) ProbeOpen)) eqn:A3; [|reflexivity].
  unfold probe_block, try_except. rewrite bind_eq.
  call_fails A3 e. destruct (is_Exception e); [|discriminate].
  rewrite bind_eq, say_eq, bind_eq. unfold get at 1. cbv beta iota.
  rewrite bind_eq.
  destruct (stage _).
  - rewrite bind_eq.
    destruct (invoke E StageClose _) as [[r|e'] s2]; discriminate.
  - discriminate.
Qed.

(** The probe block never returns [True]. *)
Lemma probe_block_not_true (s s1 : machine) :
  probe_block E s <> (Ok (Some true), s1).
Proof.
  destruct (raises (device E (clock s) ProbeOpen)) eqn:A3.
  - unfold probe_block, try_except. rewrite bind_eq.
    call_fails A3 e. destruct (is_Exception e); [|discriminate].
    rewrite bind_eq, say_eq, bind_eq. unfold get at 1. cbv beta iota.
    rewrite bind_eq.
    destruct (stage _).
    + rewrite bind_eq.
      destruct (invoke E StageClose _) as [[r|e'] s2]; discriminate.
    + discriminate.
  - rewrite (probe_block_eq s A3). discriminate.
Qed.

Lemma stage_block_not_true (s s1 : machine) :
  stage_block E s <> (Ok (Some true), s1).
Proof.
  destruct (raises (device E (clock s) StageOpen)) eqn:A0.
  { unfold stage_block, try_except. rewrite bind_eq.
    call_fails A0 e. destruct (is_Exception e); discriminate. }
  destruct (raises (device E (1 + clock s) StageEnable)) eqn:A1.
  { unfold stage_block, try_except.
    rewrite bind_eq. call_answers A0.
    rewrite bind_eq. unfold modify at 1. cbv beta iota. rewrite bind_eq.
    call_fails A1 e. destruct (is_Exception e); discriminate. }
  destruct (raises (device E (2 + clock s) StageIsHomed)) eqn:A2.
  { unfold stage_block, try_except.
    rewrite bind_eq. call_answers A0.
    rewrite bind_eq. unfold modify at 1. cbv beta iota.
    rewrite bind_eq. call_answers A1. rewrite bind_eq.
    call_fails A2 e. destruct (is_Exception e); discriminate. }
  rewrite (stage_block_eq s A0 A1 A2).
  destruct (truthy _); discriminate.
Qed.

(** With four answers and a homed stage, both handles are taken. *)
Lemma connect_devices_ok (s : machine) :
  raises (device E (clock s) StageOpen) = false ->
  raises (device E (1 + clock s) StageEnable) = false ->
  truthy (device E (2 + clock s) StageIsHomed) = true ->
  raises (device E (3 + clock s) ProbeOpen) = false ->
  fst (connect_devices E s) = Ok true
  /\ stage (snd (connect_devices E s)) = true
  /\ probe (snd (connect_devices E s)) = true
  /\ trace (snd (connect_devices E s))
     = trace s
       ++ [Called StageOpen (device E (clock s) StageOpen);
           Called StageEnable (device E (1 + clock s) StageEnable);
           Called StageIsHomed (device E (2 + clock s) StageIsHomed);
           Printed MsgStageConnected;
           Called ProbeOpen (device E (3 + clock s) ProbeOpen);
           Printed MsgProbeConnected;
           Printed MsgAllConnected].
Proof.
  intros A0 A1 T2 A3.
  assert (A2 : raises (device E (2 + clock s) StageIsHomed) = false).
  { destruct (device E (2 + clock s) StageIsHomed);
      try reflexivity; discriminate. }
  rewrite connect_devices_blocks, (stage_block_eq s A0 A1 A2), T2.
  rewrite probe_block_eq; [|exact A3].
  repeat split. simpl. rewrite <- !app_assoc. reflexivity.
Qed.

Lemma connect_devices_true_inv (s : machine) :
  fst (connect_devices E s) = Ok true ->
  raises (device E (clock s) StageOpen) = false
  /\ raises (device E (1 + clock s) StageEnable) = false
  /\ truthy (device E (2 + clock s) StageIsHomed) = true
  /\ raises (device E (3 + clock s) ProbeOpen) = false.
Proof.
  rewrite connect_devices_blocks.
  destruct (stage_block E s) as [[[b|]|e] s1] eqn:Hs; simpl.
  - intros H; injection H as ->. exfalso.
    apply (stage_block_not_true s s1 Hs).
  - destruct (stage_block_falls_through s s1 Hs) as (A0 & A1 & T2).
    assert (A2 : raises (device E (2 + clock s) StageIsHomed) = false).
    { destruct (device E (2 + clock s) StageIsHomed);
        try reflexivity; discriminate. }
    rewrite (stage_block_eq s A0 A1 A2), T2 in Hs. injection Hs as <-.
    destruct (probe_block E _) as [[[b|]|e] s2] eqn:Hp; simpl.
    + intros H; injection H as ->. exfalso.
      apply (probe_block_not_true _ s2 Hp).
    + intros _. apply probe_block_falls_through in Hp.
      repeat split; assumption.
    + discriminate.
  - discriminate.
Qed.

(** After a successful connection both handles are held and the trace has
    only grown. *)
Lemma connect_devices_connected (s s' : machine) :
  connect_devices E s = (Ok true, s') ->
  stage s' = true /\ probe s' = true
  /\ In (Printed MsgAllConnected) (trace s')
  /\ exists evs, trace s' = trace s ++ evs.
Proof.
  intros H.
  assert (H' : fst (connect_devices E s) = Ok true) by (rewrite H; reflexivity).
  destruct (connect_devices_true_inv s H') as (A0 & A1 & T2 & A3).
  destruct (connect_devices_ok s A0 A1 T2 A3) as (_ & Hs & Hp & Ht).
  rewrite H in Hs, Hp, Ht. simpl in *.
  split; [exact Hs|]. split; [exact Hp|]. split.
  - rewrite Ht. apply in_or_app. right. simpl. auto 10.
  - eexists. exact Ht.
Qed.

(** X3.  [connect_devices] returns [True] exactly when its four calls
    answer (open the stage, enable its channel, ask whether it is homed,
    open the probe) and the stage reports that it is homed; both handles
    are then held, and nothing else was called. *)
Theorem connect_devices_succeeds_iff (s : machine) :
  let r0 := device E (clock s) StageOpen in
  let r1 := device E (1 + clock s) StageEnable in
  let r2 := device E (2 + clock s) StageIsHomed in
  let r3 := device E (3 + clock s) ProbeOpen in
  (fst (connect_devices E s) = Ok true
   <-> raises r0 = false /\ raises r1 = false /\ truthy r2 = true
       /\ raises r3 = false)
  /\ (fst (connect_devices E s) = Ok true ->
      stage (snd (connect_devices E s)) = true
      /\ probe (snd (connect_devices E s)) = true
      /\ trace (snd (connect_devices E s))
         = trace s ++ [Called StageOpen r0; Called StageEnable r1;
                       Called StageIsHomed r2; Printed MsgStageConnected;
                       Called ProbeOpen r3; Printed MsgProbeConnected;
                       Printed MsgAllConnected]).
Proof.
  cbv zeta. split; [split; [apply connect_devices_true_inv|]|].
  - intros (A0 & A1 & T2 & A3). apply (connect_devices_ok s A0 A1 T2 A3).
  - intros H. destruct (connect_devices_true_inv s H) as (A0 & A1 & T2 & A3).
    apply (connect_devices_ok s A0 A1 T2 A3).
Qed.

(** The probe block when opening the probe raises an [Exception] while
    the stage handle is held. *)
Lemma probe_block_fails (s : machine) (e : exn) :
  stage s = true ->
  device E (clock s) ProbeOpen = RRaise e -> is_Exception e = true ->
  probe_block E s
  = let s1 := record (Printed (MsgProbeFailed e))
                (record (Called ProbeOpen (RRaise e)) (tick s)) in
    match device E (clock s1) StageClose with
    | RRaise e' => (Raise e', record (Called StageClose (RRaise e')) (tick s1))
    | r => (Ok (Some false), record (Called StageClose r) (tick s1))
    end.
Proof.
  intros Hs H3 He. cbv zeta.
  unfold probe_block, try_except. rewrite bind_eq.
  rewrite (invoke_fails ProbeOpen s e H3), He.
  rewrite bind_eq, say_eq, bind_eq. unfold get at 1. cbv beta iota.
  rewrite bind_eq. cbn [stage record tick]. rewrite Hs.
  rewrite bind_eq. unfold invoke.
  destruct (device E _ StageClose); reflexivity.
Qed.

(** X4.  The two ways [connect_devices] gives up after the stage was
    opened.  A stage that answers but is not homed makes it return
    [False] with the stage handle held and no [close] called.  A probe
    whose opening raises an [Exception] makes it call [close] on the
    stage next, and return [False] when that call answers. *)
Theorem connect_devices_failures (s : machine) :
  let r0 := device E (clock s) StageOpen in
  let r1 := device E (1 + clock s) StageEnable in
  let r2 := device E (2 + clock s) StageIsHomed in
  let r3 := device E (3 + clock s) ProbeOpen in
  let r4 := device E (4 + clock s) StageClose in
  (raises r0 = false -> raises r1 = false -> raises r2 = false ->
   truthy r2 = false ->
   fst (connect_devices E s) = Ok false
   /\ stage (snd (connect_devices E s)) = true
   /\ trace (snd (connect_devices E s))
      = trace s ++ [Called StageOpen r0; Called StageEnable r1;
                    Called StageIsHomed r2; Printed MsgStageNotHomed])
  /\ (forall e,
        raises r0 = false -> raises r1 = false -> truthy r2 = true ->
        r3 = RRaise e -> is_Exception e = true ->
        trace (snd (connect_devices E s))
        = trace s ++ [Called StageOpen r0; Called StageEnable r1;
                      Called StageIsHomed r2; Printed MsgStageConnected;
                      Called ProbeOpen r3; Printed (MsgProbeFailed e);
                      Called StageClose r4]
        /\ fst (connect_devices E s)
           = match r4 with
             | RRaise e' => Raise e'
             | _ => Ok false
             end).
Proof.
  cbv zeta. split.
  - intros A0 A1 A2 T2.
    rewrite connect_devices_blocks, (stage_block_eq s A0 A1 A2), T2.
    repeat split. simpl. rewrite <- !app_assoc. reflexivity.
  - intros e A0 A1 T2 H3 He.
    assert (A2 : raises (device E (2 + clock s) StageIsHomed) = false).
    { destruct (device E (2 + clock s) StageIsHomed);
        try reflexivity; discriminate. }
    rewrite connect_devices_blocks, (stage_block_eq s A0 A1 A2), T2.
    match goal with
    | |- context [probe_block E ?st] =>
        rewrite (probe_block_fails st e eq_refl H3 He)
    end.
    rewrite H3.
    cbv zeta. cbn [clock record tick with_stage].
    change (4 + clock s)%nat with (S (S (S (S (clock s))))).
    destruct (device E (S (S (S (S (clock s))))) StageClose);
      cbn [fst snd trace record tick with_stage];
      rewrite <- !app_assoc; split; reflexivity.
Qed.

End Connect.

End Connecting.

(* ================================================================== *)
(** * Ways out of a run *)
(* ================================================================== *)

Module WaysOut.
Import GetConductivity Expected MonadFacts Frame TopLevel Connecting.

Section Run.
Variable E : env.

(** X5.  [shutdown] is best effort.  It never raises, whatever the
    devices do, and leaves both attributes as they are; with no device
    connected it does nothing at all.  When zeroing the probe voltage
    raises, the rest of the probe block is skipped, so the probe handle is
    not closed, and the stage is closed all the same. *)
Theorem shutdown_is_best_effort (s : machine) :
  fst (shutdown E s) = Ok tt
  /\ probe (snd (shutdown E s)) = probe s
  /\ stage (snd (shutdown E s)) = stage s
  /\ (probe s = false -> stage s = false -> snd (shutdown E s) = s)
  /\ (forall e,
        probe s = true -> stage s = true ->
        device E (clock s) (ProbeVoltage (PyInt 0)) = RRaise e ->
        let r := device E (1 + clock s) StageClose in
        trace (snd (shutdown E s))
        = trace s ++ [Called (ProbeVoltage (PyInt 0)) (RRaise e);
                      Called StageClose r]
                  ++ (if raises r then [] else [Printed MsgStageShutdown])).
Proof.
  split; [apply shutdown_returns|].
  destruct (steady_shutdown E s) as (Hs & Hp & _).
  split; [exact Hp|]. split; [exact Hs|]. split.
  - intros Hp0 Hs0. rewrite shutdown_eq. simpl snd.
    unfold shutdown_probe. rewrite bind_eq. unfold get at 1.
    cbv beta iota. rewrite Hp0. simpl snd.
    unfold shutdown_stage. rewrite bind_eq. unfold get at 1.
    cbv beta iota. rewrite Hs0. reflexivity.
  - intros e Hp0 Hs0 Hr. cbv zeta. rewrite shutdown_eq. simpl snd.
    unfold shutdown_probe. rewrite bind_eq. unfold get at 1.
    cbv beta iota. rewrite Hp0. unfold try_except at 1.
    rewrite bind_eq, (invoke_fails E _ s e Hr). cbv beta iota.
    simpl snd.
    unfold shutdown_stage. rewrite bind_eq. unfold get at 1.
    cbv beta iota. cbn [stage record tick]. rewrite Hs0.
    unfold try_except, bind, invoke, say, modify, ret.
    cbn [clock record tick].
    destruct (device E (S (clock s)) StageClose) eqn:H1; simpl;
      rewrite ?H1; simpl; rewrite <- ?app_assoc; reflexivity.
Qed.

(** The exit codes the body of [run] returns. *)
Lemma run_body_codes (keys : list key) (s s' : machine) (code : Z) :
  run_body E keys s = (Ok code, s') -> code = 0%Z \/ code = 1%Z.
Proof.
  unfold run_body. intros H.
  apply bind_ok_inv in H. destruct H as (keys1 & s1 & _ & H).
  apply bind_ok_inv in H. destruct H as (connected & s2 & _ & H).
  destruct connected; simpl negb in H; cbv iota in H.
  2: { injection H as <- _. right. reflexivity. }
  apply bind_ok_inv in H. destruct H as (h & s3 & _ & H).
  apply bind_ok_inv in H. destruct H as ([contact rest] & s4 & _ & H).
  destruct contact; simpl negb in H; cbv iota in H.
  - apply bind_ok_inv in H. destruct H as (data & s5 & _ & H).
    apply bind_ok_inv in H. destruct H as (u1 & s6 & _ & H).
    apply bind_ok_inv in H. destruct H as (u2 & s7 & _ & H).
    apply bind_ok_inv in H. destruct H as (u3 & s8 & _ & H).
    apply bind_ok_inv in H. destruct H as (u4 & s9 & _ & H).
    injection H as <- _. left. reflexivity.
  - apply bind_ok_inv in H. destruct H as (u1 & s5 & _ & H).
    apply bind_ok_inv in H. destruct H as (u2 & s6 & _ & H).
    apply bind_ok_inv in H. destruct H as (u3 & s7 & _ & H).
    injection H as <- _. right. reflexivity.
Qed.

(** X6.  [run] never lets an exception out: whatever the devices and the
    keyboard do, it returns, and it returns 0 or 1.  [main] adds one
    prompt in front of it, outside every handler: it raises when that
    prompt meets the end of the input or Ctrl-C, and behaves as [run] on
    the remaining input otherwise. *)
Theorem run_always_returns (keys : list key) (s : machine) :
  (exists code,
     fst (run E keys s) = Ok code /\ (code = 0%Z \/ code = 1%Z))
  /\ fst (main E [] s) = Raise EOFError
  /\ (forall rest, fst (main E (CtrlC :: rest) s) = Raise KeyboardInterrupt)
  /\ (forall line rest, main E (Typed line :: rest) s = run E rest s).
Proof.
  split; [|repeat split].
  rewrite run_eq.
  destruct (run_body E keys s) as [[code|e] s1] eqn:H.
  - exists code. split; [reflexivity|]. apply (run_body_codes keys s s1 code H).
  - exists 1%Z. split; [reflexivity|]. right. reflexivity.
Qed.

Lemma return_home_ok (s s' : machine) :
  return_home E s = (Ok tt, s') ->
  exists r1 r2 r3,
    trace s' = trace s ++ [Called (StageMoveTo 0) r1;
                           Called StageWaitMove r2;
                           Called StageGetPosition r3;
                           Printed (MsgAtHome r3)]
    /\ raises r1 = false /\ raises r2 = false /\ raises r3 = false.
Proof.
  unfold return_home. intros H.
  apply bind_ok_inv in H. destruct H as (r1 & s1 & H1 & H).
  apply bind_ok_inv in H. destruct H as (r2 & s2 & H2 & H).
  apply bind_ok_inv in H. destruct H as (r3 & s3 & H3 & H).
  rewrite say_eq in H. injection H as <-.
  exists r1, r2, r3.
  assert (Hr : forall c st r st', invoke E c st = (Ok r, st') ->
               raises r = false /\ trace st' = trace st ++ [Called c r]).
  { intros c st r st' Hi. unfold invoke in Hi.
    destruct (device E (clock st) c); try discriminate;
      injection Hi as <- <-; split; reflexivity. }
  destruct (Hr _ _ _ _ H1) as [A1 T1].
  destruct (Hr _ _ _ _ H2) as [A2 T2].
  destruct (Hr _ _ _ _ H3) as [A3 T3].
  repeat split; try assumption.
  rewrite trace_record, T3, T2, T1, <- !app_assoc. reflexivity.
Qed.

Lemma steady_at {A : Type} (m : M A) (s s' : machine) (r : result A) :
  steady m -> m s = (r, s') ->
  stage s' = stage s /\ probe s' = probe s
  /\ exists evs, trace s' = trace s ++ evs.
Proof.
  intros Hm H. destruct (Hm s) as (H1 & H2 & _ & _ & H5).
  rewrite H in H1, H2, H5. simpl in *. auto.
Qed.

(** X7.  An exit code of 0 means a completed run.  The trace then ends
    with: the CSV file, the plot and the summary; the stage sent to 0,
    waited for and read back, all three calls answering; the shutdown,
    starting with the probe voltage set to zero; the completion line.
    Both devices had been connected before. *)
Theorem exit_code_0_means_completed (keys : list key) (s : machine) :
  fst (run E keys s) = Ok 0%Z ->
  completed_in_order E (trace (snd (run E keys s))).
Proof.
  rewrite run_eq.
  destruct (run_body E keys s) as [[code|e] s'] eqn:H; simpl;
    [|discriminate].
  intros Hc; injection Hc as ->.
  unfold run_body in H.
  apply bind_ok_inv in H. destruct H as (keys1 & s1 & _ & H).
  apply bind_ok_inv in H. destruct H as (connected & s2 & Hconn & H).
  destruct connected; simpl negb in H; cbv iota in H; [|discriminate].
  apply bind_ok_inv in H. destruct H as (h & s3 & Hmove & H).
  apply bind_ok_inv in H. destruct H as ([contact rest] & s4 & Hver & H).
  destruct contact; simpl negb in H; cbv iota in H.
  2: { apply bind_ok_inv in H. destruct H as (u1 & s5 & _ & H).
       apply bind_ok_inv in H. destruct H as (u2 & s6 & _ & H).
       apply bind_ok_inv in H. destruct H as (u3 & s7 & _ & H).
       discriminate. }
  apply bind_ok_inv in H. destruct H as (data & s5 & Hmeas & H).
  apply bind_ok_inv in H. destruct H as ([] & s6 & Hsave & H).
  apply bind_ok_inv in H. destruct H as ([] & s7 & Hhome & H).
  apply bind_ok_inv in H. destruct H as ([] & s8 & Hdown & H).
  rewrite bind_eq, say_eq in H. injection H as <-.
  destruct (connect_devices_connected E s1 s2 Hconn) as (_ & P2 & In2 & _).
  destruct (steady_at _ _ _ _ (steady_move_to_contact E) Hmove)
    as (_ & P3 & evs3 & T3).
  destruct (steady_at _ _ _ _ (steady_verify_contact E h keys1) Hver)
    as (_ & P4 & evs4 & T4).
  destruct (steady_at _ _ _ _ (steady_run_measurement E) Hmeas)
    as (_ & P5 & evs5 & T5).
  destruct (steady_at _ _ _ _ (steady_save_results E data) Hsave)
    as (_ & P6 & _).
  destruct (steady_at _ _ _ _ (steady_return_home E) Hhome)
    as (_ & P7 & _).
  destruct (Results.save_results_ok E data s5 s6 Hsave) as (_ & _ & T6).
  destruct (return_home_ok s6 s7 Hhome) as (r1 & r2 & r3 & T7 & A1 & A2 & A3).
  assert (P : probe s7 = true) by congruence.
  destruct (shutdown_zeroes_probe E s7 P) as (down & T8).
  rewrite Hdown in T8. simpl in T8.
  exists (trace s5), data, r1, r2, r3,
    (device E (clock s7) (ProbeVoltage (PyInt 0))), down.
  split.
  - rewrite trace_record, T8, T7, T6, <- !app_assoc. reflexivity.
  - repeat split; try assumption.
    rewrite T5, T4, T3. apply in_or_app. left. apply in_or_app. left.
    apply in_or_app. left. exact In2.
Qed.

(** ** Closing the stage *)

Lemma closes_after_steady {A B : Type} (m : M A) (k : A -> M B) :
  steady m -> (forall x, closes E (k x)) -> closes E (bind m k).
Proof.
  intros Hm Hk s Hs. rewrite bind_eq.
  destruct (m s) as [[x|e] s1] eqn:H.
  - destruct (steady_at m s s1 _ Hm H) as (S1 & _ & evs & T1).
    assert (Hs1 : stage s1 = true) by congruence.
    destruct (Hk x s1 Hs1) as (S2 & K).
    split; [exact S2|].
    destruct (fst (k x s1)).
    + destruct K as (n & pre & post & K). exists n, (evs ++ pre), post.
      rewrite K, T1, <- !app_assoc. reflexivity.
    + destruct K as (evs' & K). exists (evs ++ evs').
      rewrite K, T1, <- app_assoc. reflexivity.
  - destruct (steady_at m s s1 _ Hm H) as (S1 & _ & evs & T1).
    simpl. split; [congruence|]. exists evs. exact T1.
Qed.

Lemma closes_then_steady {A B : Type} (m : M A) (k : A -> M B) :
  closes E m -> (forall x, steady (k x)) -> closes E (bind m k).
Proof.
  intros Hm Hk s Hs. rewrite bind_eq.
  destruct (Hm s Hs) as (S1 & K).
  destruct (m s) as [[x|e] s1] eqn:H; simpl in *.
  - destruct (k x s1) as [r s2] eqn:H2.
    destruct (steady_at (k x) s1 s2 r (Hk x) H2) as (S2 & _ & evs & T2).
    simpl. split; [congruence|].
    destruct K as (n & pre & post & K).
    destruct r.
    + exists n, pre, (post ++ evs).
      rewrite T2, K, <- !app_assoc. reflexivity.
    + eexists. rewrite T2, K, <- !app_assoc. reflexivity.
  - split; [exact S1|exact K].
Qed.

Lemma closes_shutdown : closes E (shutdown E).
Proof.
  intros s Hs.
  destruct (steady_shutdown E s) as (S1 & _).
  split; [congruence|].
  rewrite shutdown_returns.
  destruct (shutdown_trace E s) as (evs & T & _ & Hclose).
  destruct (Hclose Hs) as (n & pre & post & ->).
  exists n, pre, post. exact T.
Qed.

(** The part of the body of [run] that follows a successful
    connection. *)
Lemma run_body_connected (keys keys1 : list key) (s s1 s2 : machine) :
  get_sample_details E keys s = (Ok keys1, s1) ->
  connect_devices E s1 = (Ok true, s2) ->
  exists m : M Z, run_body E keys s = m s2 /\ steady m /\ closes E m.
Proof.
  intros Hd Hc.
  eexists. split; [|split].
  - unfold run_body. rewrite bind_eq, Hd, bind_eq, Hc. simpl negb.
    cbv iota. reflexivity.
  - apply steady_bind; [apply steady_move_to_contact|intros h].
    apply steady_bind; [apply steady_verify_contact|].
    intros [contact rest]. destruct contact; simpl negb; cbv iota.
    + apply steady_bind; [apply steady_run_measurement|intros data].
      apply steady_bind; [apply steady_save_results|intros ?].
      apply steady_bind; [apply steady_return_home|intros ?].
      apply steady_bind; [apply steady_shutdown|intros ?].
      steady_steps.
    + apply steady_bind; [apply steady_say|intros ?].
      apply steady_bind; [apply steady_return_home|intros ?].
      apply steady_bind; [apply steady_shutdown|intros ?].
      steady_steps.
  - apply closes_after_steady; [apply steady_move_to_contact|intros h].
    apply closes_after_steady; [apply steady_verify_contact|].
    intros [contact rest]. destruct contact; simpl negb; cbv iota.
    + apply closes_after_steady; [apply steady_run_measurement|intros data].
      apply closes_after_steady; [apply steady_save_results|intros ?].
      apply closes_after_steady; [apply steady_return_home|intros ?].
      apply closes_then_steady; [apply closes_shutdown|intros ?].
      steady_steps.
    + apply closes_after_steady; [apply steady_say|intros ?].
      apply closes_after_steady; [apply steady_return_home|intros ?].
      apply closes_then_steady; [apply closes_shutdown|intros ?].
      steady_steps.
Qed.

(** X8.  Once [connect_devices] has returned [True], every way out of
    [run] goes through a call of [close] on the stage: at the end of a
    completed run, after an abort by the user, and in the handlers of
    [run] after any exception. *)
Theorem connected_run_closes_the_stage (keys keys1 : list key)
  (s s1 s2 : machine) :
  get_sample_details E keys s = (Ok keys1, s1) ->
  connect_devices E s1 = (Ok true, s2) ->
  stage_closed_after E (trace s2) (trace (snd (run E keys s))).
Proof.
  intros Hd Hc.
  destruct (run_body_connected keys keys1 s s1 s2 Hd Hc)
    as (m & Hm & _ & Hcl).
  destruct (connect_devices_connected E s1 s2 Hc) as (S2 & _).
  rewrite run_eq, Hm.
  destruct (Hcl s2 S2) as (S3 & K).
  destruct (m s2) as [[code|e] s3]; simpl in *; [exact K|].
  destruct K as (evs & T3).
  set (s4 := record (Printed (top_message e)) s3).
  destruct (shutdown_trace E s4) as (evs' & T & _ & Hclose).
  destruct (Hclose S3) as (n & pre & post & ->).
  exists n, (evs ++ Printed (top_message e) :: pre), post.
  rewrite T. unfold s4. rewrite trace_record, T3, <- !app_assoc.
  reflexivity.
Qed.

End Run.

Lemma exit_code_0_means_completed_witness :
  fst (run (Bench.bench Bench.film) [Typed "FTO"; Typed "0.001"] fresh)
  = Ok 0%Z
  /\ completed_in_order (Bench.bench Bench.film)
       (trace (snd (run (Bench.bench Bench.film)
                        [Typed "FTO"; Typed "0.001"] fresh))).
Proof.
  assert (H : fst (run (Bench.bench Bench.film)
                       [Typed "FTO"; Typed "0.001"] fresh) = Ok 0%Z).
  { vm_compute. reflexivity. }
  split; [exact H|].
  exact (exit_code_0_means_completed (Bench.bench Bench.film)
           [Typed "FTO"; Typed "0.001"] fresh H).
Defined.

Lemma connected_run_closes_the_stage_witness :
  let B := Bench.bench (Bench.unplugged 6) in
  let keys := [Typed "FTO"; Typed "0.001"] in
  let s1 := snd (get_sample_details B keys fresh) in
  let s2 := snd (connect_devices B s1) in
  (get_sample_details B keys fresh = (Ok [], s1)
   /\ connect_devices B s1 = (Ok true, s2))
  /\ stage_closed_after B (trace s2) (trace (snd (run B keys fresh))).
Proof.
  cbv zeta.
  assert (Hd : get_sample_details (Bench.bench (Bench.unplugged 6))
                 [Typed "FTO"; Typed "0.001"] fresh
               = (Ok [], snd (get_sample_details
                                (Bench.bench (Bench.unplugged 6))
                                [Typed "FTO"; Typed "0.001"] fresh))).
  { vm_compute. reflexivity. }
  assert (Hc : connect_devices (Bench.bench (Bench.unplugged 6))
                 (snd (get_sample_details
                         (Bench.bench (Bench.unplugged 6))
                         [Typed "FTO"; Typed "0.001"] fresh))
               = (Ok true,
                  snd (connect_devices (Bench.bench (Bench.unplugged 6))
                         (snd (get_sample_details
                                 (Bench.bench (Bench.unplugged 6))
                                 [Typed "FTO"; Typed "0.001"] fresh))))).
  { vm_compute. reflexivity. }
  split; [split; [exact Hd|exact Hc]|].
  exact (connected_run_closes_the_stage (Bench.bench (Bench.unplugged 6))
           [Typed "FTO"; Typed "0.001"] [] fresh _ _ Hd Hc).
Defined.

End WaysOut.

(* ================================================================== *)
(** * The sweep, point by point *)
(* ================================================================== *)

Module Sweeping.
Import GetConductivity Expected MonadFacts SweepFacts Frame.

Lemma voltages_count : List.length voltages = 51%nat.
Proof. vm_compute. reflexivity. Qed.

Lemma faults_app (a b : list event) : faults (a ++ b) = (faults a + faults b)%nat.
Proof. unfold faults. rewrite filter_app, length_app. reflexivity. Qed.

Section Sweep.
Variable E : env.

(** One iteration calls the probe once, and then either appends one row
    or prints one error line. *)
Lemma sweep_point_accounts (thickness set_v : float) (results : list point)
  (s : machine) :
  exists r more,
    trace (snd (sweep_point E thickness set_v results s))
    = trace s ++ Called (ProbeOneshot set_v) r :: more
    /\ commands more = []
    /\ match fst (sweep_point E thickness set_v results s) with
       | Ok rows =>
           (List.length rows + faults more = S (List.length results))%nat
       | Raise _ => faults more = 0%nat
       end.
Proof.
  unfold sweep_point, try_except, faults. rewrite measure_eq. cbv zeta.
  exists (device E (clock s) (ProbeOneshot set_v)).
  destruct (device E (clock s) (ProbeOneshot set_v)) as [| | |v i|e].
  1-3: eexists [_]; simpl; rewrite <- app_assoc; repeat split; simpl; lia.
  - destruct (compute_point thickness v i) as [row|e].
    + eexists [_]. simpl. rewrite <- app_assoc, length_app.
      repeat split; simpl; lia.
    + destruct e; simpl;
        try (eexists [_]; simpl; rewrite <- app_assoc; repeat split; simpl; lia).
      exists []. repeat split.
  - destruct e; simpl;
      try (eexists [_]; simpl; rewrite <- app_assoc; repeat split; simpl; lia).
    exists []. repeat split.
Qed.

Lemma sweep_accounts (thickness : float) :
  forall vs results s,
    exists evs done,
      trace (snd (sweep E thickness vs results s)) = trace s ++ evs
      /\ commands evs = map ProbeOneshot done
      /\ match fst (sweep E thickness vs results s) with
         | Ok rows =>
             done = vs
             /\ (List.length rows + faults evs
                 = List.length results + List.length vs)%nat
         | Raise _ => done <> [] /\ exists left, vs = done ++ left
         end.
Proof.
  induction vs as [|set_v rest IH]; intros results s.
  - exists [], []. simpl. rewrite app_nil_r. repeat split.
  - rewrite sweep_cons.
    destruct (sweep_point_accounts thickness set_v results s)
      as (r & more & T1 & C1 & N1).
    destruct (sweep_point E thickness set_v results s) as [[rows1|e] s1];
      simpl in T1, N1.
    + destruct (IH rows1 s1) as (evs & done & T2 & C2 & N2).
      exists (Called (ProbeOneshot set_v) r :: more ++ evs), (set_v :: done).
      split; [rewrite T2, T1, <- app_assoc; reflexivity|].
      split; [simpl; rewrite commands_app, C1, C2; reflexivity|].
      destruct (fst (sweep E thickness rest rows1 s1)).
      * destruct N2 as [-> N2]. split; [reflexivity|].
        change (Called (ProbeOneshot set_v) r :: more ++ evs)
          with ([Called (ProbeOneshot set_v) r] ++ more ++ evs).
        rewrite !faults_app. simpl List.length.
        change (faults [Called (ProbeOneshot set_v) r]) with 0%nat. lia.
      * destruct N2 as (_ & left & ->). split; [discriminate|].
        exists left. reflexivity.
    + exists (Called (ProbeOneshot set_v) r :: more), [set_v].
      simpl. split; [exact T1|]. split; [rewrite C1; reflexivity|].
      split; [discriminate|]. exists rest. reflexivity.
Qed.

(** X9.  A sweep that is not interrupted calls the probe once per voltage
    of the sweep, in order, and makes no other device call; each of the 51
    points ends up either as a row of the results or as an error line on
    the console. *)
Theorem sweep_accounts_for_every_voltage (s s' : machine)
  (rows : list point) :
  run_measurement E s = (Ok rows, s') ->
  exists evs,
    trace s' = trace s ++ evs
    /\ commands evs = map ProbeOneshot voltages
    /\ (List.length rows + faults evs = 51)%nat.
Proof.
  rewrite Results.run_measurement_eq.
  destruct (thickness_m s) as [t|]; [|discriminate].
  destruct (sweep_accounts t voltages [] s) as (evs & done & T & C & N).
  destruct (sweep E t voltages [] s) as [[rows1|e] s1]; [|discriminate].
  intros H; injection H as <- <-. simpl in T, N. destruct N as [-> N].
  exists (evs ++ [Printed MsgSweepDone]).
  split; [rewrite trace_record, T, <- app_assoc; reflexivity|].
  split; [rewrite commands_app, C; simpl; apply app_nil_r|].
  rewrite faults_app. change (faults [Printed MsgSweepDone]) with 0%nat.
  rewrite voltages_count in N. simpl in N. lia.
Qed.

End Sweep.

Lemma sweep_accounts_for_every_voltage_witness :
  let B := Bench.bench Bench.glitchy in
  exists rows,
    run_measurement B Bench.ready
    = (Ok rows, snd (run_measurement B Bench.ready))
    /\ exists evs,
         trace (snd (run_measurement B Bench.ready))
         = trace Bench.ready ++ evs
         /\ commands evs = map ProbeOneshot voltages
         /\ (List.length rows + faults evs = 51)%nat.
Proof.
  cbv zeta.
  assert (H : run_measurement (Bench.bench Bench.glitchy) Bench.ready
              = (Ok (match fst (run_measurement (Bench.bench Bench.glitchy)
                                  Bench.ready) with
                     | Ok rows => rows
                     | Raise _ => []
                     end),
                 snd (run_measurement (Bench.bench Bench.glitchy)
                        Bench.ready))).
  { vm_compute. reflexivity. }
  eexists. split; [exact H|].
  exact (sweep_accounts_for_every_voltage (Bench.bench Bench.glitchy)
           _ _ _ H).
Defined.

End Sweeping.

(* ================================================================== *)
(** * The sample prompts *)
(* ================================================================== *)

Module Details.
Import GetConductivity Expected MonadFacts Thickness.

(** ** The characters of a sample name *)

Lemma chars_lstrip (P : ascii -> Prop) (s : string) :
  Forall P (chars s) -> Forall P (chars (lstrip s)).
Proof.
  induction s as [|c rest IH]; simpl; intros H; [exact H|].
  destruct (isspace c); [|exact H].
  apply IH. inversion H; assumption.
Qed.

Lemma chars_rstrip (P : ascii -> Prop) (s : string) :
  Forall P (chars s) -> Forall P (chars (rstrip s)).
Proof.
  induction s as [|c rest IH]; simpl; intros H; [exact H|].
  inversion H as [|c' l Hc Hrest]; subst.
  specialize (IH Hrest).
  destruct (rstrip rest) as [|c1 rest1].
  - destruct (isspace c); simpl; [constructor|].
    constructor; [exact Hc|constructor].
  - simpl. constructor; [exact Hc|exact IH].
Qed.

Lemma chars_strip (P : ascii -> Prop) (s : string) :
  Forall P (chars s) -> Forall P (chars (strip s)).
Proof. intros H. apply chars_rstrip, chars_lstrip, H. Qed.

Lemma chars_keep (p : ascii -> bool) (s : string) :
  Forall (fun c => p c = true) (chars (keep p s)).
Proof.
  induction s as [|c rest IH]; simpl; [constructor|].
  destruct (p c) eqn:H; [|exact IH].
  simpl. constructor; [exact H|exact IH].
Qed.

Section Prompt.
Variable E : env.

(** The thickness loop, whatever is typed. *)
Lemma ask_thickness_outcome :
  forall keys s,
    exists turned_down left,
      keys = map Typed turned_down ++ left
      /\ forallb (rejected E) turned_down = true
      /\ stage (snd (ask_thickness E keys s)) = stage s
      /\ probe (snd (ask_thickness E keys s)) = probe s
      /\ sample_name (snd (ask_thickness E keys s)) = sample_name s
      /\ clock (snd (ask_thickness E keys s)) = clock s
      /\ match fst (ask_thickness E keys s) with
         | Ok rest =>
             exists answer thickness_mm,
               left = Typed answer :: rest
               /\ py_float E (strip answer) = Some thickness_mm
               /\ py_le (PyFloat thickness_mm) (PyInt 0) = false
               /\ thickness_m (snd (ask_thickness E keys s))
                  = Some (thickness_mm * 1e-3)%float
               /\ trace (snd (ask_thickness E keys s))
                  = trace s ++ map (rejection E) turned_down
                    ++ [Printed (MsgThicknessSet thickness_mm
                                   (thickness_mm * 1e-3)%float)]
         | Raise e =>
             input_stops left e
             /\ thickness_m (snd (ask_thickness E keys s)) = thickness_m s
             /\ trace (snd (ask_thickness E keys s))
                = trace s ++ map (rejection E) turned_down
         end.
Proof.
  induction keys as [|k keys IH]; intros s.
  - exists [], []. simpl. rewrite app_nil_r. repeat split.
    left. split; reflexivity.
  - destruct k as [line|].
    2: { exists [], (CtrlC :: keys). simpl. rewrite app_nil_r.
         repeat split. right. exists keys. split; reflexivity. }
    rewrite ask_thickness_line.
    assert (Hskip : forall m,
              rejected E line = true -> rejection E line = Printed m ->
              exists turned_down left,
                Typed line :: keys = map Typed turned_down ++ left
                /\ forallb (rejected E) turned_down = true
                /\ stage (snd ((say m ;; ask_thickness E keys) s)) = stage s
                /\ probe (snd ((say m ;; ask_thickness E keys) s)) = probe s
                /\ sample_name (snd ((say m ;; ask_thickness E keys) s))
                   = sample_name s
                /\ clock (snd ((say m ;; ask_thickness E keys) s)) = clock s
                /\ match fst ((say m ;; ask_thickness E keys) s) with
                   | Ok rest =>
                       exists answer thickness_mm,
                         left = Typed answer :: rest
                         /\ py_float E (strip answer) = Some thickness_mm
                         /\ py_le (PyFloat thickness_mm) (PyInt 0) = false
                         /\ thickness_m
                              (snd ((say m ;; ask_thickness E keys) s))
                            = Some (thickness_mm * 1e-3)%float
                         /\ trace (snd ((say m ;; ask_thickness E keys) s))
                            = trace s ++ map (rejection E) turned_down
                              ++ [Printed (MsgThicknessSet thickness_mm
                                             (thickness_mm * 1e-3)%float)]
                   | Raise e =>
                       input_stops left e
                       /\ thickness_m
                            (snd ((say m ;; ask_thickness E keys) s))
                          = thickness_m s
                       /\ trace (snd ((say m ;; ask_thickness E keys) s))
                          = trace s ++ map (rejection E) turned_down
                   end).
    { intros m Hrej Hline. rewrite bind_eq, say_eq.
      destruct (IH (record (Printed m) s))
        as (td & left & Hk & Hall & S1 & P1 & N1 & C1 & Hout).
      exists (line :: td), left.
      split; [simpl; rewrite Hk; reflexivity|].
      split; [simpl; rewrite Hrej, Hall; reflexivity|].
      split; [exact S1|]. split; [exact P1|]. split; [exact N1|].
      split; [exact C1|].
      destruct (fst (ask_thickness E keys (record (Printed m) s))).
      - destruct Hout as (answer & mm & Hl & Hp & Hle & Ht & Htr).
        exists answer, mm. repeat split; try assumption.
        rewrite Htr, trace_record. simpl map. rewrite Hline, <- app_assoc.
        reflexivity.
      - destruct Hout as (Hstop & Ht & Htr).
        repeat split; try assumption.
        rewrite Htr, trace_record. simpl map. rewrite Hline, <- app_assoc.
        reflexivity. }
    unfold rejected, rejection in Hskip.
    destruct (py_float E (strip line)) as [mm|] eqn:Hparse.
    + destruct (py_le (PyFloat mm) (PyInt 0)) eqn:Hle.
      * apply Hskip; reflexivity.
      * exists [], (Typed line :: keys). simpl. repeat split.
        exists line, mm. repeat split; assumption.
    + apply Hskip; reflexivity.
Qed.

Lemma get_sample_details_eq (name : string) (keys : list key)
  (s : machine) :
  get_sample_details E (Typed name :: keys) s
  = match ask_thickness E keys
            (with_sample_name (sanitize (strip name)) s) with
    | (Ok rest, s1) =>
        (Ok rest, record (Printed (MsgSample (sanitize (strip name)))) s1)
    | (Raise e, s1) => (Raise e, s1)
    end.
Proof.
  unfold get_sample_details. cbv zeta.
  rewrite bind_eq. unfold modify at 1. cbv beta iota. rewrite bind_eq.
  destruct (ask_thickness E keys _) as [[rest|e] s1]; reflexivity.
Qed.

(** X10.  [get_sample_details] takes the first line as the sample name
    and then the first answer that converts to a float and does not
    compare [<= 0]: every earlier answer was turned down with one line
    printed for it, the stored thickness is the answer times [1e-3], and
    the stored name is the cleaned name.  It makes no device call and
    leaves the device handles alone.  It raises only when the input ends
    ([EOFError]) or Ctrl-C is pressed at a prompt; a [ValueError] of the
    conversion never escapes. *)
Theorem sample_details_take_the_first_valid_answer (keys : list key)
  (s : machine) :
  let out := get_sample_details E keys s in
  stage (snd out) = stage s /\ probe (snd out) = probe s
  /\ clock (snd out) = clock s
  /\ match fst out with
     | Ok rest =>
         exists name turned_down answer thickness_mm,
           keys = Typed name :: map Typed turned_down ++ Typed answer :: rest
           /\ forallb (rejected E) turned_down = true
           /\ py_float E (strip answer) = Some thickness_mm
           /\ py_le (PyFloat thickness_mm) (PyInt 0) = false
           /\ sample_name (snd out) = Some (sanitize (strip name))
           /\ thickness_m (snd out) = Some (thickness_mm * 1e-3)%float
           /\ trace (snd out)
              = trace s ++ map (rejection E) turned_down
                ++ [Printed (MsgThicknessSet thickness_mm
                               (thickness_mm * 1e-3)%float);
                    Printed (MsgSample (sanitize (strip name)))]
     | Raise e =>
         exists read left,
           keys = map Typed read ++ left
           /\ input_stops left e
           /\ forallb (rejected E) (tl read) = true
     end.
Proof.
  cbv zeta.
  destruct keys as [|[name|] keys].
  - simpl. repeat split. exists [], []. repeat split.
    left. split; reflexivity.
  - rewrite get_sample_details_eq.
    destruct (ask_thickness_outcome keys
                (with_sample_name (sanitize (strip name)) s))
      as (td & left & Hk & Hall & S1 & P1 & N1 & C1 & Hout).
    destruct (ask_thickness E keys
                (with_sample_name (sanitize (strip name)) s))
      as [[rest|e] s1]; cbn [fst snd] in *;
      cbn [stage probe clock sample_name with_sample_name] in S1, P1, N1, C1.
    + split; [exact S1|]. split; [exact P1|]. split; [exact C1|].
      destruct Hout as (answer & mm & Hl & Hp & Hle & Ht & Htr).
      exists name, td, answer, mm. subst left keys.
      repeat split; try assumption.
      rewrite trace_record, Htr, <- !app_assoc. reflexivity.
    + split; [exact S1|]. split; [exact P1|]. split; [exact C1|].
      destruct Hout as (Hstop & _).
      exists (name :: td), left. subst keys. repeat split; assumption.
  - simpl. repeat split. exists [], (CtrlC :: keys). repeat split.
    right. exists keys. split; reflexivity.
Qed.

End Prompt.

(** X11.  The stored sample name is made of characters that [isalnum]
    accepts, spaces, hyphens and underscores only: it holds no path
    separator and no dot, whatever was typed. *)
Theorem sample_name_characters (line : string) :
  let name := sanitize (strip line) in
  Forall (fun c => name_char c = true) (chars name)
  /\ ~ In "/"%char (chars name)
  /\ ~ In "."%char (chars name).
Proof.
  cbv zeta.
  assert (H : Forall (fun c => name_char c = true)
                (chars (sanitize (strip line)))).
  { unfold sanitize.
    destruct (String.eqb (strip line) EmptyString).
    - simpl. repeat constructor.
    - apply chars_strip, chars_keep. }
  split; [exact H|].
  rewrite Forall_forall in H.
  split; intros Hin; apply H in Hin; discriminate.
Qed.

End Details.

(* ================================================================== *)
(** * Where the verdict on the contact comes from *)
(* ================================================================== *)

Module Verdict.
Import GetConductivity Expected MonadFacts Frame Contact.

Lemma answer_decides_later (verdict : bool) (choice : string)
  (before evs : list event) :
  answer_decides verdict choice evs ->
  answer_decides verdict choice (before ++ evs).
Proof.
  intros [(H1 & H2 & pre & tail & -> & Ht)|[(H1 & H2 & pre & ->)
                                          |(H1 & H2 & pre & ->)]].
  - left. repeat split; try assumption.
    exists (before ++ pre), tail. rewrite app_assoc. split; [reflexivity|exact Ht].
  - right; left. repeat split; try assumption.
    exists (before ++ pre). rewrite app_assoc. reflexivity.
  - right; right. repeat split; try assumption.
    exists (before ++ pre). rewrite app_assoc. reflexivity.
Qed.

Section Verify.
Variable E : env.

(** The trace of a contact test that returns. *)
Lemma contact_test_trace (h : float) (s s' : machine) (good : bool) :
  contact_test E h s = (Ok good, s') ->
  exists pre v i r,
    trace s'
    = trace s ++ pre
      ++ [Called (ProbeOneshot TEST_VOLTAGE) (RData v i);
          Printed (MsgContactReading v (abs i));
          Called (ProbeVoltage (PyInt 0)) r;
          Printed (if good then MsgGoodContact else MsgLowCurrent h)]
    /\ good = fge (abs i) CONTACT_THRESHOLD.
Proof.
  unfold contact_test. intros H.
  apply bind_ok_inv in H. destruct H as (r1 & s1 & H1 & H).
  apply invoke_ok_inv in H1. destruct H1 as [_ ->].
  apply bind_ok_inv in H. destruct H as (r2 & s2 & H2 & H).
  apply invoke_ok_inv in H2. destruct H2 as [_ ->].
  apply bind_ok_inv in H. destruct H as (r3 & s3 & H3 & H).
  apply invoke_ok_inv in H3. destruct H3 as [_ ->].
  apply bind_ok_inv in H. destruct H as (data & s4 & H4 & H).
  apply invoke_ok_inv in H4. destruct H4 as [Hdata ->].
  apply bind_ok_inv in H. destruct H as ([v i] & s5 & H5 & H).
  apply lift_ok_inv in H5. destruct H5 as [Hread ->].
  destruct data; try discriminate. injection Hread as -> ->.
  apply bind_ok_inv in H. destruct H as (u1 & s6 & H6 & H).
  rewrite say_eq in H6. injection H6 as _ <-.
  apply bind_ok_inv in H. destruct H as (r & s7 & H7 & H).
  apply invoke_ok_inv in H7. destruct H7 as [_ ->].
  eexists [_; _; _], v, i, r.
  destruct (fge (abs i) CONTACT_THRESHOLD);
    rewrite bind_eq, say_eq in H; injection H as <- <-;
    (split; [|reflexivity]);
    simpl; rewrite <- !app_assoc; reflexivity.
Qed.

Lemma retry_prompt_verdict
  (again : float -> list key -> M (bool * list key)) :
  (forall h keys s verdict rest s',
     again h keys s = (Ok (verdict, rest), s') ->
     decided keys s verdict rest s') ->
  forall keys h s verdict rest s',
    retry_prompt E again h keys s = (Ok (verdict, rest), s') ->
    exists used line evs,
      keys = used ++ Typed line :: rest
      /\ trace s' = trace s ++ evs
      /\ answer_decides verdict (strip line) evs.
Proof.
  intros Hagain.
  induction keys as [|k keys IH]; intros h s verdict rest s' H.
  - discriminate.
  - destruct k as [line|]; [|discriminate].
    destruct (String.eqb (strip line) "1") eqn:C1.
    { rewrite (retry_prompt_choice_1 E again h line keys s C1) in H.
      apply String.eqb_eq in C1.
      destruct (raise_stage E h s) as [[h'|e] s1] eqn:Hraise;
        [|discriminate].
      destruct (raise_stage_ok E h h' s s1 Hraise)
        as (_ & steps & m1 & m2 & _ & T1).
      match type of T1 with _ = _ ++ ?l => set (e1 := l) in T1 end.
      apply Hagain in H. destruct H as (evs & T2 & Hd).
      destruct Hd as [(-> & -> & pre & tail & -> & Hf)
                     |(used & line' & -> & Hd)].
      - exists [], line, (e1 ++ pre ++ tail). split; [reflexivity|].
        split; [rewrite T2, T1, <- app_assoc; reflexivity|].
        apply answer_decides_later. left. rewrite C1.
        repeat split. exists pre, tail. split; [reflexivity|exact Hf].
      - exists (Typed line :: used), line', (e1 ++ evs).
        split; [reflexivity|].
        split; [rewrite T2, T1, <- app_assoc; reflexivity|].
        apply answer_decides_later. exact Hd. }
    destruct (String.eqb (strip line) "2") eqn:C2.
    { rewrite (retry_prompt_choice_2 E again h line keys s C2) in H.
      apply String.eqb_eq in C2. injection H as <- <- <-.
      exists [], line, [Printed MsgAborting].
      split; [reflexivity|]. split; [reflexivity|].
      right; left. rewrite C2. repeat split. exists []. reflexivity. }
    destruct (String.eqb (strip line) "3") eqn:C3.
    { rewrite (retry_prompt_choice_3 E again h line keys s C3) in H.
      apply String.eqb_eq in C3. injection H as <- <- <-.
      exists [], line, [Printed MsgOverriding].
      split; [reflexivity|]. split; [reflexivity|].
      right; right. rewrite C3. repeat split. exists []. reflexivity. }
    rewrite (retry_prompt_other E again h line keys s C1 C2 C3) in H.
    apply IH in H. destruct H as (used & line' & evs & -> & T3 & Hd).
    exists (Typed line :: used), line', (Printed MsgInvalidChoice :: evs).
    split; [reflexivity|].
    split; [rewrite T3, trace_record, <- app_assoc; reflexivity|].
    change (Printed MsgInvalidChoice :: evs)
      with ([Printed MsgInvalidChoice] ++ evs).
    apply answer_decides_later. exact Hd.
Qed.

(** X12.  Where the verdict of [verify_contact] comes from.  It returns
    [True] without reading the keyboard when the first test finds
    contact.  Otherwise the last line it read decides: after the answer
    [1] a test at the new height found contact, the answer [3] overrode
    the test, and the answer [2] is the only way to [False].  A test that
    finds contact measured a current of at least the threshold in
    magnitude and set the probe voltage back to zero before returning. *)
Theorem verify_contact_verdict (h : float) (keys rest : list key)
  (s s' : machine) (verdict : bool) :
  verify_contact E h keys s = (Ok (verdict, rest), s') ->
  exists evs,
    trace s' = trace s ++ evs
    /\ ((verdict = true /\ rest = keys
         /\ exists pre tail, evs = pre ++ tail /\ contact_found tail)
        \/ exists used line,
             keys = used ++ Typed line :: rest
             /\ answer_decides verdict (strip line) evs).
Proof.
  unfold verify_contact. fold (decided keys s verdict rest s').
  revert h keys s verdict rest s'.
  induction (recursion_limit E) as [|depth IH];
    intros h keys s verdict rest s' H.
  - discriminate.
  - rewrite verify_contact_within_eq in H.
    destruct (contact_test E h s) as [[good|e] s1] eqn:Htest;
      [|discriminate].
    destruct (contact_test_trace h s s1 good Htest)
      as (pre & v & i & r & T1 & Hgood).
    match type of T1 with _ = _ ++ ?l => set (e1 := l) in T1 end.
    destruct good.
    + injection H as <- <- <-.
      exists e1. split; [exact T1|]. left. repeat split.
      exists pre. eexists. split; [reflexivity|].
      exists v, i, r. split; [reflexivity|]. symmetry. exact Hgood.
    + apply (retry_prompt_verdict _ IH) in H.
      destruct H as (used & line & evs & Hk & T2 & Hd).
      exists (e1 ++ evs).
      split; [rewrite T2, T1, <- app_assoc; reflexivity|].
      right. exists used, line. split; [exact Hk|].
      apply answer_decides_later. exact Hd.
Qed.

End Verify.

Lemma verify_contact_verdict_witness :
  let B := Bench.bench Bench.open_circuit in
  let keys := [Typed "x"; Typed " 2 "; Typed "3"] in
  let s' := snd (verify_contact B 5.4 keys fresh) in
  verify_contact B 5.4 keys fresh = (Ok (false, [Typed "3"]), s')
  /\ exists evs,
       trace s' = trace fresh ++ evs
       /\ ((false = true /\ [Typed "3"] = keys
            /\ exists pre tail, evs = pre ++ tail /\ contact_found tail)
           \/ exists used line,
                keys = used ++ Typed line :: [Typed "3"]
                /\ answer_decides false (strip line) evs).
Proof.
  cbv zeta.
  assert (H : verify_contact (Bench.bench Bench.open_circuit) 5.4
                [Typed "x"; Typed " 2 "; Typed "3"] fresh
              = (Ok (false, [Typed "3"]),
                 snd (verify_contact (Bench.bench Bench.open_circuit) 5.4
                        [Typed "x"; Typed " 2 "; Typed "3"] fresh))).
  { vm_compute. reflexivity. }
  split; [exact H|].
  exact (verify_contact_verdict (Bench.bench Bench.open_circuit) 5.4
           _ _ fresh _ false H).
Defined.

End Verdict.

(* ================================================================== *)
(** * The two checks of check_connection.py *)
(* ================================================================== *)

Module CheckFacts.
Import CheckConnection Expected MonadFacts Frame Connecting.

Lemma invoke_ok_full (E : env) (c : call) (s s' : machine) (r : reply) :
  invoke E c s = (Ok r, s') ->
  r = device E (clock s) c
  /\ raises (device E (clock s) c) = false
  /\ s' = record (Called c (device E (clock s) c)) (tick s).
Proof.
  unfold invoke. destruct (device E (clock s) c); try discriminate;
    intros H; injection H as <- <-; repeat split.
Qed.

(** A check returns [True] only from the end of its [try] body. *)
Lemma passed_check_inv (body : M bool) (missing : message)
  (failed : exn -> message) (s : machine) :
  fst (try_except body is_Exception (check_handler missing failed) s)
  = Ok true ->
  body s
  = (Ok true,
     snd (try_except body is_Exception (check_handler missing failed) s)).
Proof.
  unfold try_except, check_handler.
  destruct (body s) as [[b|e] s1]; simpl.
  - intros H; injection H as ->. reflexivity.
  - destruct (is_Exception e); [|discriminate].
    destruct (is_ImportError e); discriminate.
Qed.

(** One step back through a body that returned: a device call that
    answered, or a printed line. *)
Ltac next_call H A :=
  let r := fresh "r" in
  let s := fresh "s" in
  let Hi := fresh "Hi" in
  apply bind_ok_inv in H; destruct H as (r & s & Hi & H);
  apply invoke_ok_full in Hi; destruct Hi as (-> & A & ->).

Ltac next_say H := rewrite bind_eq, say_eq in H; cbv beta iota in H.

Section Checks.
Variable E : env.

Ltac call_fails A e :=
  apply raises_inv in A; destruct A as [e A];
  match goal with
  | |- context [invoke E ?c ?st] => rewrite (invoke_fails E c st e A)
  end.

Ltac call_answers A :=
  match goal with
  | |- context [invoke E ?c ?st] => rewrite (invoke_answers E c st A)
  end.

Ltac handled e :=
  destruct (is_Exception e); [|discriminate];
  unfold check_handler; destruct (is_ImportError e); discriminate.

Lemma check_probe_ok (s : machine) :
  let r0 := device E (clock s) ImportXtralien in
  let r1 := device E (1 + clock s) ProbeOpen in
  let r2 := device E (2 + clock s) ProbeHello in
  let r3 := device E (3 + clock s) ProbeTempRead in
  let r4 := device E (4 + clock s) ProbeClose in
  raises r0 = false -> raises r1 = false -> raises r2 = false ->
  raises r3 = false -> raises r4 = false ->
  fst (check_probe E s) = Ok true
  /\ trace (snd (check_probe E s))
     = trace s ++ [Called ImportXtralien r0; Called ProbeOpen r1;
                   Printed ChkProbeConnected;
                   Called ProbeHello r2; Printed (ChkProbeResponse r2);
                   Called ProbeTempRead r3;
                   Printed (ChkProbeTemperature r3);
                   Called ProbeClose r4; Printed ChkProbePassed].
Proof.
  cbv zeta. intros A0 A1 A2 A3 A4.
  unfold check_probe, try_except.
  rewrite bind_eq. call_answers A0.
  rewrite bind_eq. call_answers A1.
  rewrite bind_eq, say_eq.
  rewrite bind_eq. call_answers A2.
  rewrite bind_eq, say_eq.
  rewrite bind_eq. call_answers A3.
  rewrite bind_eq, say_eq.
  rewrite bind_eq. call_answers A4.
  rewrite bind_eq, say_eq.
  split; [reflexivity|].
  simpl. rewrite <- !app_assoc. reflexivity.
Qed.

Lemma check_probe_passed_inv (s : machine) :
  fst (check_probe E s) = Ok true ->
  raises (device E (clock s) ImportXtralien) = false
  /\ raises (device E (1 + clock s) ProbeOpen) = false
  /\ raises (device E (2 + clock s) ProbeHello) = false
  /\ raises (device E (3 + clock s) ProbeTempRead) = false
  /\ raises (device E (4 + clock s) ProbeClose) = false.
Proof.
  intros H. apply passed_check_inv in H.
  next_call H A0. next_call H A1. next_say H.
  next_call H A2. next_say H. next_call H A3. next_say H.
  next_call H A4.
  repeat split; assumption.
Qed.

(** X13.  [check_probe] returns [True] exactly when its five steps
    answer: the import of the library, opening the device, the hello
    message, the temperature reading and closing the device.  When the
    hello message or the temperature reading raises an [Exception] the
    check returns [False] and the device it opened is never closed. *)
Theorem check_probe_passes_iff (s : machine) :
  let r0 := device E (clock s) ImportXtralien in
  let r1 := device E (1 + clock s) ProbeOpen in
  let r2 := device E (2 + clock s) ProbeHello in
  let r3 := device E (3 + clock s) ProbeTempRead in
  let r4 := device E (4 + clock s) ProbeClose in
  (fst (check_probe E s) = Ok true
   <-> raises r0 = false /\ raises r1 = false /\ raises r2 = false
       /\ raises r3 = false /\ raises r4 = false)
  /\ (fst (check_probe E s) = Ok true ->
      trace (snd (check_probe E s))
      = trace s ++ [Called ImportXtralien r0; Called ProbeOpen r1;
                    Printed ChkProbeConnected;
                    Called ProbeHello r2; Printed (ChkProbeResponse r2);
                    Called ProbeTempRead r3;
                    Printed (ChkProbeTemperature r3);
                    Called ProbeClose r4; Printed ChkProbePassed])
  /\ (forall e,
        raises r0 = false -> raises r1 = false ->
        r2 = RRaise e \/ (raises r2 = false /\ r3 = RRaise e) ->
        is_Exception e = true ->
        fst (check_probe E s) = Ok false
        /\ exists evs,
             trace (snd (check_probe E s)) = trace s ++ evs
             /\ In ProbeOpen (commands evs)
             /\ ~ In ProbeClose (commands evs)).
Proof.
  cbv zeta. split; [split|split].
  - apply check_probe_passed_inv.
  - intros (A0 & A1 & A2 & A3 & A4).
    apply (check_probe_ok s A0 A1 A2 A3 A4).
  - intros H. destruct (check_probe_passed_inv s H) as (A0 & A1 & A2 & A3 & A4).
    apply (check_probe_ok s A0 A1 A2 A3 A4).
  - intros e A0 A1 Hfail He.
    unfold check_probe, try_except.
    rewrite bind_eq. call_answers A0.
    rewrite bind_eq. call_answers A1.
    rewrite bind_eq, say_eq. rewrite bind_eq.
    destruct Hfail as [H2|[A2 H3]].
    + match goal with
      | |- context [invoke E ProbeHello ?st] =>
          rewrite (invoke_fails E ProbeHello st e H2)
      end.
      rewrite He. unfold check_handler.
      destruct (is_ImportError e); simpl; (split; [reflexivity|]);
        rewrite <- !app_assoc; simpl app;
        (eexists; split; [reflexivity|]); simpl; (split; [auto|]);
        intros H; repeat (destruct H as [H|H]; [discriminate|]); exact H.
    + call_answers A2. rewrite bind_eq, say_eq. rewrite bind_eq.
      match goal with
      | |- context [invoke E ProbeTempRead ?st] =>
          rewrite (invoke_fails E ProbeTempRead st e H3)
      end.
      rewrite He. unfold check_handler.
      destruct (is_ImportError e); simpl; (split; [reflexivity|]);
        rewrite <- !app_assoc; simpl app;
        (eexists; split; [reflexivity|]); simpl; (split; [auto|]);
        intros H; repeat (destruct H as [H|H]; [discriminate|]); exact H.
Qed.

(** What follows from the list of calls of a passed stage check: the
    stage is homed only when it reports that it is not, and moved only to
    position 0, only when it is homed. *)
Lemma passed_stage_check_moves (pos homed : reply) :
  (In StageHome (passed_stage_check pos homed) <-> truthy homed = false)
  /\ (forall z, In (StageMoveTo z) (passed_stage_check pos homed) ->
                z = 0%Z /\ truthy homed = true
                /\ away_from_home pos = Ok true).
Proof.
  unfold passed_stage_check.
  destruct (truthy homed).
  - destruct (away_from_home pos) as [[|]|e]; simpl.
    + split; [split; [|discriminate]|].
      * intros H; repeat (destruct H as [H|H]; [discriminate|]);
          destruct H.
      * intros z H.
        repeat (destruct H as [H|H];
                [try discriminate; try (injection H as <-; auto)|]).
        destruct H.
    + split; [split; [|discriminate]|].
      * intros H; repeat (destruct H as [H|H]; [discriminate|]);
          destruct H.
      * intros z H; repeat (destruct H as [H|H]; [discriminate|]);
          destruct H.
    + split; [split; [|discriminate]|].
      * intros H; repeat (destruct H as [H|H]; [discriminate|]);
          destruct H.
      * intros z H; repeat (destruct H as [H|H]; [discriminate|]);
          destruct H.
  - simpl. split; [split; [reflexivity|auto 10]|].
    intros z H; repeat (destruct H as [H|H]; [discriminate|]); destruct H.
Qed.

(** X14.  A stage check that returns [True] made exactly the calls of
    [passed_stage_check], all of which answered: it opened and enabled
    the stage, read the position and the homing state, homed the stage
    when it was not homed, moved it to 0 when it was homed and more than
    10 steps away, and closed it.  It never moves the stage anywhere but
    to 0, and never homes a stage that reports it is homed. *)
Theorem passed_stage_check_calls (s : machine) :
  fst (check_stage E s) = Ok true ->
  let pos := device E (3 + clock s) StageGetPosition in
  let homed := device E (4 + clock s) StageIsHomed in
  exists evs,
    trace (snd (check_stage E s)) = trace s ++ evs
    /\ commands evs = passed_stage_check pos homed
    /\ forallb answered evs = true
    /\ (In StageHome (commands evs) <-> truthy homed = false)
    /\ (forall z, In (StageMoveTo z) (commands evs) ->
                  z = 0%Z /\ truthy homed = true
                  /\ away_from_home pos = Ok true).
Proof.
  intros H. cbv zeta. apply passed_check_inv in H.
  set (s' := snd (check_stage E s)) in *.
  fold (check_stage E s) in H. fold s' in H.
  assert (K : exists evs,
             trace s' = trace s ++ evs
             /\ commands evs
                = passed_stage_check
                    (device E (3 + clock s) StageGetPosition)
                    (device E (4 + clock s) StageIsHomed)
             /\ forallb answered evs = true).
  2: { destruct K as (evs & T & C & A). exists evs.
       split; [exact T|]. split; [exact C|]. split; [exact A|].
       rewrite C. apply passed_stage_check_moves. }
  clearbody s'.
  next_call H A0. next_call H A1. next_say H.
  next_call H A2. next_call H A3. next_call H A4. next_say H.
  apply bind_ok_inv in H. destruct H as (u & s6 & Hbranch & H).
  next_call H A5. next_say H. injection H as <-.
  cbn [clock record tick] in *.
  unfold passed_stage_check.
  change (3 + clock s)%nat with (S (S (S (clock s)))).
  change (4 + clock s)%nat with (S (S (S (S (clock s))))).
  destruct (truthy (device E (S (S (S (S (clock s))))) StageIsHomed)) eqn:Th;
    cbn [negb] in Hbranch.
  - next_say Hbranch.
    apply bind_ok_inv in Hbranch. destruct Hbranch as (away & s7 & Haway & Hb).
    apply lift_ok_inv in Haway. destruct Haway as [Haway ->].
    rewrite Haway.
    destruct away.
    + next_say Hb. next_call Hb B0. next_call Hb B1. next_call Hb B2.
      rewrite say_eq in Hb. injection Hb as _ <-.
      cbn [clock record tick trace] in *.
      rewrite <- !app_assoc. simpl app.
      eexists. split; [reflexivity|].
      simpl. rewrite A0, A1, A2, A3, A4, A5, B0, B1, B2.
      split; reflexivity.
    + rewrite say_eq in Hb. injection Hb as _ <-.
      cbn [clock record tick trace] in *.
      rewrite <- !app_assoc. simpl app.
      eexists. split; [reflexivity|].
      simpl. rewrite A0, A1, A2, A3, A4, A5.
      split; reflexivity.
  - next_say Hbranch. next_call Hbranch B0. next_call Hbranch B1.
    next_say Hbranch. next_call Hbranch B2. next_say Hbranch.
    next_call Hbranch B3.
    rewrite say_eq in Hbranch. injection Hbranch as _ <-.
    cbn [clock record tick trace] in *.
    rewrite <- !app_assoc. simpl app.
    eexists. split; [reflexivity|].
    simpl. rewrite A0, A1, A2, A3, A4, A5, B0, B1, B2, B3.
    split; reflexivity.
Qed.

End Checks.

Lemma passed_stage_check_calls_witness :
  let B := Bench.bench Bench.film in
  fst (check_stage B fresh) = Ok true
  /\ exists evs,
       trace (snd (check_stage B fresh)) = trace fresh ++ evs
       /\ commands evs
          = passed_stage_check (device B 3 StageGetPosition)
              (device B 4 StageIsHomed)
       /\ forallb answered evs = true
       /\ (In StageHome (commands evs)
           <-> truthy (device B 4 StageIsHomed) = false)
       /\ (forall z, In (StageMoveTo z) (commands evs) ->
                     z = 0%Z /\ truthy (device B 4 StageIsHomed) = true
                     /\ away_from_home (device B 3 StageGetPosition)
                        = Ok true).
Proof.
  cbv zeta.
  assert (H : fst (check_stage (Bench.bench Bench.film) fresh) = Ok true).
  { vm_compute. reflexivity. }
  split; [exact H|].
  exact (passed_stage_check_calls (Bench.bench Bench.film) fresh H).
Defined.

End CheckFacts.

(* ================================================================== *)
(** * A run that does not connect *)
(* ================================================================== *)

Module Stops.
Import GetConductivity Expected MonadFacts Frame TopLevel Connecting.

Section Run.
Variable E : env.

(** X15.  When [connect_devices] returns [False], [run] returns 1 at
    once: nothing more is printed, no device is called and [shutdown] is
    not run.  With a stage that answers but is not homed this leaves the
    stage handle open: the stage was opened and is never closed. *)
Theorem failed_connection_ends_the_run (keys keys1 : list key)
  (s s1 : machine) :
  get_sample_details E keys s = (Ok keys1, s1) ->
  let r0 := device E (clock s1) StageOpen in
  let r1 := device E (1 + clock s1) StageEnable in
  let r2 := device E (2 + clock s1) StageIsHomed in
  (forall s2, connect_devices E s1 = (Ok false, s2) ->
              run E keys s = (Ok 1%Z, s2))
  /\ (raises r0 = false -> raises r1 = false -> raises r2 = false ->
      truthy r2 = false ->
      fst (run E keys s) = Ok 1%Z
      /\ stage (snd (run E keys s)) = true
      /\ trace (snd (run E keys s))
         = trace s1 ++ [Called StageOpen r0; Called StageEnable r1;
                        Called StageIsHomed r2; Printed MsgStageNotHomed]).
Proof.
  intros Hd. cbv zeta.
  assert (Hstop : forall s2, connect_devices E s1 = (Ok false, s2) ->
                             run E keys s = (Ok 1%Z, s2)).
  { intros s2 Hc. rewrite run_eq. unfold run_body.
    rewrite bind_eq, Hd, bind_eq, Hc. reflexivity. }
  split; [exact Hstop|].
  intros A0 A1 A2 T2.
  pose proof (connect_devices_blocks E s1) as Hc.
  rewrite (stage_block_eq E s1 A0 A1 A2), T2 in Hc.
  rewrite (Hstop _ Hc). simpl. rewrite <- !app_assoc. repeat split.
Qed.

End Run.

Lemma failed_connection_ends_the_run_witness :
  let B := Bench.bench unhomed in
  let keys := [Typed "FTO"; Typed "0.001"] in
  let s1 := snd (get_sample_details B keys fresh) in
  get_sample_details B keys fresh = (Ok [], s1)
  /\ fst (run B keys fresh) = Ok 1%Z
  /\ stage (snd (run B keys fresh)) = true
  /\ trace (snd (run B keys fresh))
     = trace s1
       ++ [Called StageOpen (device B (clock s1) StageOpen);
           Called StageEnable (device B (1 + clock s1) StageEnable);
           Called StageIsHomed (device B (2 + clock s1) StageIsHomed);
           Printed MsgStageNotHomed].
Proof.
  cbv zeta.
  assert (H : get_sample_details (Bench.bench unhomed)
                [Typed "FTO"; Typed "0.001"] fresh
              = (Ok [], snd (get_sample_details (Bench.bench unhomed)
                               [Typed "FTO"; Typed "0.001"] fresh))).
  { vm_compute. reflexivity. }
  split; [exact H|].
  apply (proj2 (failed_connection_ends_the_run (Bench.bench unhomed)
                  [Typed "FTO"; Typed "0.001"] [] fresh _ H));
    vm_compute; reflexivity.
Defined.

End Stops.

(* ================================================================== *)
(** * Nothing moves before the devices are connected *)
(* ================================================================== *)

Module Motion.
Import GetConductivity Expected MonadFacts Frame TopLevel Connecting WaysOut.

Lemma at_rest_app (a b : list event) :
  at_rest (a ++ b) = at_rest a && at_rest b.
Proof. apply forallb_app. Qed.

Lemma at_rest_not_driven (evs pre post : list event) (ev : event) :
  at_rest evs = true -> evs = pre ++ ev :: post -> drives ev = false.
Proof.
  intros H ->. unfold at_rest in H. rewrite forallb_app in H.
  apply andb_prop in H. destruct H as [_ H]. cbn [forallb] in H.
  apply andb_prop in H. destruct H as [H _]. unfold resting in H.
  destruct (drives ev); [discriminate|reflexivity].
Qed.

(** Events at rest that report the connection, followed by anything. *)
Lemma driven_after_report (evs later : list event) :
  at_rest evs = true -> In (Printed MsgAllConnected) evs ->
  driven_after_connection (evs ++ later).
Proof.
  intros Hrest Hin pre ev post Heq Hdrives.
  apply app_eq_app in Heq. destruct Heq as [l [[H1 H2]|[H1 H2]]].
  - destruct l as [|x l].
    + rewrite app_nil_r in H1. subst pre. exact Hin.
    + injection H2 as <- _.
      rewrite (at_rest_not_driven evs pre l ev Hrest H1) in Hdrives.
      discriminate.
  - subst pre. apply in_or_app. left. exact Hin.
Qed.

Lemma driven_never (evs : list event) :
  at_rest evs = true -> driven_after_connection evs.
Proof.
  intros Hrest pre ev post Heq Hdrives.
  rewrite (at_rest_not_driven evs pre post ev Hrest Heq) in Hdrives.
  discriminate.
Qed.

(** ** Statements that add only events of one kind *)

Lemma only_ret (P : event -> bool) {A : Type} (a : A) : only P (ret a).
Proof. intros s. exists []. simpl. rewrite app_nil_r. split; reflexivity. Qed.

Lemma only_raise (P : event -> bool) {A : Type} (e : exn) :
  only P (@raise A e).
Proof. intros s. exists []. simpl. rewrite app_nil_r. split; reflexivity. Qed.

Lemma only_get (P : event -> bool) : only P get.
Proof. intros s. exists []. simpl. rewrite app_nil_r. split; reflexivity. Qed.

Lemma only_modify (P : event -> bool) (f : machine -> machine) :
  (forall s, trace (f s) = trace s) -> only P (modify f).
Proof.
  intros Hf s. exists []. simpl. rewrite app_nil_r, Hf. split; reflexivity.
Qed.

Lemma only_say (P : event -> bool) (m : message) :
  P (Printed m) = true -> only P (say m).
Proof.
  intros Hm s. exists [Printed m]. split; [reflexivity|].
  cbn [forallb]. rewrite Hm. reflexivity.
Qed.

Lemma only_invoke (P : event -> bool) (E : env) (c : call) :
  (forall r, P (Called c r) = true) -> only P (invoke E c).
Proof.
  intros Hc s. rewrite invoke_snd. eexists [_]. split; [reflexivity|].
  cbn [forallb]. rewrite Hc. reflexivity.
Qed.

Lemma only_bind (P : event -> bool) {A B : Type} (m : M A) (k : A -> M B) :
  only P m -> (forall x, only P (k x)) -> only P (bind m k).
Proof.
  intros Hm Hk s. rewrite bind_eq.
  destruct (Hm s) as (evs & T & R).
  destruct (m s) as [[x|e] s1]; simpl in T.
  - destruct (Hk x s1) as (evs' & T' & R').
    exists (evs ++ evs'). rewrite T', T, app_assoc, forallb_app, R, R'.
    split; reflexivity.
  - exists evs. split; [exact T|exact R].
Qed.

Lemma only_try (P : event -> bool) {A : Type} (m : M A)
  (catches : exn -> bool) (h : exn -> M A) :
  only P m -> (forall e, only P (h e)) -> only P (try_except m catches h).
Proof.
  intros Hm Hh s. unfold try_except.
  destruct (Hm s) as (evs & T & R).
  destruct (m s) as [[x|e] s1]; simpl in T.
  - exists evs. split; [exact T|exact R].
  - destruct (catches e).
    + destruct (Hh e s1) as (evs' & T' & R').
      exists (evs ++ evs'). rewrite T', T, app_assoc, forallb_app, R, R'.
      split; reflexivity.
    + exists evs. split; [exact T|exact R].
Qed.

Ltac only_step :=
  first
    [ apply only_ret | apply only_raise | apply only_get
    | apply only_say; reflexivity
    | apply only_modify; intros ?; reflexivity
    | apply only_invoke; intros ?; reflexivity
    | apply only_bind; [|intros ?]
    | apply only_try; [|intros ?]
    | match goal with
      | |- only _ (if ?b then _ else _) => destruct b
      | |- only _ (match ?x with Some _ => _ | None => _ end) => destruct x
      end ].

Ltac only_steps := repeat only_step.

(** [return_home] and [shutdown] drive nothing but the stage, and measure
    nothing. *)
Lemma only_shutdown (P : event -> bool) (E : env) :
  (forall r, P (Called (ProbeVoltage (PyInt 0)) r) = true) ->
  (forall r, P (Called (ProbeEnabled false) r) = true) ->
  (forall r, P (Called ProbeClose r) = true) ->
  (forall r, P (Called StageClose r) = true) ->
  P (Printed MsgProbeShutdown) = true ->
  P (Printed MsgStageShutdown) = true ->
  only P (shutdown E).
Proof.
  intros H1 H2 H3 H4 H5 H6.
  unfold shutdown, shutdown_probe, shutdown_stage.
  repeat first
    [ apply only_ret | apply only_get
    | apply only_say; assumption
    | apply only_invoke; assumption
    | apply only_bind; [|intros ?]
    | apply only_try; [|intros ?]
    | match goal with
      | |- only _ (if ?b then _ else _) => destruct b
      end ].
Qed.

Section Run.
Variable E : env.


(** The sample prompts only print. *)
Lemma only_ask_thickness (P : event -> bool) :
  (forall m, P (Printed m) = true) ->
  forall keys, only P (ask_thickness E keys).
Proof.
  intros HP.
  induction keys as [|k keys IH]; [apply only_raise|].
  destruct k as [line|]; [|apply only_raise].
  rewrite Thickness.ask_thickness_line.
  destruct (py_float E (strip line)) as [mm|].
  - destruct (py_le (PyFloat mm) (PyInt 0)).
    + apply only_bind; [apply only_say; apply HP|intros ?; apply IH].
    + apply only_bind; [apply only_modify; intros ?; reflexivity|intros ?].
      apply only_bind; [apply only_say; apply HP|intros ?].
      apply only_ret.
  - apply only_bind; [apply only_say; apply HP|intros ?; apply IH].
Qed.

Lemma only_get_sample_details (P : event -> bool) (keys : list key) :
  (forall m, P (Printed m) = true) ->
  only P (get_sample_details E keys).
Proof.
  intros HP. unfold get_sample_details.
  destruct keys as [|[line|] keys]; [apply only_raise| |apply only_raise].
  cbv zeta.
  apply only_bind; [apply only_modify; intros ?; reflexivity|intros ?].
  apply only_bind; [apply only_ask_thickness; exact HP|intros ?].
  apply only_bind; [apply only_say; apply HP|intros ?].
  apply only_ret.
Qed.

Lemma idle_get_sample_details (keys : list key) :
  idle (get_sample_details E keys).
Proof. apply only_get_sample_details. intros m. reflexivity. Qed.

Lemma idle_connect_devices : idle (connect_devices E).
Proof. unfold idle, connect_devices. only_steps. Qed.

Lemma idle_shutdown : idle (shutdown E).
Proof. apply only_shutdown; intros; reflexivity. Qed.

(** X16.  Nothing is set in motion before both devices are connected:
    in the trace of [run], every call that moves or homes the stage,
    switches the probe output on or applies a voltage comes after the
    line that reports both devices connected.  A run that fails before
    that point, or is interrupted, drives nothing, its [shutdown]
    included. *)
Theorem nothing_is_driven_before_connection (keys : list key)
  (s : machine) :
  exists evs,
    trace (snd (run E keys s)) = trace s ++ evs
    /\ driven_after_connection evs.
Proof.
  assert (Hfail : forall e s1 evs,
            trace s1 = trace s ++ evs -> at_rest evs = true ->
            exists evs',
              trace (snd (shutdown E (record (Printed (top_message e)) s1)))
              = trace s ++ evs'
              /\ driven_after_connection evs').
  { intros e s1 evs T R.
    destruct (idle_shutdown (record (Printed (top_message e)) s1))
      as (evs2 & T2 & R2).
    change (at_rest evs2 = true) in R2.
    exists (evs ++ [Printed (top_message e)] ++ evs2).
    split; [rewrite T2, trace_record, T, <- !app_assoc; reflexivity|].
    apply driven_never. rewrite !at_rest_app, R, R2. reflexivity. }
  rewrite run_eq.
  destruct (idle_get_sample_details keys s) as (evs1 & T1 & R1).
  change (at_rest evs1 = true) in R1.
  destruct (get_sample_details E keys s) as [[keys1|e] s1] eqn:Hd;
    simpl in T1.
  2: { unfold run_body. rewrite bind_eq, Hd. simpl snd.
       apply (Hfail e s1 evs1 T1 R1). }
  destruct (idle_connect_devices s1) as (evs2 & T2 & R2).
  change (at_rest evs2 = true) in R2.
  assert (R12 : at_rest (evs1 ++ evs2) = true).
  { rewrite at_rest_app, R1, R2. reflexivity. }
  destruct (connect_devices E s1) as [[[|]|e] s2] eqn:Hc; simpl in T2.
  - assert (Hin : In (Printed MsgAllConnected) evs2).
    { assert (Hc' : fst (connect_devices E s1) = Ok true)
        by (rewrite Hc; reflexivity).
      destruct (connect_devices_true_inv E s1 Hc') as (A0 & A1 & A2 & A3).
      destruct (connect_devices_ok E s1 A0 A1 A2 A3) as (_ & _ & _ & T).
      rewrite Hc in T. simpl in T. rewrite T2 in T.
      apply app_inv_head in T. rewrite T. simpl. auto 10. }
    destruct (run_body_connected E keys keys1 s s1 s2 Hd Hc)
      as (m & Hm & Hsteady & _).
    rewrite Hm.
    destruct (m s2) as [[code|e] s3] eqn:Hrun.
    + destruct (steady_at m s2 s3 _ Hsteady Hrun) as (_ & _ & evs3 & T3).
      exists ((evs1 ++ evs2) ++ evs3).
      split; [simpl; rewrite T3, T2, T1, <- !app_assoc; reflexivity|].
      apply driven_after_report; [exact R12|].
      apply in_or_app. right. exact Hin.
    + destruct (steady_at m s2 s3 _ Hsteady Hrun) as (_ & _ & evs3 & T3).
      destruct (steady_shutdown E (record (Printed (top_message e)) s3))
        as (_ & _ & _ & _ & evs4 & T4).
      exists ((evs1 ++ evs2) ++ evs3 ++ [Printed (top_message e)] ++ evs4).
      split; [simpl snd; rewrite T4, trace_record, T3, T2, T1,
                <- !app_assoc; reflexivity|].
      apply driven_after_report; [exact R12|].
      apply in_or_app. right. exact Hin.
  - unfold run_body. rewrite bind_eq, Hd, bind_eq, Hc. simpl.
    exists (evs1 ++ evs2).
    split; [rewrite T2, T1, <- app_assoc; reflexivity|].
    apply driven_never. exact R12.
  - unfold run_body. rewrite bind_eq, Hd, bind_eq, Hc. simpl snd.
    apply (Hfail e s2 (evs1 ++ evs2)); [|exact R12].
    rewrite T2, T1, <- app_assoc. reflexivity.
Qed.

End Run.

End Motion.

(* ================================================================== *)
(** * Moving to the contact height *)
(* ================================================================== *)

Module Approach.
Import GetConductivity Expected MonadFacts Frame Connecting CheckFacts.

(** The contact height in motor steps: 5.4 mm at 34304 steps per mm is
    185241.6, truncated by [int]. *)
Lemma contact_height_steps :
  int_of_float (CONTACT_HEIGHT_MM * float_of_Z STEPS_PER_MM)%float
  = Ok 185241%Z
  /\ CONTACT_HEIGHT_STEPS = 185241%Z.
Proof. split; vm_compute; reflexivity. Qed.

(** The quotient of two [int]s is rounded once.  The position
    [2^53 + 1] is not a float: dividing its nearest float by 34304 gives
    another result than dividing the integer. *)
Example position_beyond_the_floats :
  int_truediv 185241 34304 = Ok (PyFloat 5.399982509328358)
  /\ int_truediv (2 ^ 53 + 1) 34304 = Ok (PyFloat 262569940961.43286)
  /\ (float_of_Z (2 ^ 53 + 1) / float_of_Z 34304)%float
     = 262569940961.43283%float
  /\ int_truediv 0 (-5) = Ok (PyFloat (-0))
  /\ int_truediv 1 0 = Raise ZeroDivisionError.
Proof. vm_compute. repeat split; reflexivity. Qed.




Section Move.
Variable E : env.


End Move.

End Approach.

(* ================================================================== *)
(** * A run the user aborts *)
(* ================================================================== *)

Module UserAbort.
Import GetConductivity Expected MonadFacts Frame TopLevel Motion.

Section Run.
Variable E : env.

Lemma unmeasured_return_home : only unmeasured (return_home E).
Proof. unfold return_home. only_steps. Qed.



End Run.


End UserAbort.

(* ================================================================== *)
(** * What becomes of a device call that raises *)
(* ================================================================== *)

Module Escapes.
Import GetConductivity Expected MonadFacts SweepFacts Frame TopLevel.
Import Connecting WaysOut Motion.




Section Generic.
Variable Q : list event -> call -> exn -> list event -> Prop.
Hypothesis Q_stable :
  forall a b pre c e post, Q pre c e post -> Q (a ++ pre) c e (post ++ b).









Section Methods.
Variable E : env.









End Methods.

End Generic.




Section Run.
Variable E : env.










End Run.


End Escapes.
